(** * SiteOps: change detection, freshness guard and deployment gatekeeper

    A shallow embedding of the decision logic of the SiteOps pipeline
    (scripts/collector.py, scripts/writer.py, scripts/editor.py,
    scripts/deployer.py and scripts/utils/github_client.py) together with
    the properties its specification states about it.

    Conventions of the embedding.
    - Python [str] values are Rocq [string]s: the UTF-8 bytes of the text.
      The character classes used by the regular expressions ([\w], [\d],
      [[a-z]]) and [str.lower] are the ASCII ones; for ASCII text this is
      exactly what Python does.
    - Python [int] is [Z]; a number with a fraction, such as a threshold
      of the configuration, is a rational [Q].
    - A dictionary with a fixed set of keys is a record; a key that the
      code reads with [.get(key, default)] is an [option] field.
    - The answer of the generative reviewer is whatever JSON it wrote: the
      keys whose value the code appends to, iterates or compares
      ([issues], [change_percentage]) hold a [Json] value of any type, and
      the answer itself may be no object at all.  The keys the code only
      compares with text or prints ([status], [reason], [diff_summary],
      [slug], [path]) hold a string when they are present.
    - A function that can raise returns [exn + A]; code that talks to the
      remote repository runs in the monad [M] of Module [Deployer], whose
      state is the trace of calls performed so far. *)

From Stdlib Require Import Ascii String ZArith QArith Lia.
From stdpp Require Import base option list gmap strings.

Open Scope string_scope.
Open Scope Z_scope.

(** ** Python string primitives *)

Module PyStr.

Definition newline : string := String (ascii_of_nat 10) "".

(** [s.startswith(p)] *)
Definition startswith (p s : string) : bool := String.prefix p s.

Fixpoint drop (n : nat) (s : string) : string :=
  match n, s with
  | O, _ => s
  | S n', String _ s' => drop n' s'
  | S _, EmptyString => EmptyString
  end.

Fixpoint take (n : nat) (s : string) : string :=
  match n, s with
  | O, _ => EmptyString
  | S n', String c s' => String c (take n' s')
  | S _, EmptyString => EmptyString
  end.

(** [s.find(p)]: offset of the first occurrence of [p] in [s]. *)
Fixpoint find (p s : string) : option nat :=
  if startswith p s then Some O
  else match s with
       | EmptyString => None
       | String _ s' => S <$> find p s'
       end.

(** [p in s] *)
Definition contains (p s : string) : bool :=
  match find p s with Some _ => true | None => false end.

(** [s.endswith(p)] *)
Definition endswith (p s : string) : bool :=
  (String.length p <=? String.length s)%nat
  && String.eqb (drop (String.length s - String.length p) s) p.

(** [s.replace(old, new)] for a non-empty [old]: every non-overlapping
    occurrence, scanning from the left.  [skip] counts the characters of
    an occurrence that are still to be consumed. *)
Fixpoint replace_aux (old new : string) (skip : nat) (s : string) : string :=
  match s with
  | EmptyString => EmptyString
  | String c s' =>
      match skip with
      | S k => replace_aux old new k s'
      | O =>
          if startswith old s
          then new ++ replace_aux old new (String.length old - 1) s'
          else String c (replace_aux old new O s')
      end
  end.

Definition replace (old new s : string) : string := replace_aux old new O s.

Definition is_upper (c : ascii) : bool :=
  let n := nat_of_ascii c in ((65 <=? n) && (n <=? 90))%nat.

Definition is_lower (c : ascii) : bool :=
  let n := nat_of_ascii c in ((97 <=? n) && (n <=? 122))%nat.

Definition is_digit (c : ascii) : bool :=
  let n := nat_of_ascii c in ((48 <=? n) && (n <=? 57))%nat.

(** The class [\w]: letters, digits and the underscore. *)
Definition is_word (c : ascii) : bool :=
  is_upper c || is_lower c || is_digit c || Ascii.eqb c "_"%char.

Definition lower_char (c : ascii) : ascii :=
  if is_upper c then ascii_of_nat (nat_of_ascii c + 32) else c.

(** [s.lower()] *)
Fixpoint lower (s : string) : string :=
  match s with
  | EmptyString => EmptyString
  | String c s' => String (lower_char c) (lower s')
  end.

(** The longest prefix of characters of a class, and what follows it. *)
Fixpoint span (p : ascii -> bool) (s : string) : string * string :=
  match s with
  | EmptyString => (EmptyString, EmptyString)
  | String c s' =>
      if p c then let '(a, b) := span p s' in (String c a, b)
      else (EmptyString, s)
  end.

(** [sep.join(l)] *)
Fixpoint join (sep : string) (l : list string) : string :=
  match l with
  | [] => ""
  | [x] => x
  | x :: l' => x ++ sep ++ join sep l'
  end.

(** [s.split(sep)] for a one-character separator. *)
Fixpoint split (sep : ascii) (s : string) : list string :=
  match s with
  | EmptyString => [""]
  | String c s' =>
      if Ascii.eqb c sep then "" :: split sep s'
      else match split sep s' with
           | x :: l => String c x :: l
           | [] => [String c ""]
           end
  end.

(** [s[:n]] with Python's reading of a negative bound. *)
Definition slice_to (n : Z) (s : string) : string :=
  if 0 <=? n then take (Z.to_nat n) s
  else take (String.length s - Z.to_nat (- n)) s.

(** [l[:n]] on lists. *)
Definition lslice_to {A} (n : Z) (l : list A) : list A :=
  if 0 <=? n then firstn (Z.to_nat n) l
  else firstn (length l - Z.to_nat (- n)) l.

(** [l.append(x)] *)
Definition append {A} (l : list A) (x : A) : list A := (l ++ [x])%list.

End PyStr.

(** ** SHA-1, as [hashlib.sha1(text.encode()).hexdigest()] *)

Module SHA1.

Definition w32 (x : Z) : Z := x mod 2 ^ 32.

Definition rotl (n x : Z) : Z :=
  w32 (Z.lor (Z.shiftl x n) (Z.shiftr x (32 - n))).

Fixpoint bytes_of (s : string) : list Z :=
  match s with
  | EmptyString => []
  | String c s' => Z.of_nat (nat_of_ascii c) :: bytes_of s'
  end.

(** Big-endian bytes of [x], [n] of them. *)
Fixpoint be_bytes (n : nat) (x : Z) : list Z :=
  match n with
  | O => []
  | S n' => (Z.shiftr x (8 * Z.of_nat n')) mod 256 :: be_bytes n' x
  end.

Definition pad (msg : list Z) : list Z :=
  let len := Z.of_nat (length msg) in
  let zeros := Z.to_nat ((55 - len) mod 64) in
  msg ++ 128 :: repeat 0 zeros ++ be_bytes 8 (8 * len).

Fixpoint words_of (fuel : nat) (bs : list Z) : list Z :=
  match fuel, bs with
  | S f, b0 :: b1 :: b2 :: b3 :: rest =>
      (b0 * 2 ^ 24 + b1 * 2 ^ 16 + b2 * 2 ^ 8 + b3) :: words_of f rest
  | _, _ => []
  end.

Definition nthw (l : list Z) (i : nat) : Z := nth i l 0.

(** The message schedule, kept newest-first while it is extended. *)
Fixpoint extend (n : nat) (rev_w : list Z) : list Z :=
  match n with
  | O => rev_w
  | S n' =>
      let x := Z.lxor (Z.lxor (nthw rev_w 2) (nthw rev_w 7))
                      (Z.lxor (nthw rev_w 13) (nthw rev_w 15)) in
      extend n' (rotl 1 x :: rev_w)
  end.

Definition schedule (block : list Z) : list Z :=
  rev (extend 64 (rev (words_of 16 block))).

Definition state : Type := Z * Z * Z * Z * Z.

Definition round (i : nat) (st : state) (w : Z) : state :=
  let '(a, b, c, d, e) := st in
  let '(f, k) :=
    if (i <? 20)%nat then
      (Z.lor (Z.land b c) (Z.land (Z.lxor b (2 ^ 32 - 1)) d), 0x5A827999)
    else if (i <? 40)%nat then
      (Z.lxor (Z.lxor b c) d, 0x6ED9EBA1)
    else if (i <? 60)%nat then
      (Z.lor (Z.lor (Z.land b c) (Z.land b d)) (Z.land c d), 0x8F1BBCDC)
    else
      (Z.lxor (Z.lxor b c) d, 0xCA62C1D6) in
  (w32 (rotl 5 a + f + e + k + w), a, rotl 30 b, c, d).

Fixpoint rounds (i : nat) (ws : list Z) (st : state) : state :=
  match ws with
  | [] => st
  | w :: ws' => rounds (S i) ws' (round i st w)
  end.

Definition compress (h : state) (block : list Z) : state :=
  let '(h0, h1, h2, h3, h4) := h in
  let '(a, b, c, d, e) := rounds 0 (schedule block) h in
  (w32 (h0 + a), w32 (h1 + b), w32 (h2 + c), w32 (h3 + d), w32 (h4 + e)).

Fixpoint blocks (fuel : nat) (bs : list Z) (h : state) : state :=
  match fuel, bs with
  | S f, _ :: _ => blocks f (skipn 64 bs) (compress h (firstn 64 bs))
  | _, _ => h
  end.

Definition init : state :=
  (0x67452301, 0xEFCDAB89, 0x98BADCFE, 0x10325476, 0xC3D2E1F0).

Definition hex_digit (x : Z) : ascii :=
  if x <? 10 then ascii_of_nat (Z.to_nat (48 + x))
  else ascii_of_nat (Z.to_nat (87 + x)).

Fixpoint hex (n : nat) (x : Z) : string :=
  match n with
  | O => ""
  | S n' => String (hex_digit ((Z.shiftr x (4 * Z.of_nat n')) mod 16)) (hex n' x)
  end.

Definition hexdigest (s : string) : string :=
  let bs := pad (bytes_of s) in
  let '(h0, h1, h2, h3, h4) := blocks (length bs) bs init in
  hex 8 h0 ++ hex 8 h1 ++ hex 8 h2 ++ hex 8 h3 ++ hex 8 h4.

End SHA1.

(** ** Exceptions *)

(** The exceptions the modelled code can see; each carries the text that
    [str(e)] yields. *)
Inductive exn : Type :=
| HTTPError (status : Z) (msg : string)        (* requests.exceptions.HTTPError *)
| GithubException (status : Z) (msg : string)  (* github.GithubException *)
| ValueError (msg : string)
| ReError (msg : string)                       (* re.error *)
| OtherException (msg : string).

Definition exn_str (e : exn) : string :=
  match e with
  | HTTPError _ m | GithubException _ m | ValueError m | ReError m
  | OtherException m => m
  end.

(** The error monad of code that raises. *)
Definition raise {A} (e : exn) : exn + A := inl e.

Definition ebind {A B} (x : exn + A) (k : A -> exn + B) : exn + B :=
  match x with
  | inl e => inl e
  | inr a => k a
  end.

Declare Scope err_scope.
Delimit Scope err_scope with err.
Notation "'let?' x := c 'in' k" := (ebind c (fun x => k))
  (at level 10, x pattern, c at level 100, k at level 200, only parsing) : err_scope.

(** ** scripts/utils/github_client.py *)

Record Commit := {
  commit_sha : string;
  commit_date : string;
  commit_message : string;
  commit_type : option string;       (* read with [.get("type", "other")] *)
  commit_author : string
}.

Record Release := {
  release_tag : string;
  release_name : string;
  release_date : option string;
  release_notes : string;
  release_prerelease : bool;
  release_draft : bool
}.

Record RepoMeta := {
  meta_description : option string;
  meta_stargazers_count : option Z;
  meta_forks_count : option Z
}.

Record Readme := {
  readme_content : string;
  readme_sha : option string;
  readme_size : Z
}.

(** One entry of a directory listing of the target repository. *)
Record DirItem := {
  item_type : string;
  item_name : string;
  item_path : string;
  item_sha : string
}.

(** [GitHubClient]: the read-only queries of the code-hosting API.  The
    HTTP layer is the external collaborator; each query either returns
    its structured record or raises. *)
Class GitHubClient := {
  get_repo : string -> string -> exn + RepoMeta;
  get_commits : string -> string -> Z -> exn + list Commit;
  get_releases : string -> string -> Z -> exn + list Release;
  get_languages : string -> string -> exn + list string;
  get_readme : string -> string -> exn + Readme;
  search_repos_by_topic : string -> string -> exn + list string;
  (** [_request("GET", "/repos/o/r/contents/<dir>", ref)] *)
  list_contents : string -> string -> string -> string -> exn + list DirItem;
  (** [get_file_content]: [None] on an HTTP error. *)
  get_file_content : string -> string -> string -> string -> exn + option string
}.

(** What the index holds for one published page. *)
Record BioState := {
  bio_exists : bool;
  bio_path : option string;
  bio_sha : option string;
  bio_content : option string;
  bio_manual_sections : list string;
  bio_locked : bool;
  bio_last_deploy : option string
}.

Module BioSiteClient.

Import PyStr.

Record t := { owner : string; repo : string; branch : string }.

Definition manual_open : string := "<!-- MANUAL:".
Definition manual_close : string := "<!-- /MANUAL:".
Definition comment_end : string := " -->".

(** One match of [<!-- MANUAL:(\w+) -->] at the start of [s]: the name
    and what follows the marker.  [\w+] is greedy and the next character
    must be the space of [" -->"], so only the longest run of word
    characters can match. *)
Definition match_begin (s : string) : option (string * string) :=
  if startswith manual_open s then
    let '(name, rest) := span is_word (drop (String.length manual_open) s) in
    if (0 <? String.length name)%nat && startswith comment_end rest
    then Some (name, drop (String.length comment_end) rest)
    else None
  else None.

(** One match of [(<!-- MANUAL:(\w+) -->.*?<!-- /MANUAL:\2 -->)] at the
    start of [s] (with [re.DOTALL]): the lazy [.*?] stops at the first
    end marker that carries the same name. *)
Definition match_section (s : string) : option string :=
  match match_begin s with
  | Some (name, rest) =>
      let close := manual_close ++ name ++ comment_end in
      match find close rest with
      | Some k =>
          Some (take (String.length manual_open + String.length name
                      + String.length comment_end + k + String.length close) s)
      | None => None
      end
  | None => None
  end.

(** [re.findall]: leftmost matches, scanning on after each one. *)
Fixpoint findall_sections (skip : nat) (s : string) : list string :=
  match s with
  | EmptyString => []
  | String _ s' =>
      match skip with
      | S k => findall_sections k s'
      | O =>
          match match_section s with
          | Some m => m :: findall_sections (String.length m - 1) s'
          | None => findall_sections O s'
          end
      end
  end.

Definition _extract_manual_sections (html : string) : list string :=
  findall_sections O html.

Definition _check_lock (html : string) : bool := contains "<!-- LOCK -->" html.

(** [\d{4}-\d{2}-\d{2}] at the start of [s]. *)
Definition match_date (s : string) : option string :=
  let d := take 10 s in
  match list_ascii_of_string d with
  | [y1; y2; y3; y4; h1; m1; m2; h2; d1; d2] =>
      if is_digit y1 && is_digit y2 && is_digit y3 && is_digit y4
         && Ascii.eqb h1 "-" && is_digit m1 && is_digit m2
         && Ascii.eqb h2 "-" && is_digit d1 && is_digit d2
      then Some d else None
  | _ => None
  end.

(** [re.search(r'<!-- DEPLOYED: (\d{4}-\d{2}-\d{2}) -->', html)] *)
Fixpoint _extract_deploy_date (html : string) : option string :=
  let here :=
    if startswith "<!-- DEPLOYED: " html then
      let rest := drop 15 html in
      match match_date rest with
      | Some d => if startswith comment_end (drop 10 rest) then Some d else None
      | None => None
      end
    else None in
  match here with
  | Some d => Some d
  | None =>
      match html with
      | EmptyString => None
      | String _ html' => _extract_deploy_date html'
      end
  end.

Definition truthy (s : option string) : option string :=
  match s with
  | Some "" | None => None
  | Some c => Some c
  end.

Section WithClient.
Context `{GitHubClient}.
Open Scope err_scope.

(** The body of the loop over the listing: [index[slug] = {...}] for an
    [.html] file. *)
Definition index_item (self : t) (index : gmap string BioState) (item : DirItem)
  : exn + gmap string BioState :=
  if String.eqb (item_type item) "file" && endswith ".html" (item_name item) then
    let slug := replace ".html" "" (item_name item) in
    let? content := get_file_content (owner self) (repo self) (item_path item) (branch self) in
    inr (<[ slug := {|
      bio_exists := true;
      bio_path := Some (item_path item);
      bio_sha := Some (item_sha item);
      bio_content := content;
      bio_manual_sections :=
        match truthy content with Some c => _extract_manual_sections c | None => [] end;
      bio_locked :=
        match truthy content with Some c => _check_lock c | None => false end;
      bio_last_deploy :=
        match truthy content with Some c => _extract_deploy_date c | None => None end
    |} ]> index)
  else inr index.

(** The loop mutates [index] in place: when an item raises, the entries
    written so far stay. *)
Fixpoint index_items (self : t) (index : gmap string BioState) (items : list DirItem)
  : gmap string BioState * option exn :=
  match items with
  | [] => (index, None)
  | item :: items' =>
      match index_item self index item with
      | inl e => (index, Some e)
      | inr index' => index_items self index' items'
      end
  end.

(** A missing directory (an HTTP error on the listing) is an empty
    index, not an error. *)
Definition get_project_index (self : t) (output_dir : string)
  : exn + gmap string BioState :=
  match list_contents (owner self) (repo self) output_dir (branch self) with
  | inl (HTTPError _ _) => inr ∅
  | inl e => inl e
  | inr items =>
      match index_items self ∅ items with
      | (index, None) | (index, Some (HTTPError _ _)) => inr index
      | (_, Some e) => inl e
      end
  end.

End WithClient.

End BioSiteClient.

(** ** config/settings.yaml

    The configuration file is not part of the sources; its sections are
    taken as they are read by the code. *)

Record Discovery := {
  method : string;
  topic_tag : string;
  discovery_owner : string;
  fallback_list : list string
}.

Module Target.
Record t := {
  repo : string;
  branch : string;
  output_dir : string
}.
End Target.

Record CollectorSettings := {
  commits_lookback_days : option Z;
  readme_excerpt_length : option Z
}.

(** The section [scoring]: bonuses, the no-activity sentinel and the
    threshold. *)
Record Scoring := {
  new_release : Z;
  readme_changed : Z;
  feat_commit : Z;
  refactor_commit : Z;
  fix_commit : Z;
  no_commits : Z;
  update_threshold : Z
}.

Record Workflow := {
  workflow_mode : string;
  workflow_force_pr_on_high_risk : option bool;
  workflow_high_risk_threshold : option Q
}.

Record Policy := {
  forbidden_words : list string;
  required_sections : option (list string)
}.

Record Config := {
  discovery : Discovery;
  target : Target.t;
  collector : option CollectorSettings;
  scoring : Scoring;
  workflow : Workflow;
  policy : Policy
}.

(** What the host gives besides the network: the clock and the digest of
    the serialised configuration. *)
Class Host := {
  utcnow_isoformat : string;      (* datetime.utcnow().isoformat() *)
  utcnow_date : string;           (* datetime.utcnow().strftime("%Y-%m-%d") *)
  md5_config : Config -> string   (* md5(json.dumps(config))[:8] *)
}.

(** ** scripts/collector.py *)

(** The verdict of the scorer. *)
Module Significance.
Record t := {
  change_score : Z;
  status : string;
  change_reason : string
}.
End Significance.

(** One entry of [context["projects"]].  A locked project and a project
    whose fetch failed carry the first seven keys only. *)
Module Project.
Record details := {
  last_deploy : option string;
  commits : list Commit;
  languages : list string;
  readme_excerpt : string;
  readme_sha : option string;
  releases : list Release;
  description : string;
  stars : Z;
  forks : Z;
  current_html : option string;
  manual_sections : list string
}.
Record t := {
  slug : string;
  repo : string;
  exists_ : bool;
  locked : bool;
  status : string;
  change_score : Z;
  change_reason : string;
  more : option details
}.
End Project.

Module Summary.
Record t := {
  total : Z;
  updates : Z;
  skips : Z;
  new : Z;
  locked : Z
}.
End Summary.

Module Context.
Record t := {
  generated_at : string;
  config_hash : string;
  projects : list Project.t;
  summary : Summary.t
}.
End Context.

Module Collector.

Import PyStr.

Record t := {
  config : Config;
  bio_site : BioSiteClient.t;
  dry_run : bool;
  force_update : bool
}.

Definition set_dry_run (b : bool) (self : t) : t :=
  {| config := config self; bio_site := bio_site self;
     dry_run := b; force_update := force_update self |}.

(** [x not in reasons] then [reasons.append(x)] *)
Definition append_once (x : string) (reasons : list string) : list string :=
  if existsb (String.eqb x) reasons then reasons else append reasons x.

(** The body of [for commit in commits]. *)
Definition score_commit (scoring : Scoring) (acc : Z * list string) (commit : Commit)
  : Z * list string :=
  let '(score, reasons) := acc in
  let commit_type := default "other" (commit_type commit) in
  if String.eqb commit_type "feat" then
    (score + feat_commit scoring, append_once "feature_commit" reasons)
  else if String.eqb commit_type "refactor" then
    (score + refactor_commit scoring, append_once "refactor_commit" reasons)
  else if String.eqb commit_type "fix" then
    (score + fix_commit scoring, append_once "fix_commit" reasons)
  else (score, reasons).

Definition is_empty {A} (l : list A) : bool :=
  match l with [] => true | _ => false end.

Definition _calculate_significance (self : t)
    (commits : list Commit) (releases : list Release)
    (readme_changed_ : bool) (is_new : bool) : Significance.t :=
  let scoring := scoring (config self) in
  let score := 0 in
  let reasons : list string := [] in
  if is_new then
    {| Significance.change_score := 999;
       Significance.status := "new";
       Significance.change_reason := "new_project" |}
  else if is_empty commits && is_empty releases then
    {| Significance.change_score := no_commits scoring;
       Significance.status := "skip";
       Significance.change_reason := "no_activity" |}
  else
    let '(score, reasons) :=
      if negb (is_empty releases)
      then (score + new_release scoring, append reasons "release_tag")
      else (score, reasons) in
    let '(score, reasons) :=
      if readme_changed_
      then (score + readme_changed scoring, append reasons "readme_changed")
      else (score, reasons) in
    let '(score, reasons) := fold_left (score_commit scoring) commits (score, reasons) in
    let threshold := update_threshold scoring in
    let status := if threshold <=? score then "update" else "skip" in
    {| Significance.change_score := score;
       Significance.status := status;
       Significance.change_reason :=
         match reasons with
         | r :: _ => r
         | [] => "low_significance"
         end |}.

Definition _check_readme_changed (readme : Readme) (bio_state : BioState) : bool :=
  if negb (bio_exists bio_state) then true
  else negb (String.eqb (readme_content readme) "").

(** The record used for a slug the index does not know. *)
Definition no_bio_state : BioState :=
  {| bio_exists := false; bio_path := None; bio_sha := None;
     bio_content := None; bio_manual_sections := [];
     bio_locked := false; bio_last_deploy := None |}.

(** What the [try] block of [_collect_project] fetches. *)
Record Fetched := {
  repo_meta : RepoMeta;
  f_commits : list Commit;
  f_releases : list Release;
  f_languages : list string;
  f_readme : Readme
}.

Section WithEnvironment.
Context `{GitHubClient} `{Host}.
Open Scope err_scope.

Definition _discover_projects (self : t) : list string :=
  let discovery := discovery (config self) in
  if String.eqb (method discovery) "list" then fallback_list discovery
  else
    match search_repos_by_topic (discovery_owner discovery) (topic_tag discovery) with
    | inr (r :: repos) => r :: repos
    | inr [] => fallback_list discovery
    | inl _ => fallback_list discovery
    end.

Definition fetch_project (owner repo : string) (lookback_days : Z) : exn + Fetched :=
  let? repo_meta := get_repo owner repo in
  let? commits := get_commits owner repo lookback_days in
  let? releases := get_releases owner repo 5 in
  let? languages := get_languages owner repo in
  let? readme := get_readme owner repo in
  inr {| repo_meta := repo_meta; f_commits := commits; f_releases := releases;
         f_languages := languages; f_readme := readme |}.

Definition _collect_project (self : t) (repo_full_name : string)
    (bio_index : gmap string BioState) : exn + Project.t :=
  match split "/" repo_full_name with
  | [owner; repo] =>
      let slug := repo in
      let bio_state := default no_bio_state (bio_index !! slug) in
      if bio_locked bio_state then
        inr {| Project.slug := slug; Project.repo := repo_full_name;
               Project.exists_ := true; Project.locked := true;
               Project.status := "skip"; Project.change_score := 0;
               Project.change_reason := "locked"; Project.more := None |}
      else
        let lookback_days :=
          default 30 (collector (config self) ≫= commits_lookback_days) in
        let excerpt_length :=
          default 500 (collector (config self) ≫= readme_excerpt_length) in
        match fetch_project owner repo lookback_days with
        | inl e =>
            inr {| Project.slug := slug; Project.repo := repo_full_name;
                   Project.exists_ := bio_exists bio_state; Project.locked := false;
                   Project.status := "error"; Project.change_score := 0;
                   Project.change_reason := "fetch_error: " ++ exn_str e;
                   Project.more := None |}
        | inr f =>
            let readme_changed := _check_readme_changed (f_readme f) bio_state in
            let significance :=
              _calculate_significance self (f_commits f) (f_releases f)
                readme_changed (negb (bio_exists bio_state)) in
            let significance :=
              if force_update self
                 && String.eqb (Significance.status significance) "skip"
              then {| Significance.change_score := Significance.change_score significance;
                      Significance.status := "update";
                      Significance.change_reason := "force_update" |}
              else significance in
            inr {| Project.slug := slug; Project.repo := repo_full_name;
                   Project.exists_ := bio_exists bio_state; Project.locked := false;
                   Project.status := Significance.status significance;
                   Project.change_score := Significance.change_score significance;
                   Project.change_reason := Significance.change_reason significance;
                   Project.more := Some {|
                     Project.last_deploy := bio_last_deploy bio_state;
                     Project.commits := lslice_to 10 (f_commits f);
                     Project.languages := lslice_to 5 (f_languages f);
                     Project.readme_excerpt :=
                       slice_to excerpt_length (readme_content (f_readme f));
                     Project.readme_sha := readme_sha (f_readme f);
                     Project.releases := lslice_to 3 (f_releases f);
                     Project.description :=
                       default "" (meta_description (repo_meta f));
                     Project.stars := default 0 (meta_stargazers_count (repo_meta f));
                     Project.forks := default 0 (meta_forks_count (repo_meta f));
                     Project.current_html := bio_content bio_state;
                     Project.manual_sections := bio_manual_sections bio_state |} |}
        end
  | parts =>
      raise (ValueError (if (length parts <? 2)%nat
                         then "not enough values to unpack"
                         else "too many values to unpack"))
  end.

(** The update of [context["summary"]] after one project. *)
Definition count_project (s : Summary.t) (project_data : Project.t) : Summary.t :=
  if Project.locked project_data then
    {| Summary.total := Summary.total s; Summary.updates := Summary.updates s;
       Summary.skips := Summary.skips s; Summary.new := Summary.new s;
       Summary.locked := Summary.locked s + 1 |}
  else if String.eqb (Project.status project_data) "update" then
    {| Summary.total := Summary.total s; Summary.updates := Summary.updates s + 1;
       Summary.skips := Summary.skips s; Summary.new := Summary.new s;
       Summary.locked := Summary.locked s |}
  else if String.eqb (Project.status project_data) "new" then
    {| Summary.total := Summary.total s; Summary.updates := Summary.updates s;
       Summary.skips := Summary.skips s; Summary.new := Summary.new s + 1;
       Summary.locked := Summary.locked s |}
  else
    {| Summary.total := Summary.total s; Summary.updates := Summary.updates s;
       Summary.skips := Summary.skips s + 1; Summary.new := Summary.new s;
       Summary.locked := Summary.locked s |}.

(** [for repo_full_name in projects]: the context after the projects
    still to be processed. *)
Fixpoint collect_all (self : t) (bio_index : gmap string BioState)
    (projects : list string) (context : Context.t) : exn + Context.t :=
  match projects with
  | [] => inr context
  | repo_full_name :: projects' =>
      let? project_data := _collect_project self repo_full_name bio_index in
      collect_all self bio_index projects'
        {| Context.generated_at := Context.generated_at context;
           Context.config_hash := Context.config_hash context;
           Context.projects := append (Context.projects context) project_data;
           Context.summary := count_project (Context.summary context) project_data |}
  end.

Definition run (self : t) : exn + Context.t :=
  let projects := _discover_projects self in
  let? bio_index :=
    BioSiteClient.get_project_index (bio_site self)
      (Target.output_dir (target (config self))) in
  collect_all self bio_index projects
    {| Context.generated_at := utcnow_isoformat ++ "Z";
       Context.config_hash := md5_config (config self);
       Context.projects := [];
       Context.summary :=
         {| Summary.total := Z.of_nat (length projects);
            Summary.updates := 0; Summary.skips := 0;
            Summary.new := 0; Summary.locked := 0 |} |}.

(** The value written to the [has_updates] output after a run. *)
Definition has_updates (context : Context.t) : bool :=
  0 <? Summary.updates (Context.summary context) + Summary.new (Context.summary context).

End WithEnvironment.

End Collector.

(** ** The replacement template of [re.sub]

    [re.sub(pattern, repl, string)] with a string [repl] does not insert
    [repl] as it is: it first parses it as a template, in which a
    backslash starts an escape.  The patterns used here have no group, so
    the only group a template can refer to is group 0, the whole match. *)

Module Template.

Import PyStr.

Inductive part : Type :=
| Lit (text : string)
| Group0.

Definition chr (n : Z) : string := String (ascii_of_nat (Z.to_nat n)) "".

Definition is_octal (c : ascii) : bool :=
  let n := nat_of_ascii c in ((48 <=? n) && (n <=? 55))%nat.

Definition digit_val (c : ascii) : Z := Z.of_nat (nat_of_ascii c) - 48.

Definition all_chars (p : ascii -> bool) (s : string) : bool :=
  forallb p (list_ascii_of_string s).

(** The escapes with a fixed meaning: [\a \b \f \n \r \t \v \\]. *)
Definition simple_escape (c : ascii) : option Z :=
  if Ascii.eqb c "a" then Some 7
  else if Ascii.eqb c "b" then Some 8
  else if Ascii.eqb c "f" then Some 12
  else if Ascii.eqb c "n" then Some 10
  else if Ascii.eqb c "r" then Some 13
  else if Ascii.eqb c "t" then Some 9
  else if Ascii.eqb c "v" then Some 11
  else if Ascii.eqb c "\" then Some 92
  else None.

(** What a backslash followed by [rest] stands for, and how many
    characters after the backslash belong to the escape.  A group name
    in [\g<...>] is read as Python 3.12 and later read it: a number is
    a run of ASCII digits. *)
Definition escape (rest : string) : exn + (part * nat) :=
  match rest with
  | EmptyString => raise (ReError "bad escape (end of pattern)")
  | String c r =>
      if Ascii.eqb c "g" then
        match r with
        | String "<" r' =>
            match find ">" r' with
            | None => raise (ReError "missing >, unterminated name")
            | Some O => raise (ReError "missing group name")
            | Some k =>
                let name := take k r' in
                if all_chars is_digit name then
                  if all_chars (Ascii.eqb "0") name
                  then inr (Group0, (k + 3)%nat)
                  else raise (ReError "invalid group reference")
                else if is_digit (default "0"%char (head (list_ascii_of_string name)))
                then raise (ReError "bad character in group name")
                else if all_chars is_word name
                then raise (OtherException "unknown group name")
                else raise (ReError "bad character in group name")
            end
        | _ => raise (ReError "missing <")
        end
      else if Ascii.eqb c "0" then
        match r with
        | String d1 r1 =>
            if is_octal d1 then
              match r1 with
              | String d2 _ =>
                  if is_octal d2
                  then inr (Lit (chr (Z.land (8 * digit_val d1 + digit_val d2) 255)), 3%nat)
                  else inr (Lit (chr (digit_val d1)), 2%nat)
              | EmptyString => inr (Lit (chr (digit_val d1)), 2%nat)
              end
            else inr (Lit (chr 0), 1%nat)
        | EmptyString => inr (Lit (chr 0), 1%nat)
        end
      else if is_digit c then
        match r with
        | String d1 (String d2 _) =>
            if is_digit d1 && is_octal c && is_octal d1 && is_octal d2 then
              let v := 64 * digit_val c + 8 * digit_val d1 + digit_val d2 in
              if 255 <? v
              then raise (ReError "octal escape value outside of range 0-0o377")
              else inr (Lit (chr v), 3%nat)
            else raise (ReError "invalid group reference")
        | _ => raise (ReError "invalid group reference")
        end
      else
        match simple_escape c with
        | Some n => inr (Lit (chr n), 1%nat)
        | None =>
            if is_upper c || is_lower c
            then raise (ReError "bad escape")
            else inr (Lit (String "\" (String c "")), 1%nat)
        end
  end.

Open Scope err_scope.

(** [parse_template]; [skip] counts the characters of an escape that are
    still to be consumed. *)
Fixpoint parse (skip : nat) (repl : string) : exn + list part :=
  match repl with
  | EmptyString => inr []
  | String c repl' =>
      match skip with
      | S k => parse k repl'
      | O =>
          if Ascii.eqb c "\" then
            let? (p, n) := escape repl' in
            let? ps := parse n repl' in
            inr (p :: ps)
          else
            let? ps := parse O repl' in
            inr (Lit (String c "") :: ps)
      end
  end.

(** The text that replaces one match. *)
Fixpoint expand (parts : list part) (whole : string) : string :=
  match parts with
  | [] => ""
  | Lit text :: parts' => text ++ expand parts' whole
  | Group0 :: parts' => whole ++ expand parts' whole
  end.

End Template.

(** ** scripts/writer.py *)

Module WriterAgent.

Import PyStr.

(** [re.search(r'<!-- MANUAL:(\w+) -->', section)]: the name in the
    leftmost begin marker. *)
Fixpoint search_name (section : string) : option string :=
  match BioSiteClient.match_begin section with
  | Some (name, _) => Some name
  | None =>
      match section with
      | EmptyString => None
      | String _ section' => search_name section'
      end
  end.

(** One match of [<!-- MANUAL:name -->.*?<!-- /MANUAL:name -->] at the
    start of [s]: the matched text. *)
Definition match_placeholder (section_name s : string) : option string :=
  let opening := BioSiteClient.manual_open ++ section_name ++ BioSiteClient.comment_end in
  let close := BioSiteClient.manual_close ++ section_name ++ BioSiteClient.comment_end in
  if startswith opening s then
    match find close (drop (String.length opening) s) with
    | Some k => Some (take (String.length opening + k + String.length close) s)
    | None => None
    end
  else None.

(** The scan of [re.sub]: every leftmost match is replaced, the text
    between matches is kept. *)
Fixpoint sub_scan (section_name : string) (repl : list Template.part)
    (skip : nat) (s : string) : string :=
  match s with
  | EmptyString => EmptyString
  | String c s' =>
      match skip with
      | S k => sub_scan section_name repl k s'
      | O =>
          match match_placeholder section_name s with
          | Some m =>
              Template.expand repl m
              ++ sub_scan section_name repl (String.length m - 1) s'
          | None => String c (sub_scan section_name repl O s')
          end
      end
  end.

Open Scope err_scope.

(** [re.sub(placeholder_pattern, section, draft, flags=re.DOTALL)]; the
    template is parsed before the scan starts. *)
Definition re_sub (section_name section draft : string) : exn + string :=
  let? repl := Template.parse O section in
  inr (sub_scan section_name repl O draft).

Fixpoint _inject_manual_sections (draft : string) (manual_sections : list string)
  : exn + string :=
  match manual_sections with
  | [] => inr draft
  | section :: manual_sections' =>
      match search_name section with
      | None => _inject_manual_sections draft manual_sections'
      | Some section_name =>
          let? draft := re_sub section_name section draft in
          _inject_manual_sections draft manual_sections'
      end
  end.

End WriterAgent.

(** ** JSON values

    A value as [json.loads] returns it, as far as the code looks into
    it: of a list its items as text, of an object its keys. *)
Inductive Json : Type :=
| JNull
| JBool (b : bool)
| JInt (z : Z)
| JFloat (q : Q)
| JString (s : string)
| JList (items : list string)
| JObject (keys : list string).

Module PyJson.

(** [type(v).__name__] *)
Definition type_name (v : Json) : string :=
  match v with
  | JNull => "NoneType"
  | JBool _ => "bool"
  | JInt _ => "int"
  | JFloat _ => "float"
  | JString _ => "str"
  | JList _ => "list"
  | JObject _ => "dict"
  end.

(** The number a value is in a comparison with a number, when it is
    one; [bool] is a subclass of [int]. *)
Definition number (v : Json) : option Q :=
  match v with
  | JBool b => Some (if b then 1 else 0)%Q
  | JInt z => Some (inject_Z z)
  | JFloat q => Some q
  | _ => None
  end.

(** [v.append(x)]: only a list has the method. *)
Definition append (v : Json) (x : string) : exn + Json :=
  match v with
  | JList items => inr (JList (PyStr.append items x))
  | _ =>
      raise (OtherException
               ("'" ++ type_name v ++ "' object has no attribute 'append'"))
  end.

(** [bool(v)] *)
Definition truthy (v : Json) : bool :=
  match v with
  | JNull => false
  | JBool b => b
  | JInt z => negb (z =? 0)
  | JFloat q => negb (Qeq_bool q 0)
  | JString s => negb (String.eqb s "")
  | JList items => negb (Collector.is_empty items)
  | JObject keys => negb (Collector.is_empty keys)
  end.

(** What [for x in v] iterates over: the items of a list, the
    characters of a string, the keys of an object; nothing else can be
    iterated. *)
Definition iterate (v : Json) : exn + list string :=
  match v with
  | JList items => inr items
  | JString s => inr (map (fun c => String c "") (list_ascii_of_string s))
  | JObject keys => inr keys
  | _ => raise (OtherException ("'" ++ type_name v ++ "' object is not iterable"))
  end.

End PyJson.

(** ** scripts/editor.py *)

(** The verdict object of the reviewer, as parsed from its answer.  The
    keys are optional: the answer is whatever the generative reviewer
    wrote.  [slug] and [path] are keys the reviewer was not asked for; an
    answer that holds them overrides the slug and the path of the entry
    built from it. *)
Module Review.
Record t := {
  slug : option string;
  path : option string;
  status : option string;
  reason : option string;
  issues : option Json;
  diff_summary : option string;
  change_percentage : option Json
}.

Definition set_status (s r : string) (v : t) : t :=
  {| slug := slug v; path := path v;
     status := Some s; reason := Some r; issues := issues v;
     diff_summary := diff_summary v; change_percentage := change_percentage v |}.

(** [verdict["issues"] = issues] *)
Definition set_issues (l : Json) (v : t) : t :=
  {| slug := slug v; path := path v;
     status := status v; reason := reason v; issues := Some l;
     diff_summary := diff_summary v; change_percentage := change_percentage v |}.
End Review.

(** What [_review_draft] returns: the parsed answer of the reviewer,
    which is a verdict object or any other JSON value. *)
Inductive Reviewed : Type :=
| Dict (verdict : Review.t)
| NoDict (v : Json).

(** One entry of [editor_results["verdicts"]]: the review with the slug
    and the path of the saved verdict; the Deployer later marks a detected
    conflict on it. *)
Module Verdict.
Record t := {
  slug : string;
  path : option string;
  review : Review.t;
  _conflict_detected : bool
}.
End Verdict.

(** The generative reviewer: one request, one answer, parsed by
    [json.loads].  [inr None] is an answer that is not valid JSON;
    [NoDict v] is valid JSON that is no object ([v] is then no
    [JObject]). *)
Class Reviewer := {
  ask_review : string -> string -> Project.t -> exn + option Reviewed
}.

Module EditorAgent.

Import PyStr.

Record t := {
  config : Config;
  dry_run : bool
}.

Definition dquote : string := String (ascii_of_nat 34) "".

(** [len(re.findall(r'<[a-z]', s))]: a match is two characters long and
    starts with [<], so two matches never overlap. *)
Fixpoint count_open_tags (s : string) : Z :=
  match s with
  | EmptyString => 0
  | String c s' =>
      (if Ascii.eqb c "<"
          && match s' with String d _ => is_lower d | EmptyString => false end
       then 1 else 0) + count_open_tags s'
  end.

(** [len(re.findall(r'</[a-z]', s))] *)
Fixpoint count_close_tags (s : string) : Z :=
  match s with
  | EmptyString => 0
  | String c s' =>
      (if Ascii.eqb c "<"
          && match s' with
             | String "/" (String d _) => is_lower d
             | _ => false
             end
       then 1 else 0) + count_close_tags s'
  end.

Definition _is_valid_html (html : string) : bool :=
  let has_html := contains "<html" (lower html) && contains "</html>" (lower html) in
  let has_body := contains "<body" (lower html) && contains "</body>" (lower html) in
  let open_tags := count_open_tags (lower html) in
  let close_tags := count_close_tags (lower html) in
  has_html && has_body && (Z.abs (open_tags - close_tags) <? 10).

Local Open Scope err_scope.

Definition missing_section (draft section : string) : bool :=
  negb (contains ("id=" ++ dquote ++ section ++ dquote) draft)
  && negb (contains ("id='" ++ section ++ "'") draft).

(** Check 1: forbidden words.  The issue is appended before the status
    is read. *)
Definition check_forbidden_words (self : t) (issues : Json) (verdict : Review.t)
    (draft : string) : exn + Json * Review.t :=
  let draft_lower := lower draft in
  let found_forbidden :=
    List.filter (fun word => contains (lower word) draft_lower)
      (forbidden_words (policy (config self))) in
  match found_forbidden with
  | [] => inr (issues, verdict)
  | _ :: _ =>
      let? issues :=
        PyJson.append issues ("Forbidden words found: " ++ join ", " found_forbidden) in
      match Review.status verdict with
      | None => raise (OtherException "'status'")     (* KeyError *)
      | Some s =>
          if String.eqb s "APPROVE" then
            inr (issues,
                 Review.set_status "FLAGGED"
                   ("Contains forbidden words: " ++ join ", " found_forbidden) verdict)
          else inr (issues, verdict)
      end
  end.

(** Check 2: HTML validity.  The issue is appended before the status is
    set. *)
Definition check_html (issues : Json) (verdict : Review.t) (draft : string)
  : exn + Json * Review.t :=
  if negb (_is_valid_html draft) then
    let? issues := PyJson.append issues "HTML structure appears invalid" in
    inr (issues, Review.set_status "REJECT" "Invalid HTML structure" verdict)
  else inr (issues, verdict).

(** Check 3: required sections. *)
Fixpoint check_sections (draft : string) (sections : list string) (issues : Json)
  : exn + Json :=
  match sections with
  | [] => inr issues
  | section :: sections' =>
      if missing_section draft section then
        let? issues := PyJson.append issues ("Missing required section: " ++ section) in
        check_sections draft sections' issues
      else check_sections draft sections' issues
  end.

Definition _add_deterministic_checks (self : t) (verdict : Reviewed) (draft : string)
  : exn + Review.t :=
  match verdict with
  | NoDict v =>
      (* [verdict.get] on a value that is no dictionary *)
      raise (OtherException
               ("'" ++ PyJson.type_name v ++ "' object has no attribute 'get'"))
  | Dict verdict =>
      let issues := default (JList []) (Review.issues verdict) in
      let? (issues, verdict) := check_forbidden_words self issues verdict draft in
      let? (issues, verdict) := check_html issues verdict draft in
      let? issues :=
        check_sections draft
          (default [] (required_sections (policy (config self)))) issues in
      inr (Review.set_issues issues verdict)
  end.

(** The verdict used when the answer of the reviewer does not parse. *)
Definition unparsed_verdict : Review.t :=
  {| Review.slug := None; Review.path := None;
     Review.status := Some "FLAGGED";
     Review.reason := Some "Failed to parse AI review response";
     Review.issues := Some (JList ["AI response was not valid JSON"]);
     Review.diff_summary := Some "Unknown";
     Review.change_percentage := Some (JInt 0) |}.

Section WithReviewer.
Context `{Reviewer}.
Open Scope err_scope.

Definition _review_draft (self : t) (draft current : string) (context : Project.t)
  : exn + Reviewed :=
  let? answer := ask_review draft current context in
  inr (default (Dict unparsed_verdict) answer).

End WithReviewer.

End EditorAgent.

(** *** The review loop *)

(** One entry of [writer_results["drafts"]]. *)
Record DraftInfo := {
  draft_slug : string;
  draft_path : string;
  draft_status : string;
  draft_is_new : bool
}.

(** The working directory as the Editor reads it. *)
Class EditorFiles := {
  editor_draft_file : string -> option string;       (* the draft at a path *)
  editor_context_json : option Context.t;            (* _data/context.json *)
  writer_results_json : option (list DraftInfo)      (* _data/writer_results.json *)
}.

Module EditorResults.
Record t := {
  verdicts : list Verdict.t;
  approved : Z;
  flagged : Z;
  rejected : Z
}.

Definition empty : t := {| verdicts := []; approved := 0; flagged := 0; rejected := 0 |}.

Definition add_verdict (v : Verdict.t) (r : t) : t :=
  {| verdicts := PyStr.append (verdicts r) v; approved := approved r;
     flagged := flagged r; rejected := rejected r |}.

(** [# Update counts] *)
Definition count (status : string) (r : t) : t :=
  if String.eqb status "APPROVE" then
    {| verdicts := verdicts r; approved := approved r + 1;
       flagged := flagged r; rejected := rejected r |}
  else if String.eqb status "FLAGGED" then
    {| verdicts := verdicts r; approved := approved r;
       flagged := flagged r + 1; rejected := rejected r |}
  else
    {| verdicts := verdicts r; approved := approved r;
       flagged := flagged r; rejected := rejected r + 1 |}.
End EditorResults.

Module EditorRun.

Import PyStr.

(** The entry appended for a review that was carried out:
    [{"slug": slug, "path": str(verdict_path), **verdict}].  The keys of
    the verdict come last, so a [slug] or a [path] in the answer of the
    reviewer replaces the one of the draft. *)
Definition reviewed_entry (slug : string) (verdict : Review.t) : Verdict.t :=
  {| Verdict.slug := default slug (Review.slug verdict);
     Verdict.path :=
       Some (default ("reviews/" ++ slug ++ "_verdict.json") (Review.path verdict));
     Verdict.review := verdict;
     Verdict._conflict_detected := false |}.

(** The entry appended by the [except] branch. *)
Definition error_entry (slug : string) (e : exn) : Verdict.t :=
  {| Verdict.slug := slug;
     Verdict.path := None;
     Verdict.review :=
       {| Review.slug := None; Review.path := None;
          Review.status := Some "ERROR"; Review.reason := Some (exn_str e);
          Review.issues := None; Review.diff_summary := None;
          Review.change_percentage := None |};
     Verdict._conflict_detected := false |}.

Section WithEnvironment.
Context `{Reviewer} `{EditorFiles}.

(** [_find_project_context] *)
Definition _find_project_context (context : option Context.t) (slug : string)
  : option Project.t :=
  match context with
  | None => None
  | Some context =>
      List.find (fun project => String.eqb (Project.slug project) slug)
        (Context.projects context)
  end.

(** The [try] block of the loop and its [except] branch.  The verdict
    is appended before its status is read, and its reason is read
    last, for the line printed: a verdict without the key [status]
    or without the key [reason] stays in the list and the [KeyError]
    adds an [ERROR] entry after it. *)
Definition review (self : EditorAgent.t) (results : EditorResults.t)
    (slug draft_content : string) (project_context : Project.t) : EditorResults.t :=
  match
    ebind
      (EditorAgent._review_draft self draft_content
         (default "" (Project.more project_context ≫= Project.current_html))
         project_context)
      (fun verdict => EditorAgent._add_deterministic_checks self verdict draft_content)
  with
  | inl e => EditorResults.add_verdict (error_entry slug e) results
  | inr verdict =>
      let results := EditorResults.add_verdict (reviewed_entry slug verdict) results in
      match Review.status verdict with
      | Some status =>
          let results := EditorResults.count status results in
          match Review.reason verdict with
          | Some _ => results
          | None =>
              EditorResults.add_verdict
                (error_entry slug (OtherException "'reason'")) results
          end
      | None =>
          EditorResults.add_verdict
            (error_entry slug (OtherException "'status'")) results
      end
  end.

(** The body of [for draft_info in writer_results["drafts"]]. *)
Definition review_draft_info (self : EditorAgent.t) (results : EditorResults.t)
    (draft_info : DraftInfo) : EditorResults.t :=
  let slug := draft_slug draft_info in
  match BioSiteClient.truthy (editor_draft_file (draft_path draft_info)) with
  | None => results
  | Some draft_content =>
      match _find_project_context editor_context_json slug with
      | None => results
      | Some project_context => review self results slug draft_content project_context
      end
  end.

Definition run (self : EditorAgent.t) : EditorResults.t :=
  match writer_results_json with
  | None | Some [] => EditorResults.empty
  | Some drafts => fold_left (review_draft_info self) drafts EditorResults.empty
  end.

End WithEnvironment.

End EditorRun.

(** ** scripts/deployer.py *)

Module Results.
Record t := {
  pushed : list string;                      (* slug *)
  prs : list (string * string * string);     (* slug, url, reason *)
  skipped : list (string * string);          (* slug, reason *)
  errors : list (string * string)            (* slug, error *)
}.

Definition empty : t := {| pushed := []; prs := []; skipped := []; errors := [] |}.

Definition add_pushed (slug : string) (r : t) : t :=
  {| pushed := PyStr.append (pushed r) slug; prs := prs r;
     skipped := skipped r; errors := errors r |}.

Definition add_pr (slug url reason : string) (r : t) : t :=
  {| pushed := pushed r; prs := PyStr.append (prs r) (slug, url, reason);
     skipped := skipped r; errors := errors r |}.

Definition add_skipped (slug reason : string) (r : t) : t :=
  {| pushed := pushed r; prs := prs r;
     skipped := PyStr.append (skipped r) (slug, reason); errors := errors r |}.

Definition add_error (slug error : string) (r : t) : t :=
  {| pushed := pushed r; prs := prs r; skipped := skipped r;
     errors := PyStr.append (errors r) (slug, error) |}.
End Results.

(** The result of [_check_freshness]. *)
Module Freshness.
Record t := {
  stale : bool;
  expected_sha : option string;
  current_sha : option string
}.
End Freshness.

(** *** The remote repository and the monad of the Deployer *)

Module Remote.

(** The calls the Deployer makes on the target repository. *)
Inductive call : Type :=
| Get_contents (path ref : string)
| Get_git_ref (ref : string)
| Create_git_ref (ref sha : string)
| Delete_git_ref (ref : string)
| Update_file (path message content sha branch : string)
| Create_file (path message content branch : string)
| Create_pull (title body head base : string)
| Add_to_labels (pr_url : string) (labels : list string).

Record ContentFile := { sha : string; decoded_content : string }.

Definition result_of (c : call) : Type :=
  match c with
  | Get_contents _ _ => ContentFile
  | Get_git_ref _ => string              (* the sha the ref points to *)
  | Create_pull _ _ _ _ => string        (* html_url *)
  | _ => unit
  end.

(** The calls that change the remote repository. *)
Definition is_mutation (c : call) : bool :=
  match c with
  | Get_contents _ _ | Get_git_ref _ => false
  | _ => true
  end.

(** What a run leaves behind: the remote calls, the entries into the
    Deployer's own procedures and the local files read, in order. *)
Inductive event : Type :=
| Call (c : call)
| Enter (fn : string)
| ReadFile (path : string).

Definition mutates (e : event) : bool :=
  match e with
  | Call c => is_mutation c
  | _ => false
  end.

(** The target repository is shared with other actors: what a call
    returns may depend on everything done so far. *)
Class TargetRepo := {
  respond : list event -> forall c : call, exn + result_of c
}.

(** The working directory of the run. *)
Class LocalFiles := {
  draft_file : string -> option string;            (* drafts/<slug>.html *)
  context_json : option Context.t;                 (* _data/context.json *)
  editor_results_json : option (list Verdict.t)    (* _data/editor_results.json *)
}.

(** A computation reads and extends the trace, and returns or raises. *)
Definition M (A : Type) : Type := list event -> (exn + A) * list event.

Definition ret {A} (a : A) : M A := fun tr => (inr a, tr).

Definition throw {A} (e : exn) : M A := fun tr => (inl e, tr).

Definition bind {A B} (m : M A) (k : A -> M B) : M B :=
  fun tr =>
    match m tr with
    | (inl e, tr') => (inl e, tr')
    | (inr a, tr') => k a tr'
    end.

(** [try: m except ...: handler] *)
Definition catch {A} (m : M A) (handler : exn -> M A) : M A :=
  fun tr =>
    match m tr with
    | (inl e, tr') => handler e tr'
    | r => r
    end.

#[global] Instance M_ret : MRet M := @ret.
#[global] Instance M_bind : MBind M := fun A B k m => bind m k.

Definition log (e : event) : M unit := fun tr => (inr tt, PyStr.append tr e).

(** A computation that does not touch the trace. *)
Definition lift {A} (x : exn + A) : M A := fun tr => (x, tr).

Definition perform `{TargetRepo} (c : call) : M (result_of c) :=
  fun tr => (respond tr c, PyStr.append tr (Call c)).

End Remote.

Module Deployer.

Import PyStr Remote.

Record t := {
  config : Config;
  target_branch : string;
  output_dir : string;
  mode : string;
  force_pr_on_high_risk : bool;
  high_risk_threshold : Q;
  dry_run : bool
}.

(** [__init__] *)
Definition init (config : Config) (dry_run : bool) : t :=
  {| config := config;
     target_branch := Target.branch (target config);
     output_dir := Target.output_dir (target config);
     mode := workflow_mode (workflow config);
     force_pr_on_high_risk :=
       default true (workflow_force_pr_on_high_risk (workflow config));
     high_risk_threshold :=
       default (30 # 1)%Q (workflow_high_risk_threshold (workflow config));
     dry_run := dry_run |}.

Definition set_dry_run (b : bool) (self : t) : t :=
  {| config := config self; target_branch := target_branch self;
     output_dir := output_dir self; mode := mode self;
     force_pr_on_high_risk := force_pr_on_high_risk self;
     high_risk_threshold := high_risk_threshold self; dry_run := b |}.

(** [a > b] on numbers *)
Definition gt (a b : Q) : bool := negb (Qle_bool a b).

(** [change_pct > self.high_risk_threshold]: a value that is no number
    cannot be compared with the threshold.  The text of the error names
    the type of the threshold, [int] for the default of 30. *)
Definition above_threshold (self : t) (change_pct : Json) : exn + bool :=
  match PyJson.number change_pct with
  | Some pct => inr (gt pct (high_risk_threshold self))
  | None =>
      raise (OtherException
               ("'>' not supported between instances of '"
                ++ PyJson.type_name change_pct ++ "' and 'int'"))   (* TypeError *)
  end.

Definition _should_create_pr (self : t) (status : string) (verdict : Verdict.t)
  : exn + bool :=
  if String.eqb (mode self) "manual" then inr true
  else if String.eqb status "FLAGGED" then inr true
  else if force_pr_on_high_risk self then
    let change_pct :=
      default (JInt 0) (Review.change_percentage (Verdict.review verdict)) in
    ebind (above_threshold self change_pct)
      (fun above => if above then inr true else inr false)
  else inr false.

(** [_build_pr_body].  The issues are listed when the value under
    [issues] is true as a condition, by iterating over it. *)
Definition _build_pr_body (slug : string) (verdict : Verdict.t) : exn + string :=
  let status := default "UNKNOWN" (Review.status (Verdict.review verdict)) in
  let reason := default "N/A" (Review.reason (Verdict.review verdict)) in
  let diff_summary := default "N/A" (Review.diff_summary (Verdict.review verdict)) in
  let issues := default (JList []) (Review.issues (Verdict.review verdict)) in
  let body :=
    "## 🤖 AI-Generated Update: " ++ slug ++ newline ++ newline
    ++ "**Editor Verdict**: " ++ status ++ newline
    ++ "**Reason**: " ++ reason ++ newline ++ newline
    ++ "### Diff Summary" ++ newline ++ diff_summary ++ newline ++ newline in
  ebind
    (if PyJson.truthy issues then
       ebind (PyJson.iterate issues)
         (fun items =>
            inr (fold_left (fun body issue => body ++ "- " ++ issue ++ newline)
                   items (body ++ "### Issues Noted" ++ newline)
                 ++ newline))
     else inr body)
    (fun body =>
       inr (body ++ "---" ++ newline ++ newline
            ++ "**Action Required**: Review the " ++ EditorAgent.dquote ++ "Files Changed"
            ++ EditorAgent.dquote ++ " tab and merge to deploy." ++ newline ++ newline
            ++ "> This PR was automatically generated by [SiteOps](https://github.com/your-username/siteops)."
            ++ newline
            ++ "> To disable automation, set `workflow.mode: " ++ EditorAgent.dquote
            ++ "manual" ++ EditorAgent.dquote ++ "` in settings.yaml." ++ newline)).

(** What the Gatekeeper settles for one verdict before anything is
    deployed. *)
Inductive Decision : Type :=
| Skip (reason : string)
| DraftNotFound
| Deploy (should_pr : bool) (draft_content : string) (verdict : Verdict.t).

Definition set_conflict (v : Verdict.t) : Verdict.t :=
  {| Verdict.slug := Verdict.slug v; Verdict.path := Verdict.path v;
     Verdict.review := Verdict.review v; Verdict._conflict_detected := true |}.

Definition fresh : Freshness.t :=
  {| Freshness.stale := false; Freshness.expected_sha := None;
     Freshness.current_sha := None |}.

Section WithEnvironment.
Context `{TargetRepo} `{LocalFiles} `{Host}.

Definition _load_context : M (option Context.t) :=
  log (ReadFile "_data/context.json");; ret context_json.

(** [for p in context.get("projects", []): if p["slug"] == slug: ...] *)
Definition find_project (context : Context.t) (slug : string) : option Project.t :=
  List.find (fun p => String.eqb (Project.slug p) slug) (Context.projects context).

Definition _check_freshness (self : t) (slug : string) (verdict : Verdict.t)
  : M Freshness.t :=
  log (Enter "_check_freshness");;
  context ← _load_context;
  match context with
  | None => ret fresh
  | Some context =>
      match find_project context slug with
      | None => ret fresh
      | Some project =>
          if negb (Project.exists_ project) then ret fresh
          else
            let expected_sha :=
              SHA1.hexdigest
                <$> BioSiteClient.truthy (Project.more project ≫= Project.current_html) in
            let file_path := output_dir self ++ slug ++ ".html" in
            catch
              (current_file ← perform (Get_contents file_path (target_branch self));
               let current_hash := SHA1.hexdigest (decoded_content current_file) in
               ret {| Freshness.stale :=
                        match expected_sha with
                        | Some expected => negb (String.eqb current_hash expected)
                        | None => false
                        end;
                      Freshness.expected_sha := expected_sha;
                      Freshness.current_sha := Some (sha current_file) |})
              (fun e =>
                 match e with
                 | GithubException status _ =>
                     ret {| Freshness.stale :=
                              (status =? 404) && Project.exists_ project;
                            Freshness.expected_sha := expected_sha;
                            Freshness.current_sha := None |}
                 | _ => throw e
                 end)
      end
  end.

Definition _create_pull_request (self : t) (slug content : string)
    (verdict : Verdict.t) : M string :=
  log (Enter "_create_pull_request");;
  if dry_run self then ret "https://github.com/dry-run/pr"
  else
    let date_str := utcnow_date in
    let branch_name := "siteops/update-" ++ slug ++ "-" ++ date_str in
    base_sha ← perform (Get_git_ref ("heads/" ++ target_branch self));
    catch
      (perform (Create_git_ref ("refs/heads/" ++ branch_name) base_sha))
      (fun e =>
         match e with
         | GithubException 422 _ =>
             catch
               (perform (Get_git_ref ("heads/" ++ branch_name));;
                perform (Delete_git_ref ("heads/" ++ branch_name)))
               (fun _ => ret tt);;
             perform (Create_git_ref ("refs/heads/" ++ branch_name) base_sha)
         | _ => throw e
         end);;
    let file_path := output_dir self ++ slug ++ ".html" in
    catch
      (existing ← perform (Get_contents file_path branch_name);
       perform (Update_file file_path ("Update " ++ slug ++ " project page [SiteOps]")
                  content (sha existing) branch_name))
      (fun e =>
         match e with
         | GithubException 404 _ =>
             perform (Create_file file_path
                        ("Add " ++ slug ++ " project page [SiteOps]")
                        content branch_name)
         | _ => throw e
         end);;
    pr_body ← lift (_build_pr_body slug verdict);
    pr_url ← perform (Create_pull ("🤖 SiteOps: Update " ++ slug) pr_body
                         branch_name (target_branch self));
    catch (perform (Add_to_labels pr_url ["automated"; "siteops"]))
          (fun _ => ret tt);;
    ret pr_url.

Definition _direct_push (self : t) (slug content : string) : M unit :=
  log (Enter "_direct_push");;
  if dry_run self then ret tt
  else
    let file_path := output_dir self ++ slug ++ ".html" in
    catch
      (existing ← perform (Get_contents file_path (target_branch self));
       perform (Update_file file_path ("Update " ++ slug ++ " project page [SiteOps]")
                  content (sha existing) (target_branch self)))
      (fun e =>
         match e with
         | GithubException 404 _ =>
             perform (Create_file file_path
                        ("Add " ++ slug ++ " project page [SiteOps]")
                        content (target_branch self))
         | _ => throw e
         end).

(** The loop body of [run] up to the [try]: the decision for one
    verdict. *)
Definition gatekeeper (self : t) (verdict : Verdict.t) : M Decision :=
  let slug := Verdict.slug verdict in
  let status := default "ERROR" (Review.status (Verdict.review verdict)) in
  if String.eqb status "REJECT" || String.eqb status "ERROR" then
    ret (Skip (default "Rejected by Editor" (Review.reason (Verdict.review verdict))))
  else
    let draft_path := "drafts/" ++ slug ++ ".html" in
    log (ReadFile draft_path);;
    match draft_file draft_path with
    | None => ret DraftNotFound
    | Some draft_content =>
        freshness ← _check_freshness self slug verdict;
        if Freshness.stale freshness then
          ret (Deploy true draft_content (set_conflict verdict))
        else
          log (Enter "_should_create_pr");;
          should_pr ← lift (_should_create_pr self status verdict);
          ret (Deploy should_pr draft_content verdict)
    end.

(** The rest of the loop body: the [try] that deploys, and the
    bookkeeping in [results]. *)
Definition deploy (self : t) (results : Results.t) (slug status : string)
    (d : Decision) : M Results.t :=
  match d with
  | Skip reason => ret (Results.add_skipped slug reason results)
  | DraftNotFound => ret (Results.add_error slug "Draft not found" results)
  | Deploy should_pr draft_content verdict =>
      catch
        (if should_pr then
           pr_url ← _create_pull_request self slug draft_content verdict;
           ret (Results.add_pr slug pr_url
                  (if String.eqb (mode self) "manual" then "manual mode" else status)
                  results)
         else
           _direct_push self slug draft_content;;
           ret (Results.add_pushed slug results))
        (fun e => ret (Results.add_error slug (exn_str e) results))
  end.

Definition process_verdict (self : t) (results : Results.t) (verdict : Verdict.t)
  : M Results.t :=
  d ← gatekeeper self verdict;
  deploy self results (Verdict.slug verdict)
    (default "ERROR" (Review.status (Verdict.review verdict))) d.

Fixpoint process_all (self : t) (results : Results.t) (verdicts : list Verdict.t)
  : M Results.t :=
  match verdicts with
  | [] => ret results
  | verdict :: verdicts' =>
      results ← process_verdict self results verdict;
      process_all self results verdicts'
  end.

Definition run (self : t) : M Results.t :=
  log (ReadFile "_data/editor_results.json");;
  match editor_results_json with
  | None => ret Results.empty
  | Some verdicts => process_all self Results.empty verdicts
  end.

End WithEnvironment.

End Deployer.

(** ** Notions used to state the properties *)

Module Spec.

Import PyStr.

(** *** Significance *)

(** The bonus one commit adds to the score. *)
Definition commit_bonus (sc : Scoring) (c : Commit) : Z :=
  let ty := default "other" (commit_type c) in
  if String.eqb ty "feat" then feat_commit sc
  else if String.eqb ty "refactor" then refactor_commit sc
  else if String.eqb ty "fix" then fix_commit sc
  else 0.

Fixpoint sum_bonus (sc : Scoring) (l : list Commit) : Z :=
  match l with
  | [] => 0
  | c :: l' => commit_bonus sc c + sum_bonus sc l'
  end.

(** The bonuses of the section [scoring] are not negative. *)
Definition nonneg_weights (sc : Scoring) : Prop :=
  0 <= new_release sc /\ 0 <= readme_changed sc /\ 0 <= feat_commit sc
  /\ 0 <= refactor_commit sc /\ 0 <= fix_commit sc.

(** The reason token of a commit category that has one. *)
Definition commit_reason (c : Commit) : option string :=
  let ty := default "other" (commit_type c) in
  if String.eqb ty "feat" then Some "feature_commit"
  else if String.eqb ty "refactor" then Some "refactor_commit"
  else if String.eqb ty "fix" then Some "fix_commit"
  else None.

(** The reason of the first commit of the list, in the order of the
    list, whose category has a reason. *)
Fixpoint first_commit_reason (commits : list Commit) : option string :=
  match commits with
  | [] => None
  | c :: commits' =>
      match commit_reason c with
      | Some r => Some r
      | None => first_commit_reason commits'
      end
  end.

(** The reason with releases first, then the README, then the commits
    in the order of the list. *)
Definition reason_in_list_order (commits : list Commit) (releases : list Release)
    (readme_changed_ : bool) : string :=
  if negb (Collector.is_empty releases) then "release_tag"
  else if readme_changed_ then "readme_changed"
  else default "low_significance" (first_commit_reason commits).

Definition has_type (ty : string) (commits : list Commit) : bool :=
  existsb (fun c => String.eqb (default "other" (commit_type c)) ty) commits.

(** The reason under a fixed priority of categories: the first of
    release, README change, feat, refactor, fix that contributed a
    bonus other than zero, wherever its commits stand in the list. *)
Definition reason_by_priority (sc : Scoring) (commits : list Commit)
    (releases : list Release) (readme_changed_ : bool) : string :=
  if negb (Collector.is_empty releases) && negb (new_release sc =? 0) then "release_tag"
  else if readme_changed_ && negb (readme_changed sc =? 0) then "readme_changed"
  else if has_type "feat" commits && negb (feat_commit sc =? 0) then "feature_commit"
  else if has_type "refactor" commits && negb (refactor_commit sc =? 0)
  then "refactor_commit"
  else if has_type "fix" commits && negb (fix_commit sc =? 0) then "fix_commit"
  else "low_significance".

(** *** Summary buckets *)

Inductive Bucket : Type := BLocked | BUpdates | BNew | BSkips.

Definition Bucket_eqb (a b : Bucket) : bool :=
  match a, b with
  | BLocked, BLocked | BUpdates, BUpdates | BNew, BNew | BSkips, BSkips => true
  | _, _ => false
  end.

(** The bucket a collected project belongs to. *)
Definition bucket (p : Project.t) : Bucket :=
  if Project.locked p then BLocked
  else if String.eqb (Project.status p) "update" then BUpdates
  else if String.eqb (Project.status p) "new" then BNew
  else BSkips.

Definition count_in (b : Bucket) (l : list Project.t) : Z :=
  Z.of_nat (length (List.filter (fun p => Bucket_eqb (bucket p) b) l)).

Definition one_if (b : bool) : Z := if b then 1 else 0.

(** A repository name of the form [owner/repo]. *)
Definition well_formed_name (repo_full_name : string) : Prop :=
  exists owner repo, split "/" repo_full_name = [owner; repo].

(** *** The deterministic checks *)

(** The forbidden words a draft holds, whatever the case of the
    letters. *)
Definition found_forbidden (self : EditorAgent.t) (draft : string) : list string :=
  List.filter (fun word => contains (lower word) (lower draft))
    (forbidden_words (policy (EditorAgent.config self))).

(** The answer of the reviewer lets the deterministic checks run to
    their end on a draft that fails the HTML check: it is text that
    does not parse, or an object whose [issues] are missing or a list
    and which carries a status when the draft holds a forbidden
    word. *)
Definition checkable (self : EditorAgent.t) (draft : string)
    (answer : exn + option Reviewed) : bool :=
  match answer with
  | inr None => true
  | inr (Some (Dict verdict)) =>
      match default (JList []) (Review.issues verdict) with
      | JList _ =>
          match Review.status verdict with
          | Some _ => true
          | None => Collector.is_empty (found_forbidden self draft)
          end
      | _ => false
      end
  | inr (Some (NoDict _)) => false
  | inl _ => false
  end.

(** *** Freshness *)

(** Staleness as a comparison of fingerprints only: for a snapshot
    that records the artifact, stale when the remote artifact is absent
    or when the fingerprint of the remote content is not the
    fingerprint of the recorded content. *)
Definition stale_by_fingerprint (snapshot : Project.t)
    (remote : exn + Remote.ContentFile) : bool :=
  if Project.exists_ snapshot then
    match remote with
    | inr current_file =>
        negb (String.eqb
                (SHA1.hexdigest (Remote.decoded_content current_file))
                (SHA1.hexdigest
                   (default "" (Project.more snapshot ≫= Project.current_html))))
    | inl (GithubException 404 _) => true
    | inl _ => false
    end
  else false.

Section Snapshot.
Context `{Remote.LocalFiles}.

(** The entry of the snapshot for a slug. *)
Definition snapshot (slug : string) : option Project.t :=
  Remote.context_json ≫= (fun context => Deployer.find_project context slug).

(** The snapshot records an existing artifact for the slug. *)
Definition recorded (slug : string) : bool :=
  match snapshot slug with
  | Some project => Project.exists_ project
  | None => false
  end.

(** The content the snapshot recorded for the slug. *)
Definition snapshot_html (slug : string) : option string :=
  match snapshot slug with
  | Some project => Project.more project ≫= Project.current_html
  | None => None
  end.
End Snapshot.

(** *** Manual sections *)

Definition has_backslash (s : string) : bool :=
  existsb (Ascii.eqb "\") (list_ascii_of_string s).

(** [out] is [draft] with every placeholder of the name, taken leftmost
    first, replaced by [section] as it is, and every other character
    kept. *)
Inductive Injected (section_name section : string) : string -> string -> Prop :=
| Injected_end : Injected section_name section "" ""
| Injected_here (draft m out : string) :
    WriterAgent.match_placeholder section_name draft = Some m ->
    Injected section_name section (drop (String.length m) draft) out ->
    Injected section_name section draft (section ++ out)
| Injected_keep (c : ascii) (draft out : string) :
    WriterAgent.match_placeholder section_name (String c draft) = None ->
    Injected section_name section draft out ->
    Injected section_name section (String c draft) (String c out).

(** *** Traces *)

(** Every event a computation adds to the trace satisfies [P]. *)
Definition emits (P : Remote.event -> Prop) {A} (m : Remote.M A) : Prop :=
  forall tr, exists added, snd (m tr) = (tr ++ added)%list /\ Forall P added.

Definition no_mutation (e : Remote.event) : Prop := Remote.mutates e = false.

End Spec.

(** ** Concrete environments

    A small configuration and small remote worlds, on which the
    definitions above are run. *)

Module Sample.

Import PyStr Remote.

Definition scoring0 : Scoring :=
  {| new_release := 100; readme_changed := 40; feat_commit := 30;
     refactor_commit := 30; fix_commit := 15; no_commits := -999;
     update_threshold := 50 |}.

(** The same bonuses with a positive value under [no_commits]. *)
Definition scoring_positive_sentinel : Scoring :=
  {| new_release := 100; readme_changed := 40; feat_commit := 30;
     refactor_commit := 30; fix_commit := 15; no_commits := 1000;
     update_threshold := 50 |}.

(** The same bonuses with no bonus for a release. *)
Definition scoring_zero_release : Scoring :=
  {| new_release := 0; readme_changed := 40; feat_commit := 30;
     refactor_commit := 30; fix_commit := 15; no_commits := -999;
     update_threshold := 50 |}.

Definition config_with (sc : Scoring) : Config :=
  {| discovery :=
       {| method := "list"; topic_tag := "portfolio"; discovery_owner := "me";
          fallback_list := ["me/alpha"; "me/beta"; "me/gamma"; "me/delta"] |};
     target := {| Target.repo := "me/site"; Target.branch := "main";
                  Target.output_dir := "projects/" |};
     collector := None;
     scoring := sc;
     workflow := {| workflow_mode := "auto";
                    workflow_force_pr_on_high_risk := None;
                    workflow_high_risk_threshold := None |};
     policy := {| forbidden_words := ["revolutionary"];
                  required_sections := Some ["summary"] |} |}.

Definition config0 : Config := config_with scoring0.

Definition commit_of (ty : string) : Commit :=
  {| commit_sha := "0a1b2c3"; commit_date := "2024-05-01";
     commit_message := ty ++ ": change"; commit_type := Some ty;
     commit_author := "dev" |}.

Definition release0 : Release :=
  {| release_tag := "v1.0"; release_name := "v1.0"; release_date := Some "2024-05-02";
     release_notes := ""; release_prerelease := false; release_draft := false |}.

Definition collector_with (sc : Scoring) : Collector.t :=
  {| Collector.config := config_with sc;
     Collector.bio_site :=
       {| BioSiteClient.owner := "me"; BioSiteClient.repo := "site";
          BioSiteClient.branch := "main" |};
     Collector.dry_run := false;
     Collector.force_update := false |}.

Definition collector0 : Collector.t := collector_with scoring0.

Definition host0 : Host :=
  {| utcnow_isoformat := "2024-05-03T10:00:00"; utcnow_date := "2024-05-03";
     md5_config := fun _ => "5f2b9a10" |}.

Definition beta_page : string :=
  "<html><body><!-- MANUAL:custom -->hand-written<!-- /MANUAL:custom --></body></html>".

(** A code host with four repositories: [alpha] has no page yet, [beta]
    has a page, the page of [gamma] is locked, and the metadata of
    [delta] cannot be fetched. *)
Definition github0 : GitHubClient :=
  {| get_repo := fun _ r =>
       if String.eqb r "delta" then inl (HTTPError 500 "500 Server Error")
       else inr {| meta_description := Some "a project";
                   meta_stargazers_count := Some 3; meta_forks_count := None |};
     get_commits := fun _ r _ =>
       if String.eqb r "beta" then inr [commit_of "feat"] else inr [];
     get_releases := fun _ r _ =>
       if String.eqb r "beta" then inr [release0] else inr [];
     get_languages := fun _ _ => inr ["Python"];
     get_readme := fun _ _ =>
       inr {| readme_content := ""; readme_sha := None; readme_size := 0 |};
     search_repos_by_topic := fun _ _ => inr [];
     list_contents := fun _ _ _ _ =>
       inr [ {| item_type := "file"; item_name := "beta.html";
                item_path := "projects/beta.html"; item_sha := "b1" |};
             {| item_type := "file"; item_name := "gamma.html";
                item_path := "projects/gamma.html"; item_sha := "c1" |} ];
     get_file_content := fun _ _ p _ =>
       if String.eqb p "projects/beta.html" then inr (Some beta_page)
       else inr (Some "<html><!-- LOCK --></html>") |}.

Definition index0 : gmap string BioState :=
  match @BioSiteClient.get_project_index github0 (Collector.bio_site collector0) "projects/" with
  | inr index => index
  | inl _ => ∅
  end.

(** *** Worlds of the Deployer *)

Definition deployer0 : Deployer.t := Deployer.init config0 false.

Definition review_of (status : string) (pct : Q) : Review.t :=
  {| Review.slug := None; Review.path := None;
     Review.status := Some status; Review.reason := Some "reviewed";
     Review.issues := Some (JList []); Review.diff_summary := Some "summary updated";
     Review.change_percentage := Some (JFloat pct) |}.

Definition verdict_of (status : string) (pct : Q) : Verdict.t :=
  {| Verdict.slug := "beta"; Verdict.path := Some "reviews/beta_verdict.json";
     Verdict.review := review_of status pct; Verdict._conflict_detected := false |}.

Definition draft0 : string :=
  "<html><body><!-- MANUAL:custom -->placeholder<!-- /MANUAL:custom --></body></html>".

(** The snapshot entry of [beta]: published, with the given recorded
    content. *)
Definition beta_snapshot (html : option string) : Project.t :=
  {| Project.slug := "beta"; Project.repo := "me/beta";
     Project.exists_ := true; Project.locked := false;
     Project.status := "update"; Project.change_score := 130;
     Project.change_reason := "release_tag";
     Project.more := Some
       {| Project.last_deploy := None; Project.commits := [commit_of "feat"];
          Project.languages := ["Python"]; Project.readme_excerpt := "";
          Project.readme_sha := None; Project.releases := [release0];
          Project.description := "a project"; Project.stars := 3;
          Project.forks := 0; Project.current_html := html;
          Project.manual_sections := [] |} |}.

Definition context_with (html : option string) : Context.t :=
  {| Context.generated_at := "2024-05-03T10:00:00Z"; Context.config_hash := "5f2b9a10";
     Context.projects := [beta_snapshot html];
     Context.summary := {| Summary.total := 1; Summary.updates := 1;
                           Summary.skips := 0; Summary.new := 0;
                           Summary.locked := 0 |} |}.

(** A working directory with the draft of [beta], a snapshot that
    recorded [html] for it, and the given reviewed verdicts. *)
Definition files_with (html : option string) (verdicts : list Verdict.t) : LocalFiles :=
  {| draft_file := fun path =>
       if String.eqb path "drafts/beta.html" then Some draft0 else None;
     context_json := Some (context_with html);
     editor_results_json := Some verdicts |}.

(** A target repository whose page of [beta] answers [page]; every other
    call succeeds. *)
Definition repo_with (page : exn + ContentFile) : TargetRepo :=
  {| respond := fun _ c =>
       match c return exn + result_of c with
       | Get_contents _ _ => page
       | Get_git_ref _ => inr "9f8e7d6"
       | Create_pull _ _ _ _ => inr "https://github.com/me/site/pull/7"
       | Create_git_ref _ _ => inr tt
       | Delete_git_ref _ => inr tt
       | Update_file _ _ _ _ _ => inr tt
       | Create_file _ _ _ _ => inr tt
       | Add_to_labels _ _ => inr tt
       end |}.

Definition page_unchanged : exn + ContentFile :=
  inr {| sha := "b1"; decoded_content := beta_page |}.

Definition page_modified : exn + ContentFile :=
  inr {| sha := "b2"; decoded_content := "<html><body>edited by hand</body></html>" |}.

Definition page_deleted : exn + ContentFile :=
  inl (GithubException 404 "404 Not Found").

(** *** The Editor *)

Definition editor0 : EditorAgent.t :=
  {| EditorAgent.config := config0; EditorAgent.dry_run := false |}.

(** A reviewer that approves whatever it is shown. *)
Definition reviewer_approving : Reviewer :=
  {| ask_review := fun _ _ _ => inr (Some (Dict (review_of "APPROVE" (5 # 1)))) |}.

(** A reviewer that approves and writes [null] under [issues]. *)
Definition reviewer_null_issues : Reviewer :=
  {| ask_review := fun _ _ _ =>
       inr (Some (Dict
         {| Review.slug := None; Review.path := None;
            Review.status := Some "APPROVE"; Review.reason := Some "reviewed";
            Review.issues := Some JNull;
            Review.diff_summary := Some "summary updated";
            Review.change_percentage := Some (JInt 5) |})) |}.

(** A draft that is a fragment, not a page. *)
Definition fragment_draft : string := "<section id='summary'><p>Hello</p></section>".

(** *** Manual sections *)

(** A published page whose manual section holds a Windows path. *)
Definition page_with_path : string :=
  "<html><body><!-- MANUAL:custom -->see C:\new\tools<!-- /MANUAL:custom --></body></html>".

Definition fragment_with_path : string :=
  "<!-- MANUAL:custom -->see C:\new\tools<!-- /MANUAL:custom -->".

(** A published page whose manual section shows a regular expression. *)
Definition fragment_with_regex : string :=
  "<!-- MANUAL:custom -->match \d+ here<!-- /MANUAL:custom -->".

End Sample.

(** ** Further procedures of the pipeline *)

(** *** scripts/utils/github_client.py: conventional commits *)

Module CommitType.

Import PyStr.

(** The table [type_map] of [_parse_commit_type]. *)
Definition type_map (commit_type : string) : option string :=
  if String.eqb commit_type "feat" then Some "feat"
  else if String.eqb commit_type "feature" then Some "feat"
  else if String.eqb commit_type "fix" then Some "fix"
  else if String.eqb commit_type "bugfix" then Some "fix"
  else if String.eqb commit_type "docs" then Some "docs"
  else if String.eqb commit_type "doc" then Some "docs"
  else if String.eqb commit_type "style" then Some "style"
  else if String.eqb commit_type "refactor" then Some "refactor"
  else if String.eqb commit_type "perf" then Some "perf"
  else if String.eqb commit_type "test" then Some "test"
  else if String.eqb commit_type "tests" then Some "test"
  else if String.eqb commit_type "chore" then Some "chore"
  else if String.eqb commit_type "build" then Some "chore"
  else if String.eqb commit_type "ci" then Some "chore"
  else None.

Definition not_rparen (c : ascii) : bool := negb (Ascii.eqb c ")").

(** The optional scope [(?:\([^)]+\))?] at the start of [s]: what follows
    it.  When the group cannot match it is skipped. *)
Definition skip_scope (s : string) : string :=
  if startswith "(" s then
    let '(scope, rest) := span not_rparen (drop 1 s) in
    if (0 <? String.length scope)%nat && startswith ")" rest
    then drop 1 rest
    else s
  else s.

(** [re.match(r"^(\w+)(?:\([^)]+\))?!?:", s)]: group 1.  The runs [\w+]
    and [[^)]+] are greedy and what follows them is outside their class,
    so only the longest run can match. *)
Definition match_prefix (s : string) : option string :=
  let '(commit_type, rest) := span is_word s in
  if (0 <? String.length commit_type)%nat then
    let rest := skip_scope rest in
    let rest := if startswith "!" rest then drop 1 rest else rest in
    if startswith ":" rest then Some commit_type else None
  else None.

Definition _parse_commit_type (message : string) : string :=
  match match_prefix (lower message) with
  | Some commit_type => default "other" (type_map commit_type)
  | None => "other"
  end.

(** [commit["commit"]["message"].split("\n")[0]] *)
Definition first_line (message : string) : string :=
  default "" (head (split (ascii_of_nat 10) message)).

(** One element of the list built by [get_commits], from the fields of
    the API answer. *)
Definition commit_of_api (sha date message author : string) : Commit :=
  let message := first_line message in
  {| commit_sha := take 7 sha;
     commit_date := take 10 date;
     commit_message := message;
     commit_type := Some (_parse_commit_type message);
     commit_author := author |}.

End CommitType.

(** *** scripts/writer.py: selection of projects and the deploy marker *)

Module WriterRun.

Import PyStr.

(** [[p for p in context["projects"] if p["status"] in ("update", "new")
    and not p.get("locked", False)]] *)
Definition projects_to_update (context : Context.t) : list Project.t :=
  List.filter
    (fun p => (String.eqb (Project.status p) "update"
               || String.eqb (Project.status p) "new")
              && negb (Project.locked p))
    (Context.projects context).

(** The marker written for a date.  A date printed by [strftime] holds
    digits and dashes only, so in the template [\1\n{marker}] of
    [re.sub] the marker stands for itself. *)
Definition deploy_marker (today : string) : string :=
  "<!-- DEPLOYED: " ++ today ++ " -->".

(** [_add_deploy_marker] for the date [today].  The pattern
    [(<html[^>]*>)] matches at the first [<html] when a [>] follows it
    somewhere, and nowhere otherwise; [count=1] replaces that match by
    itself, a newline and the marker. *)
Definition add_deploy_marker_on (today html : string) : string :=
  let marker := deploy_marker today in
  if contains "<html" html then
    match find "<html" html with
    | Some i =>
        match find ">" (drop (i + 5) html) with
        | Some j =>
            take (i + 5 + j + 1) html ++ newline ++ marker
            ++ drop (i + 5 + j + 1) html
        | None => html
        end
    | None => html
    end
  else marker ++ newline ++ html.

Definition _add_deploy_marker `{Host} (html : string) : string :=
  add_deploy_marker_on utcnow_date html.

End WriterRun.

(** *** scripts/observer.py *)

(** The amounts of money of the Observer are floating-point numbers;
    they are kept abstract, with the operations the code applies to
    them. *)
Class Money := {
  amount : Type;
  amount_zero : amount;                      (* 0.0 *)
  amount_add : amount -> amount -> amount;   (* + *)
  amount_format2 : amount -> string          (* f"${x:.2f}" *)
}.

Module Observer.

Import PyStr.

(** [run_log["phases"]["deployer"]], read with [.get(key, 0)]. *)
Record DeployerSummary := {
  ds_status : string;
  ds_pushed : Z;
  ds_prs_created : Z;
  ds_skipped : Z;
  ds_errors : Z
}.

Definition len {A} (l : list A) : Z := Z.of_nat (length l).

Definition _summarize_deployer (results : option Results.t) : DeployerSummary :=
  match results with
  | None =>
      {| ds_status := "not_run"; ds_pushed := 0; ds_prs_created := 0;
         ds_skipped := 0; ds_errors := 0 |}
  | Some results =>
      {| ds_status :=
           if Collector.is_empty (Results.errors results) then "success" else "partial";
         ds_pushed := len (Results.pushed results);
         ds_prs_created := len (Results.prs results);
         ds_skipped := len (Results.skipped results);
         ds_errors := len (Results.errors results) |}
  end.

Definition _determine_success (deployer_results : option Results.t) : bool :=
  match deployer_results with
  | None => false
  | Some deployer_results =>
      let pushed := len (Results.pushed deployer_results) in
      let prs := len (Results.prs deployer_results) in
      let errors := len (Results.errors deployer_results) in
      ((0 <? pushed) || (0 <? prs)) && (errors =? 0)
  end.

Section WithMoney.
Context `{Money}.

(** The part of the run log the dashboard reads. *)
Record RunLog := {
  run_id : string;
  timestamp : string;
  success : bool;
  deployer : DeployerSummary;
  cost_total : amount;
  cost_total_formatted : string
}.

Record RunEntry := {
  entry_run_id : string;
  entry_timestamp : string;
  entry_success : bool;
  entry_cost : string;
  entry_updates : Z
}.

Record Dashboard := {
  total_runs : Z;
  successful_runs : Z;
  failed_runs : Z;
  total_projects_updated : Z;
  total_prs_created : Z;
  total_direct_pushes : Z;
  total_cost_usd : amount;
  last_run : option string;
  runs : list RunEntry;
  total_cost_formatted : option string
}.

(** The dashboard of a first run. *)
Definition new_dashboard : Dashboard :=
  {| total_runs := 0; successful_runs := 0; failed_runs := 0;
     total_projects_updated := 0; total_prs_created := 0;
     total_direct_pushes := 0; total_cost_usd := amount_zero;
     last_run := None; runs := []; total_cost_formatted := None |}.

(** [_update_dashboard]: from the dashboard on disk ([None] when the
    file is not there) to the dashboard written back. *)
Definition _update_dashboard (on_disk : option Dashboard) (run_log : RunLog)
  : Dashboard :=
  let dashboard := default new_dashboard on_disk in
  let deployer := deployer run_log in
  let total_cost := amount_add (total_cost_usd dashboard) (cost_total run_log) in
  {| total_runs := total_runs dashboard + 1;
     successful_runs :=
       if success run_log then successful_runs dashboard + 1
       else successful_runs dashboard;
     failed_runs :=
       if success run_log then failed_runs dashboard
       else failed_runs dashboard + 1;
     total_projects_updated :=
       total_projects_updated dashboard
       + (ds_pushed deployer + ds_prs_created deployer);
     total_prs_created := total_prs_created dashboard + ds_prs_created deployer;
     total_direct_pushes := total_direct_pushes dashboard + ds_pushed deployer;
     total_cost_usd := total_cost;
     last_run := Some (timestamp run_log);
     runs :=
       firstn 20
         ({| entry_run_id := run_id run_log;
             entry_timestamp := timestamp run_log;
             entry_success := success run_log;
             entry_cost := cost_total_formatted run_log;
             entry_updates := ds_pushed deployer + ds_prs_created deployer |}
          :: runs dashboard);
     total_cost_formatted := Some (amount_format2 total_cost) |}.

(** The dashboard after a sequence of runs, oldest first. *)
Definition dashboard_after (on_disk : option Dashboard) (logs : list RunLog)
  : option Dashboard :=
  fold_left (fun d run_log => Some (_update_dashboard d run_log)) logs on_disk.

End WithMoney.

End Observer.

(** ** Notions used to state the further properties *)

Module Spec2.

Import PyStr.

(** A record of the index agrees with the content it holds: the page
    exists, and lock, manual sections and deploy date are the ones read
    off the content (none of them when there is no content). *)
Definition record_consistent (st : BioState) : Prop :=
  bio_exists st = true
  /\ match BioSiteClient.truthy (bio_content st) with
     | Some c =>
         bio_manual_sections st = BioSiteClient._extract_manual_sections c
         /\ bio_locked st = BioSiteClient._check_lock c
         /\ bio_last_deploy st = BioSiteClient._extract_deploy_date c
     | None =>
         bio_manual_sections st = [] /\ bio_locked st = false
         /\ bio_last_deploy st = None
     end.

(** A record of the index comes from an [.html] file of the listing. *)
Definition record_of_item `{GitHubClient} (self : BioSiteClient.t)
    (items : list DirItem) (slug : string) (st : BioState) : Prop :=
  exists item,
    In item items
    /\ item_type item = "file"
    /\ endswith ".html" (item_name item) = true
    /\ slug = replace ".html" "" (item_name item)
    /\ bio_path st = Some (item_path item)
    /\ bio_sha st = Some (item_sha item)
    /\ get_file_content (BioSiteClient.owner self) (BioSiteClient.repo self)
         (item_path item) (BioSiteClient.branch self) = inr (bio_content st).

(** The begin and end markers of a manual section. *)
Definition begin_marker (name : string) : string :=
  BioSiteClient.manual_open ++ name ++ BioSiteClient.comment_end.

Definition end_marker (name : string) : string :=
  BioSiteClient.manual_close ++ name ++ BioSiteClient.comment_end.

(** A name as [\w+] matches it. *)
Definition is_name (name : string) : Prop :=
  name <> "" /\ forallb is_word (list_ascii_of_string name) = true.

(** A block delimited by the two markers of one name, in which the end
    marker occurs only at the end. *)
Definition delimited (fragment : string) : Prop :=
  exists name body,
    is_name name
    /\ fragment = begin_marker name ++ body ++ end_marker name
    /\ find (end_marker name) (body ++ end_marker name)
       = Some (String.length body).

(** The template of a text without escapes: one literal for each
    character. *)
Fixpoint literal_parts (s : string) : list Template.part :=
  match s with
  | EmptyString => []
  | String c s' => Template.Lit (String c "") :: literal_parts s'
  end.

(** The fragment cannot be placed in the draft: the draft holds no
    begin marker of the name of the fragment. *)
Definition no_placeholder_for (draft section : string) : Prop :=
  forall name,
    WriterAgent.search_name section = Some name ->
    contains (begin_marker name) draft = false.

(** The opening of a deploy marker. *)
Definition deployed_open : string := "<!-- DEPLOYED: ".

(** A deploy marker with a date at the start of [s], as
    [_extract_deploy_date] looks for it at each position. *)
Definition marker_here (s : string) : option string :=
  if startswith deployed_open s then
    let rest := drop 15 s in
    match BioSiteClient.match_date rest with
    | Some d =>
        if startswith BioSiteClient.comment_end (drop 10 rest) then Some d else None
    | None => None
    end
  else None.

(** Where [_add_deploy_marker] puts the marker: at the start when the
    page holds no [<html], else after the first [>] that follows the
    first [<html]. *)
Definition marker_offset (html : string) : option nat :=
  match find "<html" html with
  | None => Some O
  | Some i =>
      match find ">" (drop (i + 5) html) with
      | Some j => Some (i + 5 + j + 1)%nat
      | None => None
      end
  end.

(** *** The Deployer *)



(** The events [_direct_push] may leave for a slug: it reads and writes
    the page of the slug on the target branch and nothing else. *)
Definition direct_push_event (self : Deployer.t) (slug : string) (e : Remote.event)
  : Prop :=
  let file_path := Deployer.output_dir self ++ slug ++ ".html" in
  match e with
  | Remote.Enter fn => fn = "_direct_push"
  | Remote.Call (Remote.Get_contents path ref) =>
      path = file_path /\ ref = Deployer.target_branch self
  | Remote.Call (Remote.Update_file path _ _ _ branch)
  | Remote.Call (Remote.Create_file path _ _ branch) =>
      path = file_path /\ branch = Deployer.target_branch self
  | _ => False
  end.

(** The branch of the pull request for a slug on a day. *)
Definition pr_branch (slug today : string) : string :=
  "siteops/update-" ++ slug ++ "-" ++ today.

(** The events [_create_pull_request] may leave: whatever it creates,
    deletes or writes is the branch of the pull request or the page of
    the slug on that branch. *)
Definition pull_request_event (self : Deployer.t) (slug today : string)
    (e : Remote.event) : Prop :=
  let file_path := Deployer.output_dir self ++ slug ++ ".html" in
  let branch_name := pr_branch slug today in
  match e with
  | Remote.Enter fn => fn = "_create_pull_request"
  | Remote.Call (Remote.Get_git_ref ref) =>
      ref = "heads/" ++ Deployer.target_branch self \/ ref = "heads/" ++ branch_name
  | Remote.Call (Remote.Create_git_ref ref _) => ref = "refs/heads/" ++ branch_name
  | Remote.Call (Remote.Delete_git_ref ref) => ref = "heads/" ++ branch_name
  | Remote.Call (Remote.Get_contents path ref) =>
      path = file_path /\ ref = branch_name
  | Remote.Call (Remote.Update_file path _ _ _ branch)
  | Remote.Call (Remote.Create_file path _ _ branch) =>
      path = file_path /\ branch = branch_name
  | Remote.Call (Remote.Create_pull _ _ head base) =>
      head = branch_name /\ base = Deployer.target_branch self
  | Remote.Call (Remote.Add_to_labels _ labels) => labels = ["automated"; "siteops"]
  | Remote.ReadFile _ => False
  end.

(** The same repository, except that putting labels on a pull request
    answers [labels]. *)
Definition with_labels (R : Remote.TargetRepo) (labels : exn + unit)
  : Remote.TargetRepo :=
  {| Remote.respond := fun tr c =>
       match c return exn + Remote.result_of c with
       | Remote.Add_to_labels _ _ => labels
       | Remote.Get_contents path ref =>
           @Remote.respond R tr (Remote.Get_contents path ref)
       | Remote.Get_git_ref ref => @Remote.respond R tr (Remote.Get_git_ref ref)
       | Remote.Create_git_ref ref sha =>
           @Remote.respond R tr (Remote.Create_git_ref ref sha)
       | Remote.Delete_git_ref ref => @Remote.respond R tr (Remote.Delete_git_ref ref)
       | Remote.Update_file path message content sha branch =>
           @Remote.respond R tr (Remote.Update_file path message content sha branch)
       | Remote.Create_file path message content branch =>
           @Remote.respond R tr (Remote.Create_file path message content branch)
       | Remote.Create_pull title body head base =>
           @Remote.respond R tr (Remote.Create_pull title body head base)
       end |}.

(** *** The Editor *)

(** The draft passes the two deterministic checks that change a status:
    its HTML structure is accepted and it holds no forbidden word,
    whatever the case of the letters. *)
Definition passes_checks (self : EditorAgent.t) (draft : string) : Prop :=
  EditorAgent._is_valid_html draft = true
  /\ Forall (fun word => contains (lower word) (lower draft) = false)
       (forbidden_words (policy (EditorAgent.config self))).

Definition has_status (status : string) (v : Verdict.t) : bool :=
  match Review.status (Verdict.review v) with
  | Some s => String.eqb s status
  | None => false
  end.

(** An entry of a review that was carried out, with a status other than
    [APPROVE] and [FLAGGED]. *)
Definition reviewed_otherwise (v : Verdict.t) : bool :=
  match Verdict.path v, Review.status (Verdict.review v) with
  | Some _, Some s => negb (String.eqb s "APPROVE") && negb (String.eqb s "FLAGGED")
  | _, _ => false
  end.

Definition count_where (f : Verdict.t -> bool) (l : list Verdict.t) : Z :=
  Z.of_nat (length (List.filter f l)).

(** The three counters count entries of the list. *)
Definition counted (r : EditorResults.t) : Prop :=
  EditorResults.approved r = count_where (has_status "APPROVE") (EditorResults.verdicts r)
  /\ EditorResults.flagged r
     = count_where (has_status "FLAGGED") (EditorResults.verdicts r)
  /\ EditorResults.rejected r
     = count_where reviewed_otherwise (EditorResults.verdicts r).

(** *** The Observer *)

Section Dashboard.
Context `{Money}.

(** The counters of a dashboard agree with each other. *)
Definition dashboard_consistent (d : Observer.Dashboard) : Prop :=
  Observer.total_runs d = Observer.successful_runs d + Observer.failed_runs d
  /\ Observer.total_projects_updated d
     = Observer.total_prs_created d + Observer.total_direct_pushes d
  /\ (length (Observer.runs d) <= 20)%nat.

(** The line of the dashboard for a run. *)
Definition entry_of (run_log : Observer.RunLog) : Observer.RunEntry :=
  {| Observer.entry_run_id := Observer.run_id run_log;
     Observer.entry_timestamp := Observer.timestamp run_log;
     Observer.entry_success := Observer.success run_log;
     Observer.entry_cost := Observer.cost_total_formatted run_log;
     Observer.entry_updates :=
       Observer.ds_pushed (Observer.deployer run_log)
       + Observer.ds_prs_created (Observer.deployer run_log) |}.
End Dashboard.

(** The Editor did not let the draft through: its status is [REJECT] or
    [ERROR], or is missing. *)
Definition held_back (verdict : Verdict.t) : Prop :=
  let status := default "ERROR" (Review.status (Verdict.review verdict)) in
  status = "REJECT" \/ status = "ERROR".

(** The value the Deployer compares with the threshold. *)
Definition risk (verdict : Verdict.t) : Json :=
  default (JInt 0) (Review.change_percentage (Verdict.review verdict)).

(** The risk of the verdict is a number: the key [change_percentage]
    is missing or holds a number. *)
Definition numeric_risk (verdict : Verdict.t) : Prop :=
  PyJson.number (risk verdict) <> None.

(** The risk of a verdict is a number above the threshold of the
    Deployer. *)
Definition high_risk (self : Deployer.t) (verdict : Verdict.t) : Prop :=
  exists pct,
    PyJson.number (risk verdict) = Some pct
    /\ (Deployer.high_risk_threshold self < pct)%Q.

(** The comparison with the threshold is reached for a verdict of the
    status: nothing before it settles the decision. *)
Definition risk_is_read (self : Deployer.t) (status : string) : Prop :=
  Deployer.mode self <> "manual" /\ status <> "FLAGGED"
  /\ Deployer.force_pr_on_high_risk self = true.

(** The issues of a verdict are a list: the key [issues] is missing or
    holds a list. *)
Definition issues_of (verdict : Review.t) : Json :=
  default (JList []) (Review.issues verdict).

Definition listed_issues (verdict : Review.t) : option (list string) :=
  match issues_of verdict with
  | JList items => Some items
  | _ => None
  end.

End Spec2.

(** ** More concrete environments *)

Module Sample2.

Import PyStr Remote.

Definition empty_context : Context.t :=
  {| Context.generated_at := ""; Context.config_hash := ""; Context.projects := [];
     Context.summary := {| Summary.total := 0; Summary.updates := 0; Summary.skips := 0;
                           Summary.new := 0; Summary.locked := 0 |} |}.

(** The context of a Collector run on the sample code host. *)
Definition context0 : Context.t :=
  match @Collector.run Sample.github0 Sample.host0 Sample.collector0 with
  | inr context => context
  | inl _ => empty_context
  end.

(** The sample Collector with the forced update switched on. *)
Definition collector_forced : Collector.t :=
  {| Collector.config := Sample.config0;
     Collector.bio_site := Collector.bio_site Sample.collector0;
     Collector.dry_run := false;
     Collector.force_update := true |}.

(** A code host on which nothing answers. *)
Definition github_down : GitHubClient :=
  {| get_repo := fun _ _ => inl (OtherException "connection refused");
     get_commits := fun _ _ _ => inl (OtherException "connection refused");
     get_releases := fun _ _ _ => inl (OtherException "connection refused");
     get_languages := fun _ _ => inl (OtherException "connection refused");
     get_readme := fun _ _ => inl (OtherException "connection refused");
     search_repos_by_topic := fun _ _ => inl (OtherException "connection refused");
     list_contents := fun _ _ _ _ => inl (OtherException "connection refused");
     get_file_content := fun _ _ _ _ => inl (OtherException "connection refused") |}.

(** What the sample code host answers for a repository without
    activity. *)
Definition fetched_idle : Collector.Fetched :=
  {| Collector.repo_meta :=
       {| meta_description := Some "a project"; meta_stargazers_count := Some 3;
          meta_forks_count := None |};
     Collector.f_commits := [];
     Collector.f_releases := [];
     Collector.f_languages := ["Python"];
     Collector.f_readme :=
       {| readme_content := ""; readme_sha := None; readme_size := 0 |} |}.

(** An index with an unlocked page of [epsilon]. *)
Definition index_epsilon : gmap string BioState :=
  <[ "epsilon" := {| bio_exists := true; bio_path := Some "projects/epsilon.html";
                     bio_sha := Some "e1"; bio_content := Some Sample.beta_page;
                     bio_manual_sections := []; bio_locked := false;
                     bio_last_deploy := None |} ]> Sample.index0.

(** The entry collected for [alpha], which has no page yet. *)
Definition alpha_entry : Project.t :=
  match @Collector._collect_project Sample.github0 Sample.collector0
          "me/alpha" Sample.index0 with
  | inr p => p
  | inl _ => Sample.beta_snapshot None
  end.

(** The manual section of the sample page of [beta]. *)
Definition beta_fragment : string :=
  "<!-- MANUAL:custom -->hand-written<!-- /MANUAL:custom -->".

(** A draft that lost the placeholder. *)
Definition draft_without_placeholder : string :=
  "<html><body><section id='summary'>New text</section></body></html>".

(** *** The Editor *)

Definition page_draft : string :=
  "<html><body><section id='summary'>New text</section></body></html>".

(** A working directory of the Editor with one draft, of [beta]. *)
Definition editor_files0 : EditorFiles :=
  {| editor_draft_file := fun path =>
       if String.eqb path "drafts/beta.html" then Some page_draft else None;
     editor_context_json := Some (Sample.context_with (Some Sample.beta_page));
     writer_results_json :=
       Some [ {| draft_slug := "beta"; draft_path := "drafts/beta.html";
                 draft_status := "success"; draft_is_new := false |} ] |}.

(** A draft with the page structure and without the required section. *)
Definition draft_without_summary : string :=
  "<html><body><p>New text</p></body></html>".

(** *** The Deployer *)

(** A verdict with a status outside the vocabulary of the Editor. *)
Definition verdict_lgtm : Verdict.t := Sample.verdict_of "LGTM" (10 # 1).


(** *** The Observer *)

(** Amounts in cents. *)
Definition cents : Money :=
  {| amount := Z; amount_zero := 0; amount_add := Z.add;
     amount_format2 := fun _ => "$0.00" |}.

Definition run_log_of (id : string) (ok : bool) (pushed prs : Z)
  : @Observer.RunLog cents :=
  @Observer.Build_RunLog cents id "2024-05-03T10:00:00Z" ok
    {| Observer.ds_status := "success"; Observer.ds_pushed := pushed;
       Observer.ds_prs_created := prs; Observer.ds_skipped := 0;
       Observer.ds_errors := 0 |}
    12%Z "$0.12".

End Sample2.

(** * Properties *)

(** ** SHA-1 test vectors *)

Example sha1_empty :
  SHA1.hexdigest "" = "da39a3ee5e6b4b0d3255bfef95601890afd80709".
Proof. vm_compute. reflexivity. Qed.

Example sha1_abc :
  SHA1.hexdigest "abc" = "a9993e364706816aba3e25717850c26c9cd0d89d".
Proof. vm_compute. reflexivity. Qed.

Example sha1_two_blocks :
  SHA1.hexdigest "abcdbcdecdefdefgefghfghighijhijkijkljklmklmnlmnomnopnopq"
  = "84983e441c3bd26ebaae4aa1f95129e5e54670f1".
Proof. vm_compute. reflexivity. Qed.

(** ** The significance scorer *)

Section ScorerFacts.

Import Collector Spec.

Variable sc : Scoring.

Lemma score_commit_fst s r c :
  fst (score_commit sc (s, r) c) = s + commit_bonus sc c.
Proof.
  unfold score_commit, commit_bonus; cbn.
  repeat (case String.eqb; [reflexivity|]). cbn; lia.
Qed.

Lemma fold_score commits : forall s r,
  fst (fold_left (score_commit sc) commits (s, r)) = s + sum_bonus sc commits.
Proof.
  induction commits as [|c l IH]; intros s r; cbn [fold_left sum_bonus].
  - cbn; lia.
  - destruct (score_commit sc (s, r) c) as [s' r'] eqn:E.
    rewrite IH. pose proof (score_commit_fst s r c) as Hs.
    rewrite E in Hs; cbn in Hs. lia.
Qed.

Lemma sum_bonus_app l1 l2 :
  sum_bonus sc (l1 ++ l2) = sum_bonus sc l1 + sum_bonus sc l2.
Proof. induction l1 as [|c l1 IH]; cbn [app sum_bonus]; lia. Qed.

Lemma commit_bonus_nonneg c : nonneg_weights sc -> 0 <= commit_bonus sc c.
Proof.
  intros (_ & _ & Hf & Hr & Hx). unfold commit_bonus.
  repeat (case String.eqb; [assumption|]). lia.
Qed.

Lemma sum_bonus_nonneg l : nonneg_weights sc -> 0 <= sum_bonus sc l.
Proof.
  intros Hw. induction l as [|c l IH]; cbn [sum_bonus]; [lia|].
  pose proof (commit_bonus_nonneg c Hw). lia.
Qed.

(** The score of an already published project, in closed form. *)
Lemma change_score_published self commits releases rc :
  scoring (Collector.config self) = sc ->
  Significance.change_score (_calculate_significance self commits releases rc false)
  = if is_empty commits && is_empty releases then no_commits sc
    else (if negb (is_empty releases) then new_release sc else 0)
         + (if rc then readme_changed sc else 0)
         + sum_bonus sc commits.
Proof.
  intros Hsc. unfold _calculate_significance. rewrite Hsc.
  destruct (is_empty commits && is_empty releases); [reflexivity|].
  destruct (negb (is_empty releases)), rc; cbv beta iota zeta;
    match goal with
    | |- context [fold_left ?f ?l (?s, ?r)] =>
        pose proof (fold_score l s r) as Hf;
        destruct (fold_left f l (s, r)) as [s' r']
    end; cbn [fst Significance.change_score] in *; lia.
Qed.

(** The reasons already recorded keep their place: the fold only ever
    appends. *)
Lemma score_commit_head s r rs c :
  exists rs', snd (score_commit sc (s, r :: rs) c) = r :: rs'.
Proof.
  unfold score_commit, append_once, PyStr.append.
  repeat (case String.eqb; [case existsb; cbn; eauto|]). cbn; eauto.
Qed.

Lemma fold_reasons_head commits : forall s r rs,
  exists rs', snd (fold_left (score_commit sc) commits (s, r :: rs)) = r :: rs'.
Proof.
  induction commits as [|c l IH]; intros s r rs; cbn [fold_left]; [cbn; eauto|].
  destruct (score_commit_head s r rs c) as [rs' E].
  destruct (score_commit sc (s, r :: rs) c) as [s' r'] eqn:E'; cbn in E; subst r'.
  apply IH.
Qed.

Lemma score_commit_no_reason s c :
  commit_reason c = None -> snd (score_commit sc (s, []) c) = [].
Proof.
  unfold commit_reason, score_commit.
  repeat (case String.eqb; [discriminate|]). reflexivity.
Qed.

Lemma score_commit_reason s c r :
  commit_reason c = Some r -> snd (score_commit sc (s, []) c) = [r].
Proof.
  unfold commit_reason, score_commit.
  repeat (case String.eqb; [intros [= <-]; reflexivity|]). discriminate.
Qed.

Lemma fold_reasons_empty commits : forall s,
  head (snd (fold_left (score_commit sc) commits (s, []))) = first_commit_reason commits.
Proof.
  induction commits as [|c l IH]; intros s; cbn [fold_left first_commit_reason];
    [reflexivity|].
  destruct (commit_reason c) as [r|] eqn:Er.
  - pose proof (score_commit_reason s c r Er) as E.
    destruct (score_commit sc (s, []) c) as [s' r'] eqn:E'; cbn in E; subst r'.
    destruct (fold_reasons_head l s' r []) as [rs' ->]. reflexivity.
  - pose proof (score_commit_no_reason s c Er) as E.
    destruct (score_commit sc (s, []) c) as [s' r'] eqn:E'; cbn in E; subst r'.
    apply IH.
Qed.

(** The reason of an already published project with some activity, in
    closed form. *)
Lemma change_reason_published self commits releases rc :
  scoring (Collector.config self) = sc ->
  is_empty commits && is_empty releases = false ->
  Significance.change_reason (_calculate_significance self commits releases rc false)
  = reason_in_list_order commits releases rc.
Proof.
  intros Hsc Hact. unfold _calculate_significance, reason_in_list_order.
  rewrite Hsc, Hact.
  destruct (negb (is_empty releases)); cbv beta iota zeta.
  - destruct rc; cbv beta iota zeta; unfold PyStr.append; cbn [app];
      match goal with
      | |- context [fold_left ?f ?l (?s, ?r :: ?rs)] =>
          destruct (fold_reasons_head l s r rs) as [rs' E];
          destruct (fold_left f l (s, r :: rs)) as [s' r']
      end; cbn in E; subst; reflexivity.
  - destruct rc; cbv beta iota zeta; unfold PyStr.append; cbn [app].
    + match goal with
      | |- context [fold_left ?f ?l (?s, ?r :: ?rs)] =>
          destruct (fold_reasons_head l s r rs) as [rs' E];
          destruct (fold_left f l (s, r :: rs)) as [s' r']
      end; cbn in E; subst; reflexivity.
    + match goal with
      | |- context [fold_left ?f ?l (?s, [])] =>
          pose proof (fold_reasons_empty l s) as E;
          destruct (fold_left f l (s, [])) as [s' r']
      end; cbn in E. rewrite <- E. destruct r'; reflexivity.
Qed.

End ScorerFacts.

(** C6.  A project without a published record is scored [new] with the
    sentinel score 999, whatever its activity: the commits, the releases
    and the README do not matter, and may all be empty. *)
Theorem C6_unpublished_project_is_new :
  forall (self : Collector.t) (bio_state : BioState) (readme : Readme)
         (commits : list Commit) (releases : list Release),
    bio_exists bio_state = false ->
    Collector._calculate_significance self commits releases
      (Collector._check_readme_changed readme bio_state)
      (negb (bio_exists bio_state))
    = {| Significance.change_score := 999;
         Significance.status := "new";
         Significance.change_reason := "new_project" |}.
Proof.
  intros self bio_state readme commits releases Hnew.
  unfold Collector._calculate_significance. rewrite Hnew. reflexivity.
Qed.

Lemma C6_unpublished_project_is_new_witness :
  bio_exists Collector.no_bio_state = false
  /\ Collector._calculate_significance Sample.collector0 [] []
       (Collector._check_readme_changed
          {| readme_content := ""; readme_sha := None; readme_size := 0 |}
          Collector.no_bio_state)
       (negb (bio_exists Collector.no_bio_state))
     = {| Significance.change_score := 999;
          Significance.status := "new";
          Significance.change_reason := "new_project" |}.
Proof.
  split; [reflexivity|].
  apply (C6_unpublished_project_is_new Sample.collector0 Collector.no_bio_state).
  reflexivity.
Defined.

(** The same through [_collect_project]: a slug the index does not know,
    whose data could be fetched, is collected as [new] with score 999,
    also under a forced update. *)
Lemma collect_project_unpublished `{GitHubClient} `{Host}
    (self : Collector.t) (bio_index : gmap string BioState)
    (repo_full_name owner repo : string) (f : Collector.Fetched) :
  PyStr.split "/" repo_full_name = [owner; repo] ->
  bio_index !! repo = None ->
  Collector.fetch_project owner repo
    (default 30 (collector (Collector.config self) ≫= commits_lookback_days)) = inr f ->
  exists p, Collector._collect_project self repo_full_name bio_index = inr p
            /\ Project.status p = "new" /\ Project.change_score p = 999
            /\ Project.exists_ p = false.
Proof.
  intros Hs Hi Hf. unfold Collector._collect_project.
  rewrite Hs, Hi. cbn [default Collector.no_bio_state bio_locked bio_exists negb].
  rewrite Hf. cbv beta iota zeta.
  unfold Collector._calculate_significance.
  cbn [Significance.status Significance.change_score Significance.change_reason].
  replace (String.eqb "new" "skip") with false by reflexivity.
  rewrite andb_false_r. eexists; repeat split.
Qed.

(** C8.  For an already published project, with bonuses that are not
    negative (and the no-activity sentinel not positive: the configuration
    holds a negative sentinel there), one more release, a README that
    changed, or one more commit of any category never lowers the score. *)
Theorem C8_score_monotonic :
  forall (self : Collector.t) (commits1 commits2 : list Commit) (c : Commit)
         (releases1 releases2 : list Release) (r : Release) (rc : bool),
    let score cs rs b :=
      Significance.change_score (Collector._calculate_significance self cs rs b false) in
    Spec.nonneg_weights (scoring (Collector.config self)) ->
    no_commits (scoring (Collector.config self)) <= 0 ->
    score (commits1 ++ commits2)%list (releases1 ++ releases2)%list rc
      <= score (commits1 ++ commits2)%list (releases1 ++ r :: releases2)%list rc
    /\ score (commits1 ++ commits2)%list (releases1 ++ releases2)%list false
      <= score (commits1 ++ commits2)%list (releases1 ++ releases2)%list true
    /\ score (commits1 ++ commits2)%list (releases1 ++ releases2)%list rc
      <= score (commits1 ++ c :: commits2)%list (releases1 ++ releases2)%list rc.
Proof.
  intros self commits1 commits2 c releases1 releases2 r rc score Hw Hs.
  subst score. cbv beta.
  set (sc := scoring (Collector.config self)) in *.
  rewrite !(change_score_published sc self) by reflexivity.
  pose proof (sum_bonus_nonneg sc (commits1 ++ commits2)%list Hw) as Hsum.
  pose proof (commit_bonus_nonneg sc c Hw) as Hc.
  pose proof (sum_bonus_app sc commits1 (c :: commits2)) as Happ1.
  pose proof (sum_bonus_app sc commits1 commits2) as Happ2.
  cbn [Spec.sum_bonus] in Happ1.
  destruct Hw as (Hrel & Hreadme & _).
  assert (Hr : Collector.is_empty (releases1 ++ r :: releases2)%list = false)
    by (destruct releases1; reflexivity).
  assert (Hcs : Collector.is_empty (commits1 ++ c :: commits2)%list = false)
    by (destruct commits1; reflexivity).
  rewrite Hr, Hcs, andb_false_r. cbn [andb negb].
  repeat split.
  - destruct (Collector.is_empty (commits1 ++ commits2)%list),
      (Collector.is_empty (releases1 ++ releases2)%list), rc; cbn [andb negb]; lia.
  - destruct (Collector.is_empty (commits1 ++ commits2)%list),
      (Collector.is_empty (releases1 ++ releases2)%list); cbn [andb negb]; lia.
  - destruct (Collector.is_empty (commits1 ++ commits2)%list),
      (Collector.is_empty (releases1 ++ releases2)%list), rc; cbn [andb negb]; lia.
Qed.

Lemma C8_score_monotonic_witness :
  let score cs rs b :=
    Significance.change_score
      (Collector._calculate_significance Sample.collector0 cs rs b false) in
  score [] [] false <= score [] [Sample.release0] false
  /\ score [] [] false <= score [] [] true
  /\ score [] [] false <= score [Sample.commit_of "feat"] [] false.
Proof.
  apply (C8_score_monotonic Sample.collector0 [] [] (Sample.commit_of "feat")
           [] [] Sample.release0 false).
  - unfold Spec.nonneg_weights; cbn; lia.
  - cbn; lia.
Defined.

(** The condition on the sentinel is needed: with the bonuses of the
    sample configuration and [no_commits = 1000], a project without
    activity scores 1000, and 30 once it has one [feat] commit. *)
Remark positive_sentinel_breaks_monotonicity :
  let self := Sample.collector_with Sample.scoring_positive_sentinel in
  let score cs rs b :=
    Significance.change_score (Collector._calculate_significance self cs rs b false) in
  Spec.nonneg_weights (scoring (Collector.config self))
  /\ score [] [] false = 1000
  /\ score [Sample.commit_of "feat"] [] false = 30
  /\ ~ (score [] [] false <= score [Sample.commit_of "feat"] [] false).
Proof.
  cbv zeta. split; [unfold Spec.nonneg_weights; cbn; lia|].
  split; [reflexivity|]. split; [reflexivity|].
  vm_compute. intros H; apply H; reflexivity.
Qed.

(** C3.  For an already published project with at least one
    commit or release, the reason is [release_tag] when there is a
    release, else [readme_changed] when the README changed, else the
    reason of the first commit, in the order of the list, whose category
    is feat, refactor or fix, else [low_significance]. *)
Theorem C3_reason_first_in_list_order :
  forall (self : Collector.t) (commits : list Commit) (releases : list Release)
         (rc : bool),
    commits <> [] \/ releases <> [] ->
    Significance.change_reason
      (Collector._calculate_significance self commits releases rc false)
    = Spec.reason_in_list_order commits releases rc.
Proof.
  intros self commits releases rc Hact.
  apply (change_reason_published (scoring (Collector.config self))); [reflexivity|].
  destruct commits, releases; try reflexivity. destruct Hact; congruence.
Qed.

Lemma C3_reason_first_in_list_order_witness :
  Significance.change_reason
    (Collector._calculate_significance Sample.collector0
       [Sample.commit_of "fix"; Sample.commit_of "feat"] [] false false)
  = Spec.reason_in_list_order [Sample.commit_of "fix"; Sample.commit_of "feat"] [] false.
Proof.
  apply (C3_reason_first_in_list_order Sample.collector0).
  left; discriminate.
Defined.

(** C3, the reading with a fixed priority: feat, refactor, fix ranked
    wherever they stand in the list, a category counted only when its
    bonus is not zero.  With a [fix] commit before a [feat] commit, no
    release and an unchanged README, the code answers [fix_commit]; and
    with a release whose configured bonus is zero it still answers
    [release_tag]. *)
Lemma C3_reason_priority_counterexample :
  let commits := [Sample.commit_of "fix"; Sample.commit_of "feat"] in
  let self0 := Sample.collector_with Sample.scoring_zero_release in
  (Significance.change_reason
     (Collector._calculate_significance Sample.collector0 commits [] false false)
   = "fix_commit"
   /\ Spec.reason_by_priority Sample.scoring0 commits [] false = "feature_commit"
   /\ Significance.change_reason
        (Collector._calculate_significance Sample.collector0 commits [] false false)
      <> Spec.reason_by_priority Sample.scoring0 commits [] false)
  /\ (Significance.change_reason
        (Collector._calculate_significance self0
           [Sample.commit_of "feat"] [Sample.release0] false false)
      = "release_tag"
      /\ Spec.reason_by_priority Sample.scoring_zero_release
           [Sample.commit_of "feat"] [Sample.release0] false = "feature_commit").
Proof.
  cbv zeta. split.
  - split; [reflexivity|]. split; [reflexivity|]. vm_compute. discriminate.
  - split; reflexivity.
Qed.

(** ** The summary of a Collector run *)

Section CollectorRun.

Import Collector Spec.
Context `{GitHubClient} `{Host}.

Variable self : Collector.t.
Variable bio_index : gmap string BioState.

Lemma count_in_snoc b l p :
  count_in b (PyStr.append l p) = count_in b l + one_if (Bucket_eqb (bucket p) b).
Proof.
  unfold count_in, PyStr.append. rewrite List.filter_app, length_app.
  cbn [List.filter]. destruct (Bucket_eqb (bucket p) b); cbn [length one_if]; lia.
Qed.

(** One project moves exactly one counter, the one of its bucket. *)
Lemma count_project_bucket s p :
  Summary.total (count_project s p) = Summary.total s
  /\ Summary.locked (count_project s p)
     = Summary.locked s + one_if (Bucket_eqb (bucket p) BLocked)
  /\ Summary.updates (count_project s p)
     = Summary.updates s + one_if (Bucket_eqb (bucket p) BUpdates)
  /\ Summary.new (count_project s p)
     = Summary.new s + one_if (Bucket_eqb (bucket p) BNew)
  /\ Summary.skips (count_project s p)
     = Summary.skips s + one_if (Bucket_eqb (bucket p) BSkips).
Proof.
  unfold count_project, bucket.
  destruct (Project.locked p); [cbn; lia|].
  destruct (String.eqb (Project.status p) "update"); [cbn; lia|].
  destruct (String.eqb (Project.status p) "new"); cbn; lia.
Qed.

(** A collected project that is locked has status [skip]. *)
Lemma collect_project_locked repo_full_name p :
  _collect_project self repo_full_name bio_index = inr p ->
  Project.locked p = true -> Project.status p = "skip".
Proof.
  unfold _collect_project.
  destruct (PyStr.split "/" repo_full_name) as [|owner [|repo [|? ?]]];
    try discriminate.
  destruct (bio_locked _); [intros [= <-]; reflexivity|].
  destruct (fetch_project _ _ _); intros [= <-]; discriminate.
Qed.

Lemma collect_project_returns repo_full_name :
  well_formed_name repo_full_name ->
  exists p, _collect_project self repo_full_name bio_index = inr p.
Proof.
  intros (owner & repo & Hs). unfold _collect_project. rewrite Hs.
  destruct (bio_locked _); [eauto|].
  destruct (fetch_project _ _ _); eauto.
Qed.

(** What the loop adds to the context it starts from. *)
Lemma collect_all_adds projects : forall context context',
  collect_all self bio_index projects context = inr context' ->
  exists added,
    Context.projects context' = (Context.projects context ++ added)%list
    /\ length added = length projects
    /\ Forall (fun p => Project.locked p = true -> Project.status p = "skip") added
    /\ Summary.total (Context.summary context') = Summary.total (Context.summary context)
    /\ Summary.locked (Context.summary context')
       = Summary.locked (Context.summary context) + count_in BLocked added
    /\ Summary.updates (Context.summary context')
       = Summary.updates (Context.summary context) + count_in BUpdates added
    /\ Summary.new (Context.summary context')
       = Summary.new (Context.summary context) + count_in BNew added
    /\ Summary.skips (Context.summary context')
       = Summary.skips (Context.summary context) + count_in BSkips added.
Proof.
  induction projects as [|name projects IH]; intros context context'.
  - intros [= <-]. exists []. rewrite app_nil_r.
    repeat split; try constructor; unfold count_in; cbn; lia.
  - cbn [collect_all]. unfold ebind at 1.
    destruct (_collect_project self name bio_index) as [e|p] eqn:Ep; [discriminate|].
    intros Hrest. apply IH in Hrest.
    destruct Hrest as (added & Hp & Hlen & Hok & Ht & Hl & Hu & Hn & Hs).
    cbn [Context.projects Context.summary] in *.
    destruct (count_project_bucket (Context.summary context) p)
      as (Ct & Cl & Cu & Cn & Cs).
    exists (p :: added). unfold PyStr.append in Hp. rewrite <- app_assoc in Hp.
    split; [exact Hp|]. split; [cbn; lia|].
    split; [constructor; [eauto using collect_project_locked|exact Hok]|].
    assert (Hc : forall b, count_in b (p :: added)
                           = one_if (Bucket_eqb (bucket p) b) + count_in b added).
    { intros b. unfold count_in. cbn [List.filter].
      destruct (Bucket_eqb (bucket p) b); cbn [length one_if]; lia. }
    rewrite !Hc. repeat split; lia.
Qed.

Lemma collect_all_returns projects : forall context,
  Forall well_formed_name projects ->
  exists context', collect_all self bio_index projects context = inr context'.
Proof.
  induction projects as [|name projects IH]; intros context Hwf.
  - eexists; reflexivity.
  - inversion Hwf as [|? ? Hname Hrest]; subst.
    destruct (collect_project_returns name Hname) as [p Ep].
    cbn [collect_all]. unfold ebind at 1. rewrite Ep. apply IH, Hrest.
Qed.

(** The four buckets partition any list of projects. *)
Lemma buckets_partition (l : list Project.t) :
  count_in BLocked l + count_in BUpdates l + count_in BNew l + count_in BSkips l
  = Z.of_nat (length l).
Proof.
  unfold count_in. induction l as [|p l IH]; [reflexivity|].
  cbn [List.filter]. destruct (bucket p); cbn [Bucket_eqb length] in *; lia.
Qed.

End CollectorRun.

(** C10.  A Collector run over well-formed repository names returns a
    context in which every project is counted in exactly one of the
    buckets locked, updates, new, skips: each counter is the number of
    projects of its bucket and the four add up to the total, the number
    of projects.  A locked project is counted under locked although its
    status is [skip], and a project whose fetch failed (status [error])
    under skips. *)
Theorem C10_summary_buckets_partition :
  forall (G : GitHubClient) (Hst : Host) (self : Collector.t)
         (bio_index : gmap string BioState),
    BioSiteClient.get_project_index (Collector.bio_site self)
      (Target.output_dir (target (Collector.config self))) = inr bio_index ->
    Forall Spec.well_formed_name (Collector._discover_projects self) ->
    exists context,
      Collector.run self = inr context
      /\ let s := Context.summary context in
         let projects := Context.projects context in
         Summary.total s = Z.of_nat (length (Collector._discover_projects self))
         /\ length projects = length (Collector._discover_projects self)
         /\ Summary.locked s = Spec.count_in Spec.BLocked projects
         /\ Summary.updates s = Spec.count_in Spec.BUpdates projects
         /\ Summary.new s = Spec.count_in Spec.BNew projects
         /\ Summary.skips s = Spec.count_in Spec.BSkips projects
         /\ Summary.locked s + Summary.updates s + Summary.new s + Summary.skips s
            = Summary.total s
         /\ Forall (fun p =>
                      (Project.locked p = true ->
                       Project.status p = "skip" /\ Spec.bucket p = Spec.BLocked)
                      /\ (Project.status p = "error" -> Spec.bucket p = Spec.BSkips))
              projects.
Proof.
  intros G Hst self bio_index Hindex Hwf.
  unfold Collector.run. rewrite Hindex. unfold ebind at 1.
  match goal with
  | |- context [Collector.collect_all self bio_index ?ps ?c0] =>
      destruct (collect_all_returns self bio_index ps c0 Hwf) as [context Hrun];
      pose proof (collect_all_adds self bio_index ps c0 context Hrun)
        as (added & Hp & Hlen & Hok & Ht & Hl & Hu & Hn & Hs)
  end.
  exists context. split; [exact Hrun|].
  cbn [Context.projects Context.summary Summary.total Summary.locked
       Summary.updates Summary.new Summary.skips app] in *.
  rewrite Hp. cbv zeta.
  pose proof (buckets_partition added) as Hpart.
  repeat split; try lia.
  apply Forall_forall. intros p Hin.
  pose proof (proj1 (Forall_forall _ _) Hok p Hin) as Hlocked.
  cbv beta in Hlocked. unfold Spec.bucket. split.
  - intros Hl'. rewrite Hl'. split; [auto|reflexivity].
  - intros Herr. destruct (Project.locked p).
    + specialize (Hlocked eq_refl). congruence.
    + rewrite Herr. reflexivity.
Qed.

Lemma C10_summary_buckets_partition_witness :
  exists context,
    @Collector.run Sample.github0 Sample.host0 Sample.collector0 = inr context
    /\ Summary.total (Context.summary context) = 4
    /\ Summary.locked (Context.summary context) = 1
    /\ Summary.updates (Context.summary context) = 1
    /\ Summary.new (Context.summary context) = 1
    /\ Summary.skips (Context.summary context) = 1.
Proof.
  destruct (C10_summary_buckets_partition Sample.github0 Sample.host0
              Sample.collector0 Sample.index0) as (context & Hrun & _).
  - vm_compute. reflexivity.
  - repeat constructor; eexists; eexists; vm_compute; reflexivity.
  - exists context. split; [exact Hrun|].
    vm_compute in Hrun. injection Hrun as <-. vm_compute. repeat split.
Defined.

(** ** Traces of the Deployer *)

Section Traces.

Import Remote Spec.

Context {P : event -> Prop}.

Lemma emits_ret {A} (a : A) : emits P (ret a).
Proof. intros tr. exists []. rewrite app_nil_r. split; [reflexivity|constructor]. Qed.

Lemma emits_throw {A} (e : exn) : emits P (@throw A e).
Proof. intros tr. exists []. rewrite app_nil_r. split; [reflexivity|constructor]. Qed.

Lemma emits_lift {A} (x : exn + A) : emits P (lift x).
Proof. intros tr. exists []. rewrite app_nil_r. split; [reflexivity|constructor]. Qed.

Lemma emits_log (e : event) : P e -> emits P (log e).
Proof. intros He tr. exists [e]. split; [reflexivity|repeat constructor; exact He]. Qed.

Lemma emits_perform `{TargetRepo} (c : call) : P (Call c) -> emits P (perform c).
Proof. intros Hc tr. exists [Call c]. split; [reflexivity|repeat constructor; exact Hc]. Qed.

Lemma emits_bind {A B} (m : M A) (k : A -> M B) :
  emits P m -> (forall a, emits P (k a)) -> emits P (m ≫= k).
Proof.
  intros Hm Hk tr. unfold mbind, M_bind, bind.
  destruct (Hm tr) as (added1 & E1 & F1).
  destruct (m tr) as [[e|a] tr1]; cbn [snd] in E1; subst tr1.
  - exists added1. split; [reflexivity|exact F1].
  - destruct (Hk a (tr ++ added1)%list) as (added2 & E2 & F2).
    exists (added1 ++ added2)%list. rewrite E2, app_assoc.
    split; [reflexivity|apply Forall_app; split; assumption].
Qed.

Lemma emits_catch {A} (m : M A) (handler : exn -> M A) :
  emits P m -> (forall e, emits P (handler e)) -> emits P (catch m handler).
Proof.
  intros Hm Hh tr. unfold catch.
  destruct (Hm tr) as (added1 & E1 & F1).
  destruct (m tr) as [[e|a] tr1]; cbn [snd] in E1; subst tr1.
  - destruct (Hh e (tr ++ added1)%list) as (added2 & E2 & F2).
    exists (added1 ++ added2)%list. rewrite E2, app_assoc.
    split; [reflexivity|apply Forall_app; split; assumption].
  - exists added1. split; [reflexivity|exact F1].
Qed.

End Traces.

Ltac emits_step :=
  first
    [ apply emits_ret
    | apply emits_throw
    | apply emits_lift
    | apply emits_log; reflexivity
    | apply emits_perform; reflexivity
    | apply emits_bind
    | apply emits_catch
    | progress intros
    | match goal with
      | |- Spec.emits _ (if ?b then _ else _) => destruct b
      | |- Spec.emits _ (match ?x with _ => _ end) => destruct x
      end ].

(** ** The freshness guard and the gatekeeper *)

Section DeployerFacts.

Import Remote Deployer Spec.
Context `{TargetRepo} `{LocalFiles} `{Host}.

Ltac step_m :=
  unfold mbind, M_bind, Remote.bind, Remote.log, Remote.ret, Remote.throw,
    Remote.catch, Remote.perform in *.

(** [_check_freshness] in closed form: the answer and the trace it
    leaves. *)
Lemma check_freshness_eq self slug verdict tr :
  _check_freshness self slug verdict tr =
  let tr1 := (tr ++ [Enter "_check_freshness"; ReadFile "_data/context.json"])%list in
  let fetch := Get_contents (output_dir self ++ slug ++ ".html") (target_branch self) in
  if recorded slug then
    let tr2 := (tr1 ++ [Call fetch])%list in
    let expected_sha := SHA1.hexdigest <$> BioSiteClient.truthy (snapshot_html slug) in
    match respond tr1 fetch with
    | inr current_file =>
        (inr {| Freshness.stale :=
                  match expected_sha with
                  | Some expected =>
                      negb (String.eqb
                              (SHA1.hexdigest (decoded_content current_file)) expected)
                  | None => false
                  end;
                Freshness.expected_sha := expected_sha;
                Freshness.current_sha := Some (sha current_file) |}, tr2)
    | inl (GithubException status msg) =>
        (inr {| Freshness.stale := (status =? 404);
                Freshness.expected_sha := expected_sha;
                Freshness.current_sha := None |}, tr2)
    | inl e => (inl e, tr2)
    end
  else (inr fresh, tr1).
Proof.
  unfold _check_freshness, _load_context, recorded, snapshot_html, snapshot.
  step_m. unfold PyStr.append. cbv zeta.
  destruct context_json as [context|]; cbn [mbind option_bind];
    [|rewrite <- !app_assoc; reflexivity].
  destruct (find_project context slug) as [project|];
    [|rewrite <- !app_assoc; reflexivity].
  destruct (Project.exists_ project); cbn [negb];
    [|rewrite <- !app_assoc; reflexivity].
  rewrite <- !app_assoc. cbn [app].
  destruct (respond _ _) as [e|current_file]; [|reflexivity].
  destruct e; try reflexivity. rewrite andb_true_r. reflexivity.
Qed.

Lemma check_freshness_reads self slug verdict :
  emits no_mutation (_check_freshness self slug verdict).
Proof.
  intros tr. rewrite check_freshness_eq. cbv zeta.
  destruct (recorded slug).
  - exists [Enter "_check_freshness"; ReadFile "_data/context.json";
            Call (Get_contents (output_dir self ++ slug ++ ".html")
                    (target_branch self))].
    split; [|repeat constructor].
    rewrite <- app_assoc. cbn [app].
    destruct (respond _ _) as [[]|]; reflexivity.
  - eexists. split; [reflexivity|repeat constructor].
Qed.

(** The decision for a rejected or errored draft. *)
Lemma gatekeeper_rejected self verdict tr :
  let status := default "ERROR" (Review.status (Verdict.review verdict)) in
  status = "REJECT" \/ status = "ERROR" ->
  gatekeeper self verdict tr
  = (inr (Skip (default "Rejected by Editor" (Review.reason (Verdict.review verdict)))),
     tr).
Proof.
  intros status Hs. unfold gatekeeper. fold status.
  destruct Hs as [-> | ->]; reflexivity.
Qed.

Lemma gatekeeper_reads self verdict : emits no_mutation (gatekeeper self verdict).
Proof.
  unfold gatekeeper.
  destruct (_ || _); [apply emits_ret|].
  apply emits_bind; [apply emits_log; reflexivity|intros _].
  destruct (draft_file _); [|apply emits_ret].
  apply emits_bind; [apply check_freshness_reads|intros freshness].
  repeat emits_step.
Qed.

(** In a dry run the two deploying procedures return at once. *)
Lemma create_pull_request_dry_run self slug content verdict tr :
  _create_pull_request (set_dry_run true self) slug content verdict tr
  = (inr "https://github.com/dry-run/pr",
     (tr ++ [Enter "_create_pull_request"])%list).
Proof. reflexivity. Qed.

Lemma direct_push_dry_run self slug content tr :
  _direct_push (set_dry_run true self) slug content tr
  = (inr tt, (tr ++ [Enter "_direct_push"])%list).
Proof. reflexivity. Qed.

Lemma deploy_dry_run_reads self results slug status d :
  emits no_mutation (deploy (set_dry_run true self) results slug status d).
Proof.
  destruct d as [reason| |should_pr draft_content verdict]; cbn [deploy];
    try apply emits_ret.
  apply emits_catch; [|intros e; apply emits_ret].
  destruct should_pr.
  - apply emits_bind; [|intros; apply emits_ret].
    intros tr. rewrite create_pull_request_dry_run.
    eexists. split; [reflexivity|repeat constructor].
  - apply emits_bind; [|intros; apply emits_ret].
    intros tr. rewrite direct_push_dry_run.
    eexists. split; [reflexivity|repeat constructor].
Qed.

(** A stale draft is never pushed directly: whatever the pull request
    does, the list of pushed slugs stays as it was. *)
Lemma stale_decision_not_pushed self results slug status draft_content verdict tr :
  exists results',
    fst (deploy self results slug status (Deploy true draft_content verdict) tr)
    = inr results'
    /\ Results.pushed results' = Results.pushed results.
Proof.
  cbn [deploy]. step_m.
  destruct (_create_pull_request self slug draft_content verdict tr) as [[e|url] tr'];
    eexists; (split; [reflexivity|reflexivity]).
Qed.

End DeployerFacts.

(** C1.  For a reviewed draft whose status is neither [REJECT] nor
    [ERROR] and whose draft file is there, a freshness check that reports
    [stale = true] makes the Gatekeeper decide for a pull request,
    whatever the workflow mode, the review status and the risk
    percentage are. *)
Theorem C1_stale_forces_pull_request :
  forall (R : Remote.TargetRepo) (L : Remote.LocalFiles) (self : Deployer.t)
         (verdict : Verdict.t) (tr tr' : list Remote.event)
         (draft_content : string) (freshness : Freshness.t),
    let slug := Verdict.slug verdict in
    let status := default "ERROR" (Review.status (Verdict.review verdict)) in
    let draft_path := "drafts/" ++ slug ++ ".html" in
    status <> "REJECT" ->
    status <> "ERROR" ->
    Remote.draft_file draft_path = Some draft_content ->
    Deployer._check_freshness self slug verdict
      (tr ++ [Remote.ReadFile draft_path])%list = (inr freshness, tr') ->
    Freshness.stale freshness = true ->
    Deployer.gatekeeper self verdict tr
    = (inr (Deployer.Deploy true draft_content (Deployer.set_conflict verdict)), tr').
Proof.
  intros R L self verdict tr tr' draft_content freshness slug status draft_path
    Hrej Herr Hdraft Hfresh Hstale.
  unfold Deployer.gatekeeper. fold slug status draft_path.
  apply String.eqb_neq in Hrej, Herr. rewrite Hrej, Herr. cbn [orb].
  unfold mbind, Remote.M_bind, Remote.bind, Remote.log. cbv beta iota.
  rewrite Hdraft. unfold PyStr.append. rewrite Hfresh, Hstale. reflexivity.
Qed.

Lemma C1_stale_forces_pull_request_witness :
  let R := Sample.repo_with Sample.page_modified in
  let L := Sample.files_with (Some Sample.beta_page) [Sample.verdict_of "APPROVE" (10 # 1)] in
  let verdict := Sample.verdict_of "APPROVE" (10 # 1) in
  Deployer.mode Sample.deployer0 = "auto"
  /\ Deployer._should_create_pr Sample.deployer0 "APPROVE" verdict = inr false
  /\ fst (@Deployer.gatekeeper R L Sample.deployer0 verdict [])
     = inr (Deployer.Deploy true Sample.draft0 (Deployer.set_conflict verdict)).
Proof.
  cbv zeta. split; [reflexivity|]. split; [reflexivity|].
  erewrite (C1_stale_forces_pull_request
              (Sample.repo_with Sample.page_modified)
              (Sample.files_with (Some Sample.beta_page)
                 [Sample.verdict_of "APPROVE" (10 # 1)])
              Sample.deployer0 (Sample.verdict_of "APPROVE" (10 # 1)) []).
  - reflexivity.
  - discriminate.
  - discriminate.
  - reflexivity.
  - vm_compute. reflexivity.
  - reflexivity.
Defined.

(** C5.  For a reviewed draft with status [REJECT] or [ERROR] (also when
    the status is missing, which reads as [ERROR]) the decision is to
    skip, and the pair of the slug and the reason of the review is added
    at the end of the list [skipped], while the lists [pushed], [prs] and
    [errors] stay as they are.  The trace is left as it was: no file is
    read, neither [_check_freshness] nor [_should_create_pr] is entered,
    and no call reaches the remote repository. *)
Theorem C5_rejected_is_skipped_without_checks :
  forall (R : Remote.TargetRepo) (L : Remote.LocalFiles) (Hst : Host)
         (self : Deployer.t) (results : Results.t) (verdict : Verdict.t)
         (tr : list Remote.event),
    let status := default "ERROR" (Review.status (Verdict.review verdict)) in
    let reason := default "Rejected by Editor" (Review.reason (Verdict.review verdict)) in
    status = "REJECT" \/ status = "ERROR" ->
    Deployer.gatekeeper self verdict tr = (inr (Deployer.Skip reason), tr)
    /\ exists results',
         Deployer.process_verdict self results verdict tr = (inr results', tr)
         /\ Results.skipped results'
            = (Results.skipped results ++ [(Verdict.slug verdict, reason)])%list
         /\ Results.pushed results' = Results.pushed results
         /\ Results.prs results' = Results.prs results
         /\ Results.errors results' = Results.errors results.
Proof.
  intros R L Hst self results verdict tr status reason Hs.
  pose proof (gatekeeper_rejected self verdict tr Hs) as Hg.
  split; [exact Hg|].
  unfold Deployer.process_verdict, mbind, Remote.M_bind, Remote.bind.
  rewrite Hg. cbn [Deployer.deploy]. unfold Remote.ret.
  eexists. split; [reflexivity|].
  cbn [Results.skipped Results.pushed Results.prs Results.errors Results.add_skipped].
  unfold PyStr.append. repeat split; reflexivity.
Qed.

Lemma C5_rejected_is_skipped_without_checks_witness :
  let R := Sample.repo_with Sample.page_modified in
  let L := Sample.files_with (Some Sample.beta_page) [Sample.verdict_of "REJECT" (10 # 1)] in
  @Deployer.gatekeeper R L Sample.deployer0 (Sample.verdict_of "REJECT" (10 # 1)) []
  = (inr (Deployer.Skip "reviewed"), [])
  /\ exists results',
       @Deployer.process_verdict R L Sample.host0 Sample.deployer0 Results.empty
         (Sample.verdict_of "REJECT" (10 # 1)) [] = (inr results', [])
       /\ Results.skipped results' = [("beta", "reviewed")]
       /\ Results.pushed results' = []
       /\ Results.prs results' = []
       /\ Results.errors results' = [].
Proof.
  cbv zeta.
  apply (C5_rejected_is_skipped_without_checks
           (Sample.repo_with Sample.page_modified)
           (Sample.files_with (Some Sample.beta_page)
              [Sample.verdict_of "REJECT" (10 # 1)])
           Sample.host0 Sample.deployer0 Results.empty
           (Sample.verdict_of "REJECT" (10 # 1)) []).
  left. reflexivity.
Defined.

(** C4.  For a slug without an existing record in the
    snapshot the freshness check answers [stale = false] without asking
    the remote repository.  For a slug with one: when the remote page is
    fetched, it is stale exactly when the snapshot holds a non-empty
    content whose fingerprint differs from the fingerprint of the fetched
    content (so never when the recorded content is missing or empty);
    when the fetch fails with a GitHub error, it is stale exactly when
    that error is a 404; any other exception leaves the check. *)
Theorem C4_freshness_characterised :
  forall (R : Remote.TargetRepo) (L : Remote.LocalFiles) (self : Deployer.t)
         (slug : string) (verdict : Verdict.t) (tr : list Remote.event),
    let tr1 :=
      (tr ++ [Remote.Enter "_check_freshness"; Remote.ReadFile "_data/context.json"])%list in
    let fetch :=
      Remote.Get_contents (Deployer.output_dir self ++ slug ++ ".html")
        (Deployer.target_branch self) in
    let tr2 := (tr1 ++ [Remote.Call fetch])%list in
    let check := Deployer._check_freshness self slug verdict tr in
    (Spec.recorded slug = false -> check = (inr Deployer.fresh, tr1))
    /\ (Spec.recorded slug = true ->
        forall current_file, Remote.respond tr1 fetch = inr current_file ->
        exists freshness,
          check = (inr freshness, tr2)
          /\ (Freshness.stale freshness = true <->
              exists html,
                Spec.snapshot_html slug = Some html /\ html <> ""
                /\ SHA1.hexdigest (Remote.decoded_content current_file)
                   <> SHA1.hexdigest html))
    /\ (Spec.recorded slug = true ->
        forall status msg, Remote.respond tr1 fetch = inl (GithubException status msg) ->
        exists freshness,
          check = (inr freshness, tr2)
          /\ (Freshness.stale freshness = true <-> status = 404))
    /\ (Spec.recorded slug = true ->
        forall e, Remote.respond tr1 fetch = inl e ->
        (forall status msg, e <> GithubException status msg) ->
        check = (inl e, tr2)).
Proof.
  intros R L self slug verdict tr tr1 fetch tr2 check.
  subst check. rewrite check_freshness_eq. fold tr1 fetch. cbv zeta. fold tr2.
  repeat split.
  - intros ->. reflexivity.
  - intros -> current_file ->. eexists. split; [reflexivity|].
    cbn [Freshness.stale].
    destruct (Spec.snapshot_html slug) as [html|]; cbn [BioSiteClient.truthy fmap option_fmap option_map].
    + destruct html as [|c html]; cbn [fmap option_fmap option_map].
      * split; [discriminate|]. intros (html & [= <-] & Hne & _). congruence.
      * rewrite negb_true_iff. split.
        -- intros Hneq. exists (String c html). repeat split; [discriminate|].
           apply String.eqb_neq. exact Hneq.
        -- intros (html' & [= <-] & _ & Hneq). apply String.eqb_neq. exact Hneq.
    + split; [discriminate|]. intros (html & [=] & _).
  - intros -> status msg ->. eexists. split; [reflexivity|].
    cbn [Freshness.stale]. apply Z.eqb_eq.
  - intros -> e -> Hother. destruct e; try reflexivity.
    exfalso. eapply Hother. reflexivity.
Qed.

Lemma C4_freshness_characterised_witness :
  let R := Sample.repo_with Sample.page_deleted in
  let L := Sample.files_with (Some Sample.beta_page) [] in
  exists freshness,
    @Deployer._check_freshness R L Sample.deployer0 "beta"
      (Sample.verdict_of "APPROVE" (10 # 1)) []
    = (inr freshness,
       [Remote.Enter "_check_freshness"; Remote.ReadFile "_data/context.json";
        Remote.Call (Remote.Get_contents "projects/beta.html" "main")])
    /\ (Freshness.stale freshness = true <-> 404 = 404).
Proof.
  cbv zeta.
  apply (proj1 (proj2 (proj2
           (C4_freshness_characterised
              (Sample.repo_with Sample.page_deleted)
              (Sample.files_with (Some Sample.beta_page) [])
              Sample.deployer0 "beta" (Sample.verdict_of "APPROVE" (10 # 1)) [])))
         eq_refl 404 "404 Not Found" eq_refl).
Defined.

(** C4, the reading by fingerprints alone: a comparison whenever the
    snapshot records the artifact.  With a snapshot that recorded an empty page and
    a remote page that now has content, the fingerprints differ, yet the
    check answers [stale = false]. *)
Lemma C4_freshness_counterexample :
  let R := Sample.repo_with Sample.page_modified in
  let L := Sample.files_with (Some "") [] in
  @Spec.recorded L "beta" = true
  /\ fst (@Deployer._check_freshness R L Sample.deployer0 "beta"
            (Sample.verdict_of "APPROVE" (10 # 1)) [])
     = inr {| Freshness.stale := false; Freshness.expected_sha := None;
              Freshness.current_sha := Some "b2" |}
  /\ Spec.stale_by_fingerprint (Sample.beta_snapshot (Some "")) Sample.page_modified
     = true.
Proof.
  cbv zeta. split; [reflexivity|]. split; vm_compute; reflexivity.
Qed.

(** C9.  Neither the significance scorer nor the decision between pull
    request and direct write reads the dry-run flag: with the flag set
    either way they return the same, and so does the whole Gatekeeper
    decision with the trace it leaves.  The flag is read where the remote
    repository would be changed: in a dry run [_create_pull_request] and
    [_direct_push] return at once, and handling a verdict sends no call
    that changes the remote repository. *)
Theorem C9_decisions_ignore_dry_run :
  forall (R : Remote.TargetRepo) (L : Remote.LocalFiles) (Hst : Host),
    (forall (self : Collector.t) (b : bool) commits releases rc is_new,
        Collector._calculate_significance (Collector.set_dry_run b self)
          commits releases rc is_new
        = Collector._calculate_significance self commits releases rc is_new)
    /\ (forall (self : Deployer.t) (b : bool) status verdict,
           Deployer._should_create_pr (Deployer.set_dry_run b self) status verdict
           = Deployer._should_create_pr self status verdict)
    /\ (forall (self : Deployer.t) (b : bool) verdict tr,
           Deployer.gatekeeper (Deployer.set_dry_run b self) verdict tr
           = Deployer.gatekeeper self verdict tr)
    /\ (forall (self : Deployer.t) slug content verdict tr,
           Deployer._create_pull_request (Deployer.set_dry_run true self)
             slug content verdict tr
           = (inr "https://github.com/dry-run/pr",
              (tr ++ [Remote.Enter "_create_pull_request"])%list))
    /\ (forall (self : Deployer.t) slug content tr,
           Deployer._direct_push (Deployer.set_dry_run true self) slug content tr
           = (inr tt, (tr ++ [Remote.Enter "_direct_push"])%list))
    /\ (forall (self : Deployer.t) results verdict,
           Spec.emits Spec.no_mutation
             (Deployer.process_verdict (Deployer.set_dry_run true self) results verdict)).
Proof.
  intros R L Hst.
  split; [|split; [|split; [|split; [|split]]]].
  - intros self b commits releases rc is_new. reflexivity.
  - intros self b status verdict. reflexivity.
  - intros self b verdict tr. reflexivity.
  - intros self slug content verdict tr. apply create_pull_request_dry_run.
  - intros self slug content tr. apply direct_push_dry_run.
  - intros self results verdict. unfold Deployer.process_verdict.
    apply emits_bind; [apply gatekeeper_reads|intros d].
    apply deploy_dry_run_reads.
Qed.

(** ** The deterministic checks of the Editor *)

Section EditorFacts.

Import EditorAgent.

Lemma default_of_some {A} (d a : A) : default d (Some a) = a.
Proof. reflexivity. Qed.

Lemma default_of_none {A} (d : A) : default d None = d.
Proof. reflexivity. Qed.

(** On a list of issues the check of the required sections returns a
    list: it keeps every issue and adds one for each section that is
    missing. *)
Lemma check_sections_list draft (sections : list string) : forall items,
  exists items',
    check_sections draft sections (JList items) = inr (JList items')
    /\ (forall issue, In issue items -> In issue items')
    /\ (forall section, In section sections ->
          missing_section draft section = true ->
          In ("Missing required section: " ++ section) items').
Proof.
  induction sections as [|s sections IH]; intros items; cbn [check_sections].
  - exists items. split; [reflexivity|]. split; [auto|intros section []].
  - destruct (missing_section draft s) eqn:Es.
    + cbn [PyJson.append ebind].
      destruct (IH (PyStr.append items ("Missing required section: " ++ s)))
        as (items' & -> & Hkeep & Hadd).
      exists items'. split; [reflexivity|]. split.
      * intros issue Hi. apply Hkeep. unfold PyStr.append.
        apply in_or_app. left. exact Hi.
      * intros section [<-|Hin] Hmiss; [|apply Hadd; assumption].
        apply Hkeep. unfold PyStr.append. apply in_or_app. right. left. reflexivity.
    + destruct (IH items) as (items' & -> & Hkeep & Hadd).
      exists items'. split; [reflexivity|]. split; [exact Hkeep|].
      intros section [<-|Hin] Hmiss; [congruence|apply Hadd; assumption].
Qed.

(** A draft that fails the HTML check: the checks end with [REJECT]
    when the answer lets them run to their end, and raise otherwise. *)
Lemma add_deterministic_checks_invalid_html self verdict draft :
  _is_valid_html draft = false ->
  if Spec.checkable self draft (inr (Some (Dict verdict))) then
    exists verdict',
      _add_deterministic_checks self (Dict verdict) draft = inr verdict'
      /\ Review.status verdict' = Some "REJECT"
      /\ Review.reason verdict' = Some "Invalid HTML structure"
  else exists e, _add_deterministic_checks self (Dict verdict) draft = inl e.
Proof.
  intros Hinvalid.
  unfold Spec.checkable, _add_deterministic_checks, check_forbidden_words, check_html,
    Spec.found_forbidden.
  cbv zeta. rewrite Hinvalid. cbn [negb].
  destruct (default (JList []) (Review.issues verdict)) as [| | | | |items|];
    try (destruct (List.filter _ _); eexists; reflexivity).
  destruct (List.filter _ _) as [|w ws]; cbn [Collector.is_empty PyJson.append ebind].
  - assert (Hgoal : exists verdict',
               ebind
                 (check_sections draft
                    (default [] (required_sections (policy (config self))))
                    (JList (PyStr.append items "HTML structure appears invalid")))
                 (fun issues =>
                    inr (Review.set_issues issues
                           (Review.set_status "REJECT" "Invalid HTML structure" verdict)))
               = inr verdict'
               /\ Review.status verdict' = Some "REJECT"
               /\ Review.reason verdict' = Some "Invalid HTML structure").
    { destruct (check_sections_list draft
                  (default [] (required_sections (policy (config self))))
                  (PyStr.append items "HTML structure appears invalid"))
        as (items' & -> & _).
      eexists. split; [reflexivity|]. split; reflexivity. }
    destruct (Review.status verdict); exact Hgoal.
  - destruct (Review.status verdict) as [s|]; [|eexists; reflexivity].
    destruct (String.eqb s "APPROVE"); cbn [ebind PyJson.append];
      match goal with
      | |- context [check_sections ?d ?l (JList ?i)] =>
          destruct (check_sections_list d l i) as (items' & -> & _)
      end;
      (eexists; split; [reflexivity|]; split; reflexivity).
Qed.

End EditorFacts.

(** C7.  For a draft that fails the HTML-structure check the review adds
    one entry to the results, and that entry never has status [APPROVE]
    or [FLAGGED].  It has status [REJECT], with the reason of the HTML
    check and counted under rejected, whatever status the reviewer
    returned, [APPROVE] included, when the answer of the reviewer is
    text that does not parse or an object whose [issues] are missing or
    a list and which carries a status if the draft holds a forbidden
    word.  In every other case (the request failed, the answer is valid
    JSON but no object, [issues] holds [null] or another value that is
    no list, or a forbidden word is found and the status is missing) the
    checks raise and the entry has status [ERROR]. *)
Theorem C7_invalid_html_is_rejected_or_error :
  forall (Rv : Reviewer) (self : EditorAgent.t) (results : EditorResults.t)
         (slug draft_content : string) (project_context : Project.t),
    EditorAgent._is_valid_html draft_content = false ->
    let answer :=
      ask_review draft_content
        (default "" (Project.more project_context ≫= Project.current_html))
        project_context in
    let results' := EditorRun.review self results slug draft_content project_context in
    exists entry,
      EditorResults.verdicts results' = (EditorResults.verdicts results ++ [entry])%list
      /\ Review.status (Verdict.review entry)
         = Some (if Spec.checkable self draft_content answer then "REJECT" else "ERROR")
      /\ (Spec.checkable self draft_content answer = true ->
          Review.reason (Verdict.review entry) = Some "Invalid HTML structure"
          /\ EditorResults.rejected results' = EditorResults.rejected results + 1
          /\ EditorResults.approved results' = EditorResults.approved results
          /\ EditorResults.flagged results' = EditorResults.flagged results).
Proof.
  intros Rv self results slug draft_content project_context Hinvalid. cbv zeta.
  unfold EditorRun.review, EditorAgent._review_draft.
  destruct (ask_review _ _ _) as [e|[[verdict|v]|]]; cbn [ebind];
    rewrite ?default_of_some, ?default_of_none.
  - eexists. split; [reflexivity|]. split; [reflexivity|discriminate].
  - pose proof (add_deterministic_checks_invalid_html self verdict draft_content Hinvalid)
      as Hchecks.
    destruct (Spec.checkable self draft_content (inr (Some (Dict verdict)))).
    + destruct Hchecks as (verdict' & -> & Hs & Hr).
      cbv zeta. rewrite Hs, Hr. eexists. split; [reflexivity|].
      split; [exact Hs|]. intros _. split; [exact Hr|].
      split; [reflexivity|]. split; reflexivity.
    + destruct Hchecks as (e & ->).
      eexists. split; [reflexivity|]. split; [reflexivity|discriminate].
  - eexists. split; [reflexivity|]. split; [reflexivity|discriminate].
  - pose proof (add_deterministic_checks_invalid_html self
                  EditorAgent.unparsed_verdict draft_content Hinvalid) as Hchecks.
    change (Spec.checkable self draft_content
              (inr (Some (Dict EditorAgent.unparsed_verdict)))) with true in Hchecks.
    destruct Hchecks as (verdict' & Hc & Hs & Hr).
    rewrite Hc.
    cbv zeta. rewrite Hs, Hr. eexists. split; [reflexivity|].
    split; [exact Hs|]. intros _. split; [exact Hr|].
    split; [reflexivity|]. split; reflexivity.
Qed.

Lemma C7_invalid_html_is_rejected_or_error_witness :
  let results' :=
    @EditorRun.review Sample.reviewer_approving Sample.editor0 EditorResults.empty
      "beta" Sample.fragment_draft (Sample.beta_snapshot None) in
  exists entry,
    EditorResults.verdicts results' = [entry]
    /\ Review.status (Verdict.review entry) = Some "REJECT"
    /\ (true = true ->
        Review.reason (Verdict.review entry) = Some "Invalid HTML structure"
        /\ EditorResults.rejected results' = 1
        /\ EditorResults.approved results' = 0
        /\ EditorResults.flagged results' = 0).
Proof.
  cbv zeta.
  apply (C7_invalid_html_is_rejected_or_error Sample.reviewer_approving Sample.editor0
           EditorResults.empty "beta" Sample.fragment_draft (Sample.beta_snapshot None)).
  vm_compute. reflexivity.
Defined.

(** C7, the reading for every answer of the reviewer: [REJECT] whatever
    the reviewer returned.  With an answer that approves and holds
    [null] under [issues], appending the issue of the HTML check raises
    before the status is set, and the entry recorded is an [ERROR]
    entry, not a [REJECT]. *)
Lemma C7_null_issues_counterexample :
  let results' :=
    @EditorRun.review Sample.reviewer_null_issues Sample.editor0 EditorResults.empty
      "beta" Sample.fragment_draft (Sample.beta_snapshot None) in
  EditorAgent._is_valid_html Sample.fragment_draft = false
  /\ EditorResults.verdicts results'
     = [EditorRun.error_entry "beta"
          (OtherException "'NoneType' object has no attribute 'append'")]
  /\ Forall (fun entry => Review.status (Verdict.review entry) <> Some "REJECT")
       (EditorResults.verdicts results')
  /\ EditorResults.rejected results' = 0.
Proof.
  cbv zeta. split; [vm_compute; reflexivity|].
  split; [vm_compute; reflexivity|]. split; [|vm_compute; reflexivity].
  vm_compute. constructor; [discriminate|constructor].
Qed.

(** ** Manual sections *)

Section InjectionFacts.

Import PyStr WriterAgent Spec.

(** A template without a backslash stands for itself. *)
Lemma parse_verbatim (section : string) :
  has_backslash section = false ->
  exists parts, Template.parse O section = inr parts
                /\ forall whole, Template.expand parts whole = section.
Proof.
  unfold has_backslash.
  induction section as [|c section IH]; cbn [list_ascii_of_string existsb Template.parse].
  - intros _. exists []. split; reflexivity.
  - intros Hno. apply orb_false_iff in Hno as [Hc Hrest].
    destruct (IH Hrest) as (parts & Hparse & Hexp).
    rewrite Ascii.eqb_sym in Hc. rewrite Hc, Hparse. cbn [ebind].
    eexists. split; [reflexivity|].
    intros whole. cbn [Template.expand]. rewrite Hexp. reflexivity.
Qed.

Variables (section_name section : string) (repl : list Template.part).
Hypothesis repl_verbatim : forall whole, Template.expand repl whole = section.

Lemma match_placeholder_nonempty s m :
  match_placeholder section_name s = Some m ->
  exists c s' n, s = String c s' /\ m = take (S n) s.
Proof.
  unfold match_placeholder. intros Hm.
  destruct s as [|c s']; [discriminate Hm|].
  destruct (startswith _ _); [|discriminate Hm].
  destruct (find _ _) as [k|]; [|discriminate Hm].
  remember (String.length
              (BioSiteClient.manual_open ++ section_name ++ BioSiteClient.comment_end))
    as n eqn:En.
  assert (Hn : exists n', n = S n').
  { subst n. unfold BioSiteClient.manual_open.
    cbn [String.append String.length]. eexists; reflexivity. }
  destruct Hn as [n' ->].
  exists c, s'.
  exists (n' + k + String.length
                     (BioSiteClient.manual_close ++ section_name
                      ++ BioSiteClient.comment_end))%nat.
  split; [reflexivity|].
  assert (E : Some m
              = Some (take (S (n' + k + String.length
                                 (BioSiteClient.manual_close ++ section_name
                                  ++ BioSiteClient.comment_end))) (String c s')))
    by (rewrite <- Hm; reflexivity).
  congruence.
Qed.

(** The scan replaces each placeholder by the section as it is. *)
Lemma sub_scan_injected (s : string) : forall k,
  Injected section_name section (drop k s) (sub_scan section_name repl k s).
Proof.
  induction s as [|c s IH]; intros k.
  - destruct k; constructor.
  - destruct k as [|k]; cbn [drop sub_scan]; [|apply IH].
    destruct (match_placeholder section_name (String c s)) as [m|] eqn:Em.
    + rewrite repl_verbatim.
      apply Injected_here with (m := m); [exact Em|].
      destruct (match_placeholder_nonempty _ _ Em) as (c' & s' & n & [= <- <-] & ->).
      cbn [take String.length drop]. rewrite Nat.sub_succ, Nat.sub_0_r. apply IH.
    + apply Injected_keep; [exact Em|]. apply (IH O).
Qed.

End InjectionFacts.

(** A fragment without a backslash is injected verbatim: every
    placeholder that carries its name is replaced by exactly the
    fragment, and the rest of the draft is kept. *)
Lemma inject_without_backslash_is_verbatim (draft section section_name : string) :
  Spec.has_backslash section = false ->
  WriterAgent.search_name section = Some section_name ->
  exists out,
    WriterAgent._inject_manual_sections draft [section] = inr out
    /\ Spec.Injected section_name section draft out.
Proof.
  intros Hno Hname. cbn [WriterAgent._inject_manual_sections]. rewrite Hname.
  unfold WriterAgent.re_sub.
  destruct (parse_verbatim section Hno) as (parts & -> & Hexp). cbn [ebind].
  eexists. split; [reflexivity|].
  apply (sub_scan_injected section_name section parts Hexp draft O).
Qed.

(** C2.  Extracting the manual fragment of a page and injecting it into
    a draft with a placeholder of the same name does not give the
    fragment back when the fragment holds a backslash: the fragment is
    used as the replacement template of [re.sub], which reads [\n] and
    [\t] as a newline and a tab. *)
Theorem C2_backslash_fragment_is_altered :
  BioSiteClient._extract_manual_sections Sample.page_with_path
  = [Sample.fragment_with_path]
  /\ WriterAgent.match_placeholder "custom" (PyStr.drop 12 Sample.draft0)
     = Some "<!-- MANUAL:custom -->placeholder<!-- /MANUAL:custom -->"
  /\ WriterAgent._inject_manual_sections Sample.draft0
       (BioSiteClient._extract_manual_sections Sample.page_with_path)
     = inr ("<html><body><!-- MANUAL:custom -->see C:" ++ PyStr.newline ++ "ew"
            ++ String (ascii_of_nat 9) "ools<!-- /MANUAL:custom --></body></html>")
  /\ (forall out,
         WriterAgent._inject_manual_sections Sample.draft0
           (BioSiteClient._extract_manual_sections Sample.page_with_path) = inr out ->
         PyStr.contains Sample.fragment_with_path out = false).
Proof.
  split; [vm_compute; reflexivity|].
  split; [vm_compute; reflexivity|].
  split; [vm_compute; reflexivity|].
  intros out. vm_compute. intros [= <-]. reflexivity.
Qed.

(** With an escape that the template language does not know, the
    injection raises and no draft is produced. *)
Example inject_unknown_escape_raises :
  WriterAgent._inject_manual_sections Sample.draft0 [Sample.fragment_with_regex]
  = inl (ReError "bad escape").
Proof. vm_compute. reflexivity. Qed.

(** Two fragments of the same name: the second replaces the first, which
    is lost. *)
Example inject_same_name_twice :
  WriterAgent._inject_manual_sections
    "<!-- MANUAL:a -->placeholder<!-- /MANUAL:a -->"
    (BioSiteClient._extract_manual_sections
       "<!-- MANUAL:a -->one<!-- /MANUAL:a --><!-- MANUAL:a -->two<!-- /MANUAL:a -->")
  = inr "<!-- MANUAL:a -->two<!-- /MANUAL:a -->".
Proof. vm_compute. reflexivity. Qed.

(** * Further properties *)

(** ** The scorer and the collection of one project *)

Section MoreScorerFacts.

Import Collector Spec.

Lemma sum_bonus_perm sc (l l' : list Commit) :
  Permutation l l' -> sum_bonus sc l = sum_bonus sc l'.
Proof.
  induction 1; cbn [sum_bonus]; lia.
Qed.

Lemma is_empty_perm {A} (l l' : list A) :
  Permutation l l' -> is_empty l = is_empty l'.
Proof.
  intros Hp. destruct l, l'; try reflexivity.
  - apply Permutation_nil_l in Hp. discriminate.
  - apply Permutation_nil_r in Hp. discriminate.
Qed.

(** The status of an already published project, in closed form. *)
Lemma status_published self commits releases rc :
  Significance.status (_calculate_significance self commits releases rc false)
  = if is_empty commits && is_empty releases then "skip"
    else if update_threshold (scoring (Collector.config self))
            <=? Significance.change_score
                  (_calculate_significance self commits releases rc false)
         then "update" else "skip".
Proof.
  unfold _calculate_significance.
  destruct (is_empty commits && is_empty releases); [reflexivity|].
  destruct (negb (is_empty releases)), rc; cbv beta iota zeta;
    match goal with
    | |- context [fold_left ?f ?l (?s, ?r)] => destruct (fold_left f l (s, r))
    end; reflexivity.
Qed.

(** The scorer answers one of three statuses, and [new] only for a
    project that is new. *)
Lemma scorer_status self commits releases rc is_new :
  let status :=
    Significance.status (_calculate_significance self commits releases rc is_new) in
  (status = "new" /\ is_new = true)
  \/ ((status = "update" \/ status = "skip") /\ is_new = false).
Proof.
  destruct is_new; [left; split; reflexivity|right; split; [|reflexivity]].
  cbv zeta. rewrite status_published.
  destruct (_ && _); [right; reflexivity|].
  destruct (_ <=? _); [left|right]; reflexivity.
Qed.

End MoreScorerFacts.

(** X1.  The score and the status do not depend on the order of the
    commits: two lists of commits that are permutations of each other
    score the same. *)
Theorem score_ignores_commit_order :
  forall (self : Collector.t) (commits commits' : list Commit)
         (releases : list Release) (rc is_new : bool),
    Permutation commits commits' ->
    let v := Collector._calculate_significance self commits releases rc is_new in
    let v' := Collector._calculate_significance self commits' releases rc is_new in
    Significance.change_score v = Significance.change_score v'
    /\ Significance.status v = Significance.status v'.
Proof.
  intros self commits commits' releases rc is_new Hp. cbv zeta.
  destruct is_new; [split; reflexivity|].
  assert (Hs : Significance.change_score
                 (Collector._calculate_significance self commits releases rc false)
               = Significance.change_score
                   (Collector._calculate_significance self commits' releases rc false)).
  { rewrite !(change_score_published (scoring (Collector.config self))) by reflexivity.
    rewrite (is_empty_perm _ _ Hp), (sum_bonus_perm _ _ _ Hp). reflexivity. }
  split; [exact Hs|].
  rewrite !status_published, Hs, (is_empty_perm _ _ Hp). reflexivity.
Qed.

Lemma score_ignores_commit_order_witness :
  let a := [Sample.commit_of "fix"; Sample.commit_of "feat"; Sample.commit_of "docs"] in
  let b := [Sample.commit_of "docs"; Sample.commit_of "feat"; Sample.commit_of "fix"] in
  Significance.change_score
    (Collector._calculate_significance Sample.collector0 a [] true false)
  = Significance.change_score
      (Collector._calculate_significance Sample.collector0 b [] true false)
  /\ Significance.status
       (Collector._calculate_significance Sample.collector0 a [] true false)
     = Significance.status
         (Collector._calculate_significance Sample.collector0 b [] true false).
Proof.
  apply (score_ignores_commit_order Sample.collector0).
  apply Permutation_rev.
Defined.

(** X2.  For an already published project with some activity the score
    is the sum of the release bonus (when there is a release), the README
    bonus (when the README changed) and the bonuses of all the commits,
    and the status is [update] exactly when that sum reaches the
    threshold. *)
Theorem published_score_is_sum_of_bonuses :
  forall (self : Collector.t) (commits : list Commit) (releases : list Release)
         (rc : bool),
    commits <> [] \/ releases <> [] ->
    let sc := scoring (Collector.config self) in
    let v := Collector._calculate_significance self commits releases rc false in
    let total :=
      (if Collector.is_empty releases then 0 else new_release sc)
      + (if rc then readme_changed sc else 0)
      + Spec.sum_bonus sc commits in
    Significance.change_score v = total
    /\ (Significance.status v = "update" <-> update_threshold sc <= total)
    /\ (Significance.status v = "skip" <-> total < update_threshold sc).
Proof.
  intros self commits releases rc Hact sc v total.
  assert (Hne : Collector.is_empty commits && Collector.is_empty releases = false).
  { destruct commits, releases; try reflexivity. destruct Hact; congruence. }
  assert (Hs : Significance.change_score v = total).
  { subst v total. rewrite (change_score_published sc) by reflexivity.
    rewrite Hne. destruct (Collector.is_empty releases); reflexivity. }
  split; [exact Hs|].
  subst v. rewrite status_published, Hne, Hs. fold sc.
  destruct (Z.leb_spec (update_threshold sc) total); split; split;
    intros; try reflexivity; try discriminate; lia.
Qed.

Lemma published_score_is_sum_of_bonuses_witness :
  let v := Collector._calculate_significance Sample.collector0
             [Sample.commit_of "feat"] [Sample.release0] false false in
  Significance.change_score v = 100 + 0 + (30 + 0)
  /\ (Significance.status v = "update" <-> 50 <= 100 + 0 + (30 + 0))
  /\ (Significance.status v = "skip" <-> 100 + 0 + (30 + 0) < 50).
Proof.
  apply (published_score_is_sum_of_bonuses Sample.collector0
           [Sample.commit_of "feat"] [Sample.release0] false).
  left. discriminate.
Defined.

(** X3.  With the forced update switched on, an unlocked project whose
    data was fetched is never left at [skip]: a [skip] of the scorer
    becomes [update] with the reason [force_update] and the score it had,
    and any other verdict of the scorer is kept. *)
Theorem force_update_promotes_skip :
  forall (G : GitHubClient) (self : Collector.t) (bio_index : gmap string BioState)
         (repo_full_name owner repo : string) (f : Collector.Fetched),
    PyStr.split "/" repo_full_name = [owner; repo] ->
    bio_locked (default Collector.no_bio_state (bio_index !! repo)) = false ->
    Collector.fetch_project owner repo
      (default 30 (collector (Collector.config self) ≫= commits_lookback_days)) = inr f ->
    Collector.force_update self = true ->
    let bio_state := default Collector.no_bio_state (bio_index !! repo) in
    let v :=
      Collector._calculate_significance self (Collector.f_commits f)
        (Collector.f_releases f)
        (Collector._check_readme_changed (Collector.f_readme f) bio_state)
        (negb (bio_exists bio_state)) in
    exists p,
      Collector._collect_project self repo_full_name bio_index = inr p
      /\ (Project.status p = "new" \/ Project.status p = "update")
      /\ Project.change_score p = Significance.change_score v
      /\ (Significance.status v = "skip" ->
          Project.status p = "update" /\ Project.change_reason p = "force_update")
      /\ (Significance.status v <> "skip" ->
          Project.status p = Significance.status v
          /\ Project.change_reason p = Significance.change_reason v).
Proof.
  intros G self bio_index repo_full_name owner repo f Hs Hl Hf Hforce bio_state v.
  unfold Collector._collect_project. rewrite Hs. fold bio_state.
  fold bio_state in Hl. rewrite Hl, Hf, Hforce. cbv beta iota zeta. fold v.
  cbn [andb].
  pose proof (scorer_status self (Collector.f_commits f) (Collector.f_releases f)
                (Collector._check_readme_changed (Collector.f_readme f) bio_state)
                (negb (bio_exists bio_state))) as Hcases.
  cbv zeta in Hcases. fold v in Hcases.
  destruct (String.eqb (Significance.status v) "skip") eqn:Eskip;
    eexists; (split; [reflexivity|]);
    cbn [Project.status Project.change_score Project.change_reason
         Significance.status Significance.change_score Significance.change_reason].
  - apply String.eqb_eq in Eskip.
    split; [right; reflexivity|]. split; [reflexivity|].
    split; [intros _; split; reflexivity|]. intros Hne. congruence.
  - apply String.eqb_neq in Eskip.
    split; [|split; [reflexivity|split; [intros; congruence|intros _; split; reflexivity]]].
    destruct Hcases as [[Hn _]|[[Hu|Hk] _]]; [left|right|]; congruence.
Qed.

Lemma force_update_promotes_skip_witness :
  exists p,
    @Collector._collect_project Sample.github0 Sample2.collector_forced
      "me/epsilon" Sample2.index_epsilon = inr p
    /\ Project.status p = "update"
    /\ Project.change_reason p = "force_update"
    /\ Project.change_score p = -999.
Proof.
  destruct (force_update_promotes_skip Sample.github0 Sample2.collector_forced
              Sample2.index_epsilon "me/epsilon" "me" "epsilon" Sample2.fetched_idle)
    as (p & Hp & _ & Hscore & Hskip & _).
  - reflexivity.
  - vm_compute. reflexivity.
  - vm_compute. reflexivity.
  - reflexivity.
  - exists p. split; [exact Hp|].
    destruct Hskip as [Hst Hre]; [vm_compute; reflexivity|].
    split; [exact Hst|]. split; [exact Hre|].
    rewrite Hscore. vm_compute. reflexivity.
Defined.

(** X4.  A locked page is never fetched nor scored: whatever the code
    host answers and whatever the configuration and the forced-update
    switch are, the project is collected as the same fixed entry, locked
    and skipped. *)
Theorem locked_project_is_left_alone :
  forall (G : GitHubClient) (self : Collector.t) (bio_index : gmap string BioState)
         (repo_full_name owner repo : string) (bio_state : BioState),
    PyStr.split "/" repo_full_name = [owner; repo] ->
    bio_index !! repo = Some bio_state ->
    bio_locked bio_state = true ->
    Collector._collect_project self repo_full_name bio_index
    = inr {| Project.slug := repo; Project.repo := repo_full_name;
             Project.exists_ := true; Project.locked := true;
             Project.status := "skip"; Project.change_score := 0;
             Project.change_reason := "locked"; Project.more := None |}.
Proof.
  intros G self bio_index repo_full_name owner repo bio_state Hs Hi Hl.
  unfold Collector._collect_project. rewrite Hs, Hi. cbn [default]. simpl.
  rewrite Hl. reflexivity.
Qed.

Lemma locked_project_is_left_alone_witness :
  @Collector._collect_project Sample2.github_down Sample2.collector_forced
    "me/gamma" Sample.index0
  = @Collector._collect_project Sample.github0 Sample.collector0
      "me/gamma" Sample.index0.
Proof.
  assert (Hg : exists st, Sample.index0 !! "gamma" = Some st /\ bio_locked st = true).
  { eexists. split; vm_compute; reflexivity. }
  destruct Hg as (st & Hi & Hl).
  rewrite (locked_project_is_left_alone Sample2.github_down Sample2.collector_forced
             Sample.index0 "me/gamma" "me" "gamma" st eq_refl Hi Hl).
  rewrite (locked_project_is_left_alone Sample.github0 Sample.collector0
             Sample.index0 "me/gamma" "me" "gamma" st eq_refl Hi Hl).
  reflexivity.
Defined.

(** X5.  A collected project has status [new] exactly when the index
    holds no page for it and its data was fetched; its score is then the
    sentinel 999.  A published project is never collected as [new], also
    under a forced update. *)
Theorem collected_new_iff_unpublished :
  forall (G : GitHubClient) (self : Collector.t) (bio_index : gmap string BioState)
         (repo_full_name : string) (p : Project.t),
    Collector._collect_project self repo_full_name bio_index = inr p ->
    (Project.status p = "new"
     <-> Project.exists_ p = false /\ Project.more p <> None)
    /\ (Project.status p = "new" -> Project.change_score p = 999).
Proof.
  intros G self bio_index repo_full_name p.
  unfold Collector._collect_project.
  destruct (PyStr.split "/" repo_full_name) as [|owner [|repo [|? ?]]];
    try discriminate.
  set (bio_state := default Collector.no_bio_state (bio_index !! repo)).
  destruct (bio_locked bio_state).
  { intros [= <-]. cbn. split; [split; [discriminate|intros [? _]; discriminate]
                               |discriminate]. }
  destruct (Collector.fetch_project _ _ _) as [e|f].
  { intros [= <-]. cbn [Project.status Project.exists_ Project.more Project.change_score].
    split; [split; [discriminate|intros [_ Hm]; congruence]|discriminate]. }
  cbv beta iota zeta.
  set (v := Collector._calculate_significance self _ _ _ _).
  pose proof (scorer_status self (Collector.f_commits f) (Collector.f_releases f)
                (Collector._check_readme_changed (Collector.f_readme f) bio_state)
                (negb (bio_exists bio_state))) as Hcases.
  cbv zeta in Hcases. fold v in Hcases.
  assert (Hscore : Significance.status v = "new" -> Significance.change_score v = 999).
  { subst v. unfold Collector._calculate_significance.
    destruct (negb (bio_exists bio_state)); [reflexivity|].
    intros Hn. destruct Hcases as [[_ ?]|[[Hu|Hk] _]]; [discriminate| |];
      unfold Collector._calculate_significance in *; congruence. }
  intros [= <-].
  cbn [Project.status Project.exists_ Project.more Project.change_score].
  destruct (Collector.force_update self && String.eqb (Significance.status v) "skip")
    eqn:Ef; cbn [Significance.status Significance.change_score].
  - apply andb_true_iff in Ef as [_ Ek]. apply String.eqb_eq in Ek.
    destruct Hcases as [[Hn _]|[_ Hnew]]; [congruence|].
    apply negb_false_iff in Hnew.
    split; [split; [discriminate|intros [? _]; congruence]|discriminate].
  - split; [|exact Hscore]. split.
    + intros Hn. destruct Hcases as [[_ Hnew]|[[Hu|Hk] _]]; try congruence.
      apply negb_true_iff in Hnew. split; [exact Hnew|discriminate].
    + intros [Hex _]. destruct Hcases as [[Hn _]|[_ Hnew]]; [exact Hn|].
      rewrite Hex in Hnew. discriminate.
Qed.

Lemma collected_new_iff_unpublished_witness :
  (Project.status Sample2.alpha_entry = "new"
   <-> Project.exists_ Sample2.alpha_entry = false
       /\ Project.more Sample2.alpha_entry <> None)
  /\ (Project.status Sample2.alpha_entry = "new"
      -> Project.change_score Sample2.alpha_entry = 999).
Proof.
  apply (collected_new_iff_unpublished Sample.github0 Sample.collector0
           Sample.index0 "me/alpha" Sample2.alpha_entry).
  vm_compute. reflexivity.
Defined.

(** ** From the Collector to the Writer *)

Section SelectionFacts.

Import Spec WriterRun.

Lemma selection_counts (l : list Project.t) :
  Z.of_nat
    (length
       (List.filter
          (fun p => (String.eqb (Project.status p) "update"
                     || String.eqb (Project.status p) "new")
                    && negb (Project.locked p)) l))
  = count_in BUpdates l + count_in BNew l.
Proof.
  unfold count_in.
  set (sel := fun p : Project.t => _).
  set (fu := fun p : Project.t => Bucket_eqb (bucket p) BUpdates).
  set (fn := fun p : Project.t => Bucket_eqb (bucket p) BNew).
  assert (Hsel : forall p, sel p = fu p || fn p /\ fu p && fn p = false).
  { intros p. subst sel fu fn. cbv beta. unfold bucket.
    destruct (Project.locked p), (String.eqb (Project.status p) "update"),
      (String.eqb (Project.status p) "new"); split; reflexivity. }
  induction l as [|p l IH]; [reflexivity|].
  cbn [List.filter]. destruct (Hsel p) as [-> Hdis].
  destruct (fu p), (fn p); cbn [orb andb length] in *;
    try discriminate; lia.
Qed.

End SelectionFacts.

(** X6.  The Writer drafts exactly the projects the Collector counted
    under updates and new: in the context of a Collector run, the number
    of projects the Writer selects is [updates + new], and the output
    [has_updates] is true exactly when the Writer has something to
    draft. *)
Theorem writer_selection_matches_summary :
  forall (G : GitHubClient) (Hst : Host) (self : Collector.t) (context : Context.t),
    Collector.run self = inr context ->
    Z.of_nat (length (WriterRun.projects_to_update context))
    = Summary.updates (Context.summary context) + Summary.new (Context.summary context)
    /\ (Collector.has_updates context = true
        <-> WriterRun.projects_to_update context <> []).
Proof.
  intros G Hst self context. unfold Collector.run, ebind at 1.
  destruct (BioSiteClient.get_project_index _ _) as [e|bio_index]; [discriminate|].
  intros Hrun.
  destruct (collect_all_adds self bio_index _ _ _ Hrun)
    as (added & Hp & _ & _ & _ & _ & Hu & Hn & _).
  cbn [Context.projects Context.summary Summary.updates Summary.new app] in *.
  assert (Hlen : Z.of_nat (length (WriterRun.projects_to_update context))
                 = Summary.updates (Context.summary context)
                   + Summary.new (Context.summary context)).
  { unfold WriterRun.projects_to_update. rewrite Hp, selection_counts. lia. }
  split; [exact Hlen|].
  unfold Collector.has_updates. rewrite <- Hlen.
  destruct (WriterRun.projects_to_update context) as [|p l]; cbn [length].
  - split; [discriminate|congruence].
  - split; [discriminate|intros _; apply Z.ltb_lt; lia].
Qed.

Lemma writer_selection_matches_summary_witness :
  Z.of_nat (length (WriterRun.projects_to_update Sample2.context0))
  = Summary.updates (Context.summary Sample2.context0)
    + Summary.new (Context.summary Sample2.context0)
  /\ (Collector.has_updates Sample2.context0 = true
      <-> WriterRun.projects_to_update Sample2.context0 <> []).
Proof.
  apply (writer_selection_matches_summary Sample.github0 Sample.host0 Sample.collector0).
  vm_compute. reflexivity.
Defined.

(** ** The index of published pages *)

Section IndexFacts.

Import BioSiteClient.
Context `{GitHubClient}.

Variable self : BioSiteClient.t.
Variable P : string -> BioState -> Prop.

(** A property of the records that every step of the loop establishes
    for the record it writes holds of the whole index, also when the
    loop is cut short by an exception. *)
Lemma index_items_invariant (items : list DirItem) :
  (forall index item index',
      In item items -> map_Forall P index ->
      index_item self index item = inr index' -> map_Forall P index') ->
  forall index, map_Forall P index ->
  map_Forall P (fst (index_items self index items)).
Proof.
  induction items as [|item items IH]; intros Hstep index Hindex; [exact Hindex|].
  cbn [index_items].
  destruct (index_item self index item) as [e|index'] eqn:Ei; [exact Hindex|].
  apply IH.
  - intros index1 item1 index2 Hin. apply Hstep. right. exact Hin.
  - eapply Hstep; [left; reflexivity|exact Hindex|exact Ei].
Qed.

Lemma get_project_index_invariant (output_dir : string) (index : gmap string BioState) :
  (forall items index0 item index',
      list_contents (owner self) (repo self) output_dir (branch self) = inr items ->
      In item items -> map_Forall P index0 ->
      index_item self index0 item = inr index' -> map_Forall P index') ->
  get_project_index self output_dir = inr index ->
  map_Forall P index.
Proof.
  intros Hstep. unfold get_project_index.
  destruct (list_contents _ _ _ _) as [e|items] eqn:El.
  - destruct e; intros [= <-]; apply map_Forall_empty.
  - pose proof (index_items_invariant items
                  (fun index0 item index' => Hstep items index0 item index' eq_refl)
                  ∅ (map_Forall_empty P)) as Hinv.
    destruct (index_items self ∅ items) as [index1 [e|]]; cbn [fst] in Hinv.
    + destruct e; intros [= <-]; exact Hinv.
    + intros [= <-]. exact Hinv.
Qed.

End IndexFacts.

(** X7.  Every record of the index built by [get_project_index] agrees
    with the content it holds: it says the page exists, it is locked
    exactly when the content holds the lock marker, and its manual
    sections and deploy date are those of the content; a page without
    content is unlocked and has no manual section. *)
Theorem index_records_are_consistent :
  forall (G : GitHubClient) (self : BioSiteClient.t) (output_dir : string)
         (index : gmap string BioState) (slug : string) (st : BioState),
    BioSiteClient.get_project_index self output_dir = inr index ->
    index !! slug = Some st ->
    Spec2.record_consistent st.
Proof.
  intros G self output_dir index slug st Hindex Hslug.
  refine (get_project_index_invariant self (fun _ st => Spec2.record_consistent st)
            output_dir index _ Hindex slug st Hslug).
  intros items index0 item index' _ _ Hinv. unfold BioSiteClient.index_item.
  destruct (_ && _); [|intros [= <-]; exact Hinv].
  unfold ebind. destruct (get_file_content _ _ _ _) as [e|content]; [discriminate|].
  intros [= <-]. apply map_Forall_insert_2; [|exact Hinv].
  unfold Spec2.record_consistent. cbn [bio_exists bio_content bio_manual_sections
                                        bio_locked bio_last_deploy].
  split; [reflexivity|].
  destruct (BioSiteClient.truthy content); repeat split.
Qed.

Lemma index_records_are_consistent_witness :
  exists st, Sample.index0 !! "gamma" = Some st /\ Spec2.record_consistent st.
Proof.
  eexists. split; [vm_compute; reflexivity|].
  apply (index_records_are_consistent Sample.github0
           (Collector.bio_site Sample.collector0) "projects/" Sample.index0 "gamma").
  - vm_compute. reflexivity.
  - vm_compute. reflexivity.
Defined.

(** X8.  Every record of the index comes from a listed file whose name
    ends in [.html]: its slug is that name without [.html], it carries
    the path and the revision of the listing and the content fetched from
    that path.  Directories and other files leave no record. *)
Theorem index_records_come_from_html_files :
  forall (G : GitHubClient) (self : BioSiteClient.t) (output_dir : string)
         (index : gmap string BioState) (slug : string) (st : BioState),
    BioSiteClient.get_project_index self output_dir = inr index ->
    index !! slug = Some st ->
    exists items,
      list_contents (BioSiteClient.owner self) (BioSiteClient.repo self) output_dir
        (BioSiteClient.branch self) = inr items
      /\ Spec2.record_of_item self items slug st.
Proof.
  intros G self output_dir index slug st Hindex Hslug.
  refine (get_project_index_invariant self
            (fun slug st =>
               exists items,
                 list_contents (BioSiteClient.owner self) (BioSiteClient.repo self)
                   output_dir (BioSiteClient.branch self) = inr items
                 /\ Spec2.record_of_item self items slug st)
            output_dir index _ Hindex slug st Hslug).
  intros items index0 item index' Hlist Hin Hinv. unfold BioSiteClient.index_item.
  destruct (String.eqb (item_type item) "file") eqn:Et; cbn [andb];
    [|intros [= <-]; exact Hinv].
  destruct (PyStr.endswith ".html" (item_name item)) eqn:Ee;
    [|intros [= <-]; exact Hinv].
  unfold ebind.
  destruct (get_file_content _ _ _ _) as [e|content] eqn:Ec; [discriminate|].
  intros [= <-]. apply map_Forall_insert_2; [|exact Hinv].
  exists items. split; [exact Hlist|].
  exists item. apply String.eqb_eq in Et.
  cbn [bio_path bio_sha bio_content]. repeat split; assumption.
Qed.

Lemma index_records_come_from_html_files_witness :
  exists st items,
    Sample.index0 !! "beta" = Some st
    /\ @list_contents Sample.github0 "me" "site" "projects/" "main" = inr items
    /\ @Spec2.record_of_item Sample.github0 (Collector.bio_site Sample.collector0)
         items "beta" st.
Proof.
  eexists.
  destruct (index_records_come_from_html_files Sample.github0
              (Collector.bio_site Sample.collector0) "projects/" Sample.index0 "beta"
              _ ltac:(vm_compute; reflexivity) ltac:(vm_compute; reflexivity))
    as (items & Hl & Hr).
  exists items. split; [reflexivity|]. split; [exact Hl|exact Hr].
Defined.

(** ** Facts about the string primitives *)

Section StringFacts.

Import PyStr.

Lemma sapp_cons (x : ascii) (a b : string) : String x a ++ b = String x (a ++ b).
Proof. reflexivity. Qed.

Lemma sapp_nil_l (b : string) : "" ++ b = b.
Proof. reflexivity. Qed.

Lemma sapp_assoc (a b c : string) : (a ++ b) ++ c = a ++ (b ++ c).
Proof.
  induction a as [|x a IH]; [reflexivity|]. rewrite !sapp_cons, IH. reflexivity.
Qed.

Lemma sapp_nil_r (a : string) : a ++ "" = a.
Proof.
  induction a as [|x a IH]; [reflexivity|]. rewrite sapp_cons, IH. reflexivity.
Qed.

Lemma slength_app (a b : string) :
  String.length (a ++ b) = (String.length a + String.length b)%nat.
Proof.
  induction a as [|x a IH]; [reflexivity|].
  rewrite sapp_cons. cbn [String.length]. rewrite IH. reflexivity.
Qed.

Lemma startswith_cons x p y s :
  startswith (String x p) (String y s) = Ascii.eqb x y && startswith p s.
Proof.
  unfold startswith. cbn [String.prefix].
  destruct (ascii_dec x y) as [->|Hne].
  - rewrite Ascii.eqb_refl. reflexivity.
  - apply Ascii.eqb_neq in Hne. rewrite Hne. reflexivity.
Qed.

Lemma startswith_nil s : startswith "" s = true.
Proof. destruct s; reflexivity. Qed.

Lemma startswith_app p t : startswith p (p ++ t) = true.
Proof.
  induction p as [|x p IH]; [apply startswith_nil|].
  rewrite sapp_cons, startswith_cons, Ascii.eqb_refl. exact IH.
Qed.

Lemma startswith_inv p : forall s,
  startswith p s = true -> s = p ++ drop (String.length p) s.
Proof.
  induction p as [|x p IH]; intros s Hs; [reflexivity|].
  destruct s as [|y s]; [discriminate|].
  rewrite startswith_cons in Hs. apply andb_true_iff in Hs as [Hx Hp].
  apply Ascii.eqb_eq in Hx. subst y.
  rewrite sapp_cons. cbn [String.length drop]. f_equal. apply IH, Hp.
Qed.

Lemma drop_app (a b : string) : drop (String.length a) (a ++ b) = b.
Proof. induction a as [|x a IH]; [destruct b; reflexivity|exact IH]. Qed.

Lemma take_app (a b : string) (n : nat) :
  take (String.length a + n) (a ++ b) = a ++ take n b.
Proof.
  induction a as [|x a IH]; [reflexivity|].
  rewrite sapp_cons. cbn [String.length Nat.add take]. rewrite IH. reflexivity.
Qed.

Lemma take_drop (n : nat) : forall s, take n s ++ drop n s = s.
Proof.
  induction n as [|n IH]; intros [|x s]; cbn [take drop]; try reflexivity.
  rewrite sapp_cons, IH. reflexivity.
Qed.

(** [find] returns the offset of an occurrence, and no occurrence
    starts before it. *)
Lemma find_some p : forall s k,
  find p s = Some k ->
  s = take k s ++ p ++ drop (k + String.length p) s
  /\ String.length (take k s) = k
  /\ forall j, (j < k)%nat -> startswith p (drop j s) = false.
Proof.
  induction s as [|x s IH]; intros k; cbn [find].
  - destruct (startswith p "") eqn:Ep; [|discriminate].
    intros [= <-]. split; [|split; [reflexivity|intros j Hj; lia]].
    cbn [take Nat.add]. rewrite sapp_nil_l. apply startswith_inv, Ep.
  - destruct (startswith p (String x s)) eqn:Ep.
    + intros [= <-]. split; [|split; [reflexivity|intros j Hj; lia]].
      cbn [take Nat.add]. rewrite sapp_nil_l. apply startswith_inv, Ep.
    + destruct (find p s) as [k'|] eqn:Ef; [|discriminate].
      cbn [fmap option_fmap option_map]. intros [= <-].
      destruct (IH k' eq_refl) as (Heq & Hlen & Hmin).
      cbn [take drop String.length Nat.add]. rewrite sapp_cons.
      split; [f_equal; exact Heq|]. split; [f_equal; exact Hlen|].
      intros [|j] Hj; cbn [drop]; [exact Ep|apply Hmin; lia].
Qed.

Lemma find_none p : forall s j,
  find p s = None -> startswith p (drop j s) = false.
Proof.
  induction s as [|x s IH]; intros j; cbn [find].
  - destruct (startswith p "") eqn:Ep; [discriminate|].
    intros _. destruct j; exact Ep.
  - destruct (startswith p (String x s)) eqn:Ep; [discriminate|].
    destruct (find p s) eqn:Ef; [discriminate|]. intros _.
    destruct j as [|j]; cbn [drop]; [exact Ep|apply IH; reflexivity].
Qed.

(** An occurrence at an offset before which there is none is the one
    [find] returns. *)
Lemma find_first p : forall s k,
  startswith p (drop k s) = true ->
  (k <= String.length s)%nat ->
  (forall j, (j < k)%nat -> startswith p (drop j s) = false) ->
  find p s = Some k.
Proof.
  induction s as [|x s IH]; intros k Hk Hlen Hmin.
  - cbn [String.length] in Hlen. assert (k = O) by lia. subst k.
    cbn [find]. cbn [drop] in Hk. rewrite Hk. reflexivity.
  - destruct k as [|k].
    + cbn [find]. cbn [drop] in Hk. rewrite Hk. reflexivity.
    + cbn [find]. pose proof (Hmin O ltac:(lia)) as H0. cbn [drop] in H0.
      rewrite H0.
      rewrite (IH k); [reflexivity|exact Hk|cbn [String.length] in Hlen; lia|].
      intros j Hj. apply (Hmin (S j)). lia.
Qed.

Lemma span_app (q : ascii -> bool) (a b : string) :
  forallb q (list_ascii_of_string a) = true ->
  match b with EmptyString => True | String y _ => q y = false end ->
  span q (a ++ b) = (a, b).
Proof.
  intros Ha Hb. induction a as [|x a IH].
  - rewrite sapp_nil_l. destruct b as [|y b]; [reflexivity|].
    cbn [span]. rewrite Hb. reflexivity.
  - cbn [list_ascii_of_string forallb] in Ha. apply andb_true_iff in Ha as [Hx Ha].
    rewrite sapp_cons. cbn [span]. rewrite Hx, (IH Ha). reflexivity.
Qed.

Lemma span_inv (q : ascii -> bool) : forall s a b,
  span q s = (a, b) ->
  s = a ++ b
  /\ forallb q (list_ascii_of_string a) = true
  /\ match b with EmptyString => True | String y _ => q y = false end.
Proof.
  induction s as [|x s IH]; intros a b; cbn [span].
  - intros [= <- <-]. repeat split.
  - destruct (q x) eqn:Ex.
    + destruct (span q s) as [a' b'] eqn:Es. intros [= <- <-].
      destruct (IH a' b' eq_refl) as (Heq & Hall & Hb).
      rewrite sapp_cons. cbn [list_ascii_of_string forallb]. rewrite Ex, Hall.
      repeat split; [f_equal; exact Heq|exact Hb].
    + intros [= <- <-]. repeat split. exact Ex.
Qed.

End StringFacts.

(** ** Extraction of manual sections *)

Section ExtractionFacts.

Import PyStr BioSiteClient Spec2.

Lemma startswith_app_r p : forall s t,
  startswith p s = true -> startswith p (s ++ t) = true.
Proof.
  intros s t Hs. rewrite (startswith_inv p s Hs), sapp_assoc. apply startswith_app.
Qed.

Lemma drop_app_le : forall j a t,
  (j <= String.length a)%nat -> drop j (a ++ t) = drop j a ++ t.
Proof.
  induction j as [|j IH]; intros a t Hj; [reflexivity|].
  destruct a as [|x a]; [cbn [String.length] in Hj; lia|].
  rewrite sapp_cons. cbn [drop]. apply IH. cbn [String.length] in Hj. lia.
Qed.

Lemma take_length (s : string) : take (String.length s) s = s.
Proof. induction s as [|x s IH]; cbn [String.length take]; [|rewrite IH]; reflexivity. Qed.

Lemma match_begin_inv s name rest :
  match_begin s = Some (name, rest) ->
  s = begin_marker name ++ rest /\ is_name name.
Proof.
  unfold match_begin, begin_marker.
  destruct (startswith manual_open s) eqn:Eo; [|discriminate].
  destruct (span is_word (drop (String.length manual_open) s)) as [n r] eqn:Es.
  destruct (0 <? String.length n)%nat eqn:En; [|discriminate].
  destruct (startswith comment_end r) eqn:Ec; [|discriminate].
  cbn [andb]. intros [= <- <-].
  destruct (span_inv _ _ _ _ Es) as (Hs & Hw & _).
  split.
  - rewrite (startswith_inv _ _ Eo) at 1. rewrite Hs.
    rewrite (startswith_inv _ _ Ec) at 1. rewrite !sapp_assoc. reflexivity.
  - split; [|exact Hw]. intros ->. discriminate.
Qed.

Lemma match_begin_intro name rest :
  is_name name -> match_begin (begin_marker name ++ rest) = Some (name, rest).
Proof.
  intros [Hne Hw]. unfold match_begin, begin_marker.
  rewrite !sapp_assoc, startswith_app, drop_app.
  rewrite (span_app is_word name (comment_end ++ rest) Hw) by reflexivity.
  rewrite startswith_app, drop_app.
  destruct name as [|x name]; [congruence|]. reflexivity.
Qed.

(** A match of the extraction pattern is a delimited block at the
    start of the text. *)
Lemma match_section_inv s m :
  match_section s = Some m -> delimited m /\ exists tail, s = m ++ tail.
Proof.
  unfold match_section.
  destruct (match_begin s) as [[name rest]|] eqn:Eb; [|discriminate].
  cbv zeta. fold (end_marker name).
  destruct (find (end_marker name) rest) as [k|] eqn:Ef; [|discriminate].
  intros E.
  destruct (match_begin_inv _ _ _ Eb) as [Hs Hname].
  destruct (find_some _ _ _ Ef) as (Hrest & Hlen & Hmin).
  set (body := take k rest) in *.
  set (tail := drop (k + String.length (end_marker name)) rest) in *.
  assert (Hm : take (String.length manual_open + String.length name
                     + String.length comment_end + k
                     + String.length (end_marker name)) s
               = begin_marker name ++ body ++ end_marker name).
  { rewrite Hs, Hrest.
    replace (String.length manual_open + String.length name
             + String.length comment_end + k + String.length (end_marker name))%nat
      with (String.length (begin_marker name)
            + (String.length body
               + (String.length (end_marker name) + 0)))%nat
      by (unfold begin_marker; rewrite !slength_app; lia).
    rewrite take_app, take_app, take_app. cbn [take]. rewrite sapp_nil_r. reflexivity. }
  rewrite Hm in E. assert (Em : m = begin_marker name ++ body ++ end_marker name)
    by congruence.
  subst m. clear E. split.
  - exists name, body. split; [exact Hname|]. split; [reflexivity|].
    apply find_first.
    + rewrite <- (sapp_nil_r (end_marker name)) at 2.
      rewrite drop_app. apply startswith_app.
    + rewrite slength_app. lia.
    + intros j Hj. destruct (startswith _ (drop j _)) eqn:Ej; [|reflexivity].
      apply (startswith_app_r _ _ tail) in Ej.
      rewrite <- drop_app_le in Ej by (rewrite slength_app; lia).
      rewrite sapp_assoc, <- Hrest in Ej.
      rewrite Hmin in Ej by lia. discriminate.
  - exists tail. rewrite Hs at 1. rewrite Hrest at 1. rewrite !sapp_assoc. reflexivity.
Qed.

Lemma findall_sections_delimited (s : string) : forall k,
  Forall delimited (findall_sections k s).
Proof.
  induction s as [|x s IH]; intros k; cbn [findall_sections]; [constructor|].
  destruct k as [|k]; [|apply IH].
  destruct (match_section (String x s)) as [m|] eqn:Em; [|apply IH].
  constructor; [apply (match_section_inv _ _ Em)|apply IH].
Qed.

(** A delimited block carries its name where the injection looks for
    it, and is a match of its own placeholder pattern. *)
Lemma delimited_name fragment :
  delimited fragment ->
  exists name,
    is_name name
    /\ WriterAgent.search_name fragment = Some name
    /\ WriterAgent.match_placeholder name fragment = Some fragment.
Proof.
  intros (name & body & Hname & -> & Hfind). exists name.
  split; [exact Hname|]. split.
  - pose proof (match_begin_intro name (body ++ end_marker name) Hname) as Hb.
    destruct (begin_marker name ++ body ++ end_marker name) as [|x s];
      cbn [WriterAgent.search_name]; rewrite Hb; reflexivity.
  - unfold WriterAgent.match_placeholder. cbv zeta.
    fold (begin_marker name) (end_marker name).
    rewrite startswith_app, drop_app, Hfind.
    rewrite <- !slength_app, sapp_assoc, take_length. reflexivity.
Qed.

End ExtractionFacts.

(** X9.  Every fragment that [_extract_manual_sections] returns is a
    block delimited by the begin and end markers of one name, with the
    end marker nowhere before its end.  The injection reads that name
    back from it (so an extracted fragment is never skipped), and the
    fragment is a match of its own placeholder pattern. *)
Theorem extracted_fragments_are_delimited :
  forall (html fragment : string),
    In fragment (BioSiteClient._extract_manual_sections html) ->
    Spec2.delimited fragment
    /\ exists name,
         Spec2.is_name name
         /\ WriterAgent.search_name fragment = Some name
         /\ WriterAgent.match_placeholder name fragment = Some fragment.
Proof.
  intros html fragment Hin.
  pose proof (findall_sections_delimited html O) as Hall.
  rewrite List.Forall_forall in Hall. specialize (Hall fragment Hin).
  split; [exact Hall|]. apply delimited_name, Hall.
Qed.

Lemma extracted_fragments_are_delimited_witness :
  In Sample2.beta_fragment (BioSiteClient._extract_manual_sections Sample.beta_page)
  /\ Spec2.delimited Sample2.beta_fragment
  /\ exists name,
       Spec2.is_name name
       /\ WriterAgent.search_name Sample2.beta_fragment = Some name
       /\ WriterAgent.match_placeholder name Sample2.beta_fragment
          = Some Sample2.beta_fragment.
Proof.
  assert (Hin : In Sample2.beta_fragment
                  (BioSiteClient._extract_manual_sections Sample.beta_page))
    by (vm_compute; left; reflexivity).
  split; [exact Hin|].
  apply (extracted_fragments_are_delimited Sample.beta_page Sample2.beta_fragment Hin).
Defined.

(** ** Injection of manual sections *)

Section MoreInjectionFacts.

Import PyStr WriterAgent Spec Spec2.

Lemma find_none_tail p x s : find p (String x s) = None -> find p s = None.
Proof.
  cbn [find]. destruct (startswith p (String x s)); [discriminate|].
  destruct (find p s); [discriminate|reflexivity].
Qed.

(** Without a begin marker of the name, the scan changes nothing. *)
Lemma sub_scan_without_marker name repl : forall s,
  contains (begin_marker name) s = false -> sub_scan name repl O s = s.
Proof.
  unfold contains. induction s as [|x s IH]; intros Hc; [reflexivity|].
  destruct (find (begin_marker name) (String x s)) eqn:Ef; [discriminate|].
  cbn [sub_scan]. unfold match_placeholder. cbv zeta. fold (begin_marker name).
  pose proof (find_none _ _ O Ef) as Hs. cbn [drop] in Hs. rewrite Hs.
  rewrite IH; [reflexivity|]. rewrite (find_none_tail _ _ _ Ef). reflexivity.
Qed.

(** The part of a template before its first backslash is taken as it
    is. *)
Lemma parse_literal_prefix (pre s : string) :
  has_backslash pre = false ->
  Template.parse O (pre ++ s)
  = ebind (Template.parse O s)
      (fun parts => inr (literal_parts pre ++ parts)%list).
Proof.
  unfold has_backslash. induction pre as [|c pre IH]; intros Hno.
  - rewrite sapp_nil_l. destruct (Template.parse O s); reflexivity.
  - cbn [list_ascii_of_string existsb] in Hno.
    apply orb_false_iff in Hno as [Hc Hrest]. rewrite Ascii.eqb_sym in Hc.
    rewrite sapp_cons. cbn [Template.parse]. rewrite Hc, (IH Hrest).
    destruct (Template.parse O s); reflexivity.
Qed.

Lemma letter_is_not_digit (c : ascii) :
  is_upper c || is_lower c = true -> is_digit c = false /\ Ascii.eqb c "0" = false.
Proof.
  destruct c as [[] [] [] [] [] [] [] []]; vm_compute; intros H;
    first [discriminate H | split; reflexivity].
Qed.

End MoreInjectionFacts.

(** X10.  A fragment whose name has no begin marker in the draft is
    dropped without a trace: when none of the fragments (taken without
    backslashes) finds a begin marker of its name, the injection returns
    the draft unchanged. *)
Theorem fragments_without_placeholder_are_dropped :
  forall (draft : string) (manual_sections : list string),
    Forall (fun section =>
              Spec.has_backslash section = false
              /\ Spec2.no_placeholder_for draft section) manual_sections ->
    WriterAgent._inject_manual_sections draft manual_sections = inr draft.
Proof.
  intros draft manual_sections Hall.
  induction Hall as [|section rest [Hno Hmiss] _ IH]; [reflexivity|].
  cbn [WriterAgent._inject_manual_sections].
  destruct (WriterAgent.search_name section) as [name|] eqn:En; [|exact IH].
  unfold WriterAgent.re_sub.
  destruct (parse_verbatim section Hno) as (parts & -> & _). cbn [ebind].
  rewrite (sub_scan_without_marker name parts draft (Hmiss name En)). exact IH.
Qed.

Lemma fragments_without_placeholder_are_dropped_witness :
  WriterAgent._inject_manual_sections Sample2.draft_without_placeholder
    [Sample2.beta_fragment]
  = inr Sample2.draft_without_placeholder.
Proof.
  apply fragments_without_placeholder_are_dropped.
  constructor; [|constructor].
  split; [vm_compute; reflexivity|].
  intros name. vm_compute. intros [= <-]. reflexivity.
Defined.

(** X11.  A fragment without a backslash is injected verbatim: every
    placeholder that carries its name, leftmost first, is replaced by
    exactly the fragment and every other character of the draft is
    kept. *)
Theorem backslash_free_fragment_is_injected_verbatim :
  forall (draft section section_name : string),
    Spec.has_backslash section = false ->
    WriterAgent.search_name section = Some section_name ->
    exists out,
      WriterAgent._inject_manual_sections draft [section] = inr out
      /\ Spec.Injected section_name section draft out.
Proof.
  intros draft section section_name Hno Hname.
  cbn [WriterAgent._inject_manual_sections]. rewrite Hname.
  unfold WriterAgent.re_sub.
  destruct (parse_verbatim section Hno) as (parts & -> & Hexp). cbn [ebind].
  eexists. split; [reflexivity|].
  apply (sub_scan_injected section_name section parts Hexp draft O).
Qed.

Lemma backslash_free_fragment_is_injected_verbatim_witness :
  exists out,
    WriterAgent._inject_manual_sections Sample.draft0 [Sample2.beta_fragment] = inr out
    /\ Spec.Injected "custom" Sample2.beta_fragment Sample.draft0 out.
Proof.
  apply backslash_free_fragment_is_injected_verbatim; vm_compute; reflexivity.
Defined.

(** X12.  A fragment whose first backslash is followed by a letter that
    is no escape of the template language ([\d], [\s], [\w], ...) or by
    nothing makes the injection raise, whatever the draft is, also when
    the draft holds no placeholder for it; the fragments after it are not
    reached. *)
Theorem fragment_with_unknown_escape_aborts :
  forall (draft section name pre : string) (rest : list string),
    WriterAgent.search_name section = Some name ->
    Spec.has_backslash pre = false ->
    (forall (c : ascii) (post : string),
        section = pre ++ String "\" (String c post) ->
        PyStr.is_upper c || PyStr.is_lower c = true ->
        Template.simple_escape c = None ->
        c <> "g"%char ->
        WriterAgent._inject_manual_sections draft (section :: rest)
        = inl (ReError "bad escape"))
    /\ (section = pre ++ "\" ->
        WriterAgent._inject_manual_sections draft (section :: rest)
        = inl (ReError "bad escape (end of pattern)")).
Proof.
  intros draft section name pre rest Hname Hno. split.
  - intros c post -> Hletter Hsimple Hg.
    cbn [WriterAgent._inject_manual_sections]. rewrite Hname.
    unfold WriterAgent.re_sub. rewrite (parse_literal_prefix pre _ Hno).
    cbn [Template.parse]. rewrite Ascii.eqb_refl.
    destruct (letter_is_not_digit c Hletter) as [Hd H0].
    apply Ascii.eqb_neq in Hg.
    unfold Template.escape. rewrite Hg, H0, Hd, Hsimple, Hletter. reflexivity.
  - intros ->. cbn [WriterAgent._inject_manual_sections]. rewrite Hname.
    unfold WriterAgent.re_sub. rewrite (parse_literal_prefix pre _ Hno). reflexivity.
Qed.

Lemma fragment_with_unknown_escape_aborts_witness :
  WriterAgent._inject_manual_sections Sample2.draft_without_placeholder
    [Sample.fragment_with_regex; Sample2.beta_fragment]
  = inl (ReError "bad escape").
Proof.
  apply (proj1 (fragment_with_unknown_escape_aborts
                  Sample2.draft_without_placeholder Sample.fragment_with_regex
                  "custom" "<!-- MANUAL:custom -->match " [Sample2.beta_fragment]
                  ltac:(vm_compute; reflexivity) ltac:(vm_compute; reflexivity))
           "d"%char "+ here<!-- /MANUAL:custom -->").
  - reflexivity.
  - reflexivity.
  - reflexivity.
  - discriminate.
Defined.

(** ** The deploy marker *)

Section DeployMarkerFacts.

Import PyStr BioSiteClient WriterRun Spec2.

Lemma extract_deploy_date_step (s : string) :
  _extract_deploy_date s
  = match marker_here s with
    | Some d => Some d
    | None =>
        match s with
        | EmptyString => None
        | String _ s' => _extract_deploy_date s'
        end
    end.
Proof. destruct s; reflexivity. Qed.

Lemma marker_here_needs_open s :
  startswith deployed_open s = false -> marker_here s = None.
Proof. unfold marker_here. intros ->. reflexivity. Qed.

(** The text before the first position at which a marker opens does
    not count. *)
Lemma extract_deploy_date_skip (a : string) : forall b,
  (forall j, (j < String.length a)%nat ->
             startswith deployed_open (drop j (a ++ b)) = false) ->
  _extract_deploy_date (a ++ b) = _extract_deploy_date b.
Proof.
  induction a as [|x a IH]; intros b Hno; [reflexivity|].
  rewrite extract_deploy_date_step.
  rewrite marker_here_needs_open
    by (apply (Hno O); cbn [String.length]; lia).
  rewrite sapp_cons. apply IH. intros j Hj.
  apply (Hno (S j)). cbn [String.length]. lia.
Qed.

Lemma startswith_split (m : string) : forall a x b,
  startswith m (a ++ String x b) = true ->
  startswith m a = true \/ In x (list_ascii_of_string m).
Proof.
  induction m as [|y m IH]; intros a x b Hs; [left; apply startswith_nil|].
  destruct a as [|z a].
  - rewrite sapp_nil_l, startswith_cons in Hs.
    apply andb_true_iff in Hs as [Hy _]. apply Ascii.eqb_eq in Hy.
    right. left. exact Hy.
  - rewrite sapp_cons, startswith_cons in Hs.
    apply andb_true_iff in Hs as [Hy Hm].
    destruct (IH a x b Hm) as [Ha|Hin].
    + left. rewrite startswith_cons, Hy, Ha. reflexivity.
    + right. right. exact Hin.
Qed.

(** A text without the opening of a marker, followed by a newline,
    opens no marker. *)
Lemma no_marker_before_newline (a b : string) :
  contains deployed_open a = false ->
  forall j, (j < String.length (a ++ newline))%nat ->
    startswith deployed_open (drop j ((a ++ newline) ++ b)) = false.
Proof.
  unfold contains. intros Hc j Hj.
  destruct (find deployed_open a) eqn:Ef; [discriminate|].
  rewrite slength_app in Hj. cbn [newline String.length] in Hj.
  rewrite sapp_assoc.
  rewrite drop_app_le by lia.
  destruct (startswith deployed_open (drop j a ++ newline ++ b)) eqn:Es;
    [|reflexivity].
  apply startswith_split in Es. destruct Es as [Ha|Hin].
  - rewrite (find_none _ _ j Ef) in Ha. discriminate.
  - vm_compute in Hin. intuition discriminate.
Qed.

Lemma match_date_app (today rest : string) :
  match_date today = Some today -> match_date (today ++ rest) = Some today.
Proof.
  unfold match_date. intros Hd.
  assert (Hlen : String.length today = 10%nat /\ take 10 today = today).
  { destruct (list_ascii_of_string (take 10 today))
      as [|? [|? [|? [|? [|? [|? [|? [|? [|? [|? [|? ?]]]]]]]]]]] eqn:El;
      try discriminate.
    destruct (_ && _); [|discriminate].
    assert (Ht : take 10 today = today) by congruence.
    split; [|exact Ht]. rewrite <- Ht.
    rewrite <- (string_of_list_ascii_of_string (take 10 today)), El. reflexivity. }
  destruct Hlen as [Hlen Ht].
  replace (take 10 (today ++ rest)) with today; [rewrite Ht in Hd; exact Hd|].
  rewrite <- Hlen, <- (Nat.add_0_r (String.length today)), take_app.
  cbn [take]. rewrite sapp_nil_r. reflexivity.
Qed.

Lemma date_length (today : string) :
  match_date today = Some today -> String.length today = 10%nat.
Proof.
  unfold match_date. intros Hd.
  destruct (list_ascii_of_string (take 10 today))
    as [|? [|? [|? [|? [|? [|? [|? [|? [|? [|? [|? ?]]]]]]]]]]] eqn:El;
    try discriminate.
  destruct (_ && _); [|discriminate].
  assert (Ht : take 10 today = today) by congruence.
  rewrite <- Ht.
  rewrite <- (string_of_list_ascii_of_string (take 10 today)), El. reflexivity.
Qed.

(** The marker of a well-formed date is read back where it stands. *)
Lemma marker_here_deploy_marker (today rest : string) :
  match_date today = Some today ->
  marker_here (deploy_marker today ++ rest) = Some today.
Proof.
  intros Hd. unfold marker_here, deploy_marker.
  fold deployed_open. rewrite !sapp_assoc, startswith_app.
  change 15%nat with (String.length deployed_open). rewrite drop_app.
  rewrite (match_date_app today _ Hd).
  rewrite <- (date_length today Hd), drop_app.
  change " -->" with comment_end. rewrite startswith_app. reflexivity.
Qed.

End DeployMarkerFacts.

(** X13.  The deploy marker written by [_add_deploy_marker] is the date
    the indexer reads back: for a well-formed date, a page in which the
    marker can be placed and which opens no marker before that place
    (in particular a page without markers) yields that date under
    [_extract_deploy_date]. *)
Theorem deploy_marker_is_read_back :
  forall (today html : string) (n : nat),
    BioSiteClient.match_date today = Some today ->
    Spec2.marker_offset html = Some n ->
    PyStr.contains Spec2.deployed_open (PyStr.take n html) = false ->
    BioSiteClient._extract_deploy_date (WriterRun.add_deploy_marker_on today html)
    = Some today.
Proof.
  intros today html n Hd Hoff Hno.
  unfold WriterRun.add_deploy_marker_on, Spec2.marker_offset, PyStr.contains in *.
  destruct (PyStr.find "<html" html) as [i|] eqn:Ei.
  - destruct (PyStr.find ">" (PyStr.drop (i + 5) html)) as [j|] eqn:Ej; [|discriminate].
    injection Hoff as <-.
    rewrite <- sapp_assoc.
    rewrite extract_deploy_date_skip
      by (apply no_marker_before_newline; exact Hno).
    rewrite extract_deploy_date_step, (marker_here_deploy_marker _ _ Hd). reflexivity.
  - rewrite extract_deploy_date_step, (marker_here_deploy_marker _ _ Hd). reflexivity.
Qed.

Lemma deploy_marker_is_read_back_witness :
  BioSiteClient._extract_deploy_date
    (WriterRun.add_deploy_marker_on "2024-05-03" Sample.draft0)
  = Some "2024-05-03".
Proof.
  apply (deploy_marker_is_read_back "2024-05-03" Sample.draft0 6);
    vm_compute; reflexivity.
Defined.

(** ** Conventional commit types *)

Section CommitTypeFacts.

Import PyStr CommitType Spec2.

Lemma lower_app (a b : string) : lower (a ++ b) = lower a ++ lower b.
Proof.
  induction a as [|x a IH]; [reflexivity|].
  rewrite sapp_cons. cbn [lower]. rewrite sapp_cons, IH. reflexivity.
Qed.

Lemma lower_char_word (c : ascii) : is_word (lower_char c) = is_word c.
Proof. destruct c as [[] [] [] [] [] [] [] []]; reflexivity. Qed.

Lemma lower_char_rparen (c : ascii) : not_rparen (lower_char c) = not_rparen c.
Proof. destruct c as [[] [] [] [] [] [] [] []]; reflexivity. Qed.

Lemma lower_forallb (q : ascii -> bool) (s : string) :
  (forall c, q (lower_char c) = q c) ->
  forallb q (list_ascii_of_string (lower s)) = forallb q (list_ascii_of_string s).
Proof.
  intros Hq. induction s as [|x s IH]; [reflexivity|].
  cbn [lower list_ascii_of_string forallb]. rewrite Hq, IH. reflexivity.
Qed.

Lemma lower_nonempty (s : string) : s <> "" -> lower s <> "".
Proof. destruct s; [congruence|discriminate]. Qed.

Lemma nonempty_length (s : string) : s <> "" -> (0 <? String.length s)%nat = true.
Proof. destruct s; [congruence|reflexivity]. Qed.

(** The scope in parentheses is passed over. *)
Lemma skip_scope_scope (scope rest : string) :
  scope <> "" ->
  forallb not_rparen (list_ascii_of_string scope) = true ->
  skip_scope ("(" ++ scope ++ ")" ++ rest) = rest.
Proof.
  intros Hne Hall. unfold skip_scope.
  rewrite sapp_cons, sapp_nil_l.
  rewrite startswith_cons, Ascii.eqb_refl, startswith_nil. cbn [andb drop].
  rewrite (span_app not_rparen scope (")" ++ rest) Hall) by reflexivity.
  rewrite (nonempty_length scope Hne), sapp_cons, sapp_nil_l.
  rewrite startswith_cons, Ascii.eqb_refl, startswith_nil. reflexivity.
Qed.

(** The pattern on a lower-case text that starts with a type, an
    optional scope, an optional [!] and a colon. *)
Lemma match_prefix_conventional (ty scope rest : string) (with_scope bang : bool) :
  is_name ty ->
  scope <> "" ->
  forallb not_rparen (list_ascii_of_string scope) = true ->
  match_prefix
    (ty ++ (if with_scope then "(" ++ scope ++ ")" else "")
        ++ (if bang then "!" else "") ++ ":" ++ rest)
  = Some ty.
Proof.
  intros [Hne Hw] Hs Hall. unfold match_prefix.
  rewrite (span_app is_word ty _ Hw)
    by (destruct with_scope, bang; reflexivity).
  rewrite (nonempty_length ty Hne).
  assert (Hbang : forall t,
             startswith ":"
               (if startswith "!" ((if bang then "!" else "") ++ ":" ++ t)
                then drop 1 ((if bang then "!" else "") ++ ":" ++ t)
                else (if bang then "!" else "") ++ ":" ++ t) = true).
  { intros t. destruct bang;
      rewrite ?sapp_cons, ?sapp_nil_l, !startswith_cons, ?startswith_nil;
      cbn [andb drop Ascii.eqb Bool.eqb];
      rewrite ?startswith_cons, ?startswith_nil; reflexivity. }
  destruct with_scope.
  - rewrite !sapp_assoc, (skip_scope_scope scope _ Hs Hall), Hbang. reflexivity.
  - rewrite sapp_nil_l.
    assert (Hskip : skip_scope ((if bang then "!" else "") ++ ":" ++ rest)
                    = (if bang then "!" else "") ++ ":" ++ rest).
    { unfold skip_scope. destruct bang;
        rewrite ?sapp_cons, ?sapp_nil_l, startswith_cons; reflexivity. }
    rewrite Hskip, Hbang. reflexivity.
Qed.

End CommitTypeFacts.

(** X14.  [_parse_commit_type] answers within a closed vocabulary: for
    every message the type is one of feat, fix, docs, style, refactor,
    perf, test, chore and other. *)
Theorem commit_type_is_in_vocabulary :
  forall (message : string),
    In (CommitType._parse_commit_type message)
      ["feat"; "fix"; "docs"; "style"; "refactor"; "perf"; "test"; "chore"; "other"].
Proof.
  intros message. unfold CommitType._parse_commit_type.
  destruct (CommitType.match_prefix (PyStr.lower message)) as [ty|];
    [|cbn; tauto].
  unfold CommitType.type_map.
  repeat (destruct (String.eqb ty _); [cbn; tauto|]). cbn; tauto.
Qed.

(** X15.  The type of a conventional commit is read from its first word
    alone, without regard to case: a message made of a word, an optional
    scope in parentheses, an optional [!] and a colon has the type the
    table gives for the lower-cased word, whatever the scope and the rest
    of the message are. *)
Theorem commit_type_ignores_scope_bang_and_case :
  forall (ty scope rest : string) (with_scope bang : bool),
    Spec2.is_name ty ->
    scope <> "" ->
    forallb CommitType.not_rparen (list_ascii_of_string scope) = true ->
    CommitType._parse_commit_type
      (ty ++ (if with_scope then "(" ++ scope ++ ")" else "")
          ++ (if bang then "!" else "") ++ ":" ++ rest)
    = default "other" (CommitType.type_map (PyStr.lower ty)).
Proof.
  intros ty scope rest with_scope bang [Hne Hw] Hs Hall.
  unfold CommitType._parse_commit_type.
  assert (Hlow :
            PyStr.lower
              (ty ++ (if with_scope then "(" ++ scope ++ ")" else "")
                  ++ (if bang then "!" else "") ++ ":" ++ rest)
            = PyStr.lower ty
              ++ (if with_scope then "(" ++ PyStr.lower scope ++ ")" else "")
              ++ (if bang then "!" else "") ++ ":" ++ PyStr.lower rest).
  { rewrite !lower_app. destruct with_scope, bang; rewrite ?lower_app; reflexivity. }
  rewrite Hlow.
  rewrite (match_prefix_conventional (PyStr.lower ty) (PyStr.lower scope)).
  - reflexivity.
  - split; [apply lower_nonempty, Hne|].
    rewrite (lower_forallb _ _ lower_char_word). exact Hw.
  - apply lower_nonempty, Hs.
  - rewrite (lower_forallb _ _ lower_char_rparen). exact Hall.
Qed.

Lemma commit_type_ignores_scope_bang_and_case_witness :
  CommitType._parse_commit_type "Feature(api)!: drop the v1 routes" = "feat".
Proof.
  apply (commit_type_ignores_scope_bang_and_case
           "Feature" "api" " drop the v1 routes" true true).
  - split; [discriminate|reflexivity].
  - discriminate.
  - reflexivity.
Defined.

(** ** The Deployer over all verdicts *)

Section DeployerRunFacts.

Import Remote Deployer Spec Spec2.
Context `{TargetRepo} `{LocalFiles} `{Host}.

Ltac step_m :=
  unfold mbind, M_bind, Remote.bind, Remote.log, Remote.ret, Remote.throw,
    Remote.catch, Remote.perform in *.

Lemma default_Some {A} (d a : A) : default d (Some a) = a.
Proof. reflexivity. Qed.

Lemma length_append {A} (l : list A) (x : A) : length (PyStr.append l x) = S (length l).
Proof. unfold PyStr.append. rewrite length_app. cbn [length]. lia. Qed.







Lemma process_all_dry_run_reads self verdicts : forall results,
  emits no_mutation (process_all (set_dry_run true self) results verdicts).
Proof.
  induction verdicts as [|verdict verdicts IH]; intros results; cbn [process_all].
  - apply emits_ret.
  - apply emits_bind; [|intros r; apply IH].
    unfold process_verdict.
    apply emits_bind; [apply gatekeeper_reads|intros d; apply deploy_dry_run_reads].
Qed.

End DeployerRunFacts.



(** X17.  A whole Deployer run in dry-run mode sends no call that
    changes the remote repository, whatever the verdicts, the drafts and
    the answers of the repository are. *)
Theorem dry_run_deployer_changes_nothing :
  forall (R : Remote.TargetRepo) (L : Remote.LocalFiles) (Hst : Host)
         (self : Deployer.t),
    Spec.emits Spec.no_mutation (Deployer.run (Deployer.set_dry_run true self)).
Proof.
  intros R L Hst self. unfold Deployer.run.
  apply emits_bind; [apply emits_log; reflexivity|intros _].
  destruct Remote.editor_results_json as [verdicts|]; [|apply emits_ret].
  apply process_all_dry_run_reads.
Qed.

(** ** What a deployment touches *)

(** Splits an exception on its kind and, for a [GithubException], on the
    digits of its status, up to the statuses the handlers single out. *)
Ltac by_status e tac :=
  let st := fresh "st" in
  let p := fresh "p" in
  destruct e as [? ?|st ?|?|?|?]; try tac;
  destruct st as [|p|p]; try tac;
  do 9 (try (destruct p as [p|p|]; try tac)).

Section DeployFootprint.

Import Remote Deployer Spec Spec2.
Context `{TargetRepo} `{Host}.

Lemma direct_push_footprint self slug content :
  emits (direct_push_event self slug) (_direct_push self slug content).
Proof.
  unfold _direct_push.
  apply emits_bind; [apply emits_log; reflexivity|intros _].
  destruct (dry_run self); [apply emits_ret|]. cbv zeta.
  apply emits_catch.
  - apply emits_bind; [apply emits_perform; split; reflexivity|intros existing].
    apply emits_perform; split; reflexivity.
  - intros e. by_status e ltac:(apply emits_throw).
    apply emits_perform; split; reflexivity.
Qed.

Lemma create_pull_request_footprint self slug content verdict :
  emits (pull_request_event self slug utcnow_date)
    (_create_pull_request self slug content verdict).
Proof.
  unfold _create_pull_request.
  apply emits_bind; [apply emits_log; reflexivity|intros _].
  destruct (dry_run self); [apply emits_ret|]. cbv zeta.
  apply emits_bind; [apply emits_perform; left; reflexivity|intros base_sha].
  apply emits_bind.
  { apply emits_catch; [apply emits_perform; reflexivity|].
    intros e. by_status e ltac:(apply emits_throw).
    apply emits_bind; [|intros _; apply emits_perform; reflexivity].
    apply emits_catch; [|intros _; apply emits_ret].
    apply emits_bind; [apply emits_perform; right; reflexivity|intros _].
    apply emits_perform; reflexivity. }
  intros _. apply emits_bind.
  { apply emits_catch.
    - apply emits_bind; [apply emits_perform; split; reflexivity|intros existing].
      apply emits_perform; split; reflexivity.
    - intros e. by_status e ltac:(apply emits_throw).
      apply emits_perform; split; reflexivity. }
  intros _.
  apply emits_bind; [apply emits_lift|intros pr_body].
  apply emits_bind; [apply emits_perform; split; reflexivity|intros pr_url].
  apply emits_bind; [|intros _; apply emits_ret].
  apply emits_catch; [apply emits_perform; reflexivity|intros _; apply emits_ret].
Qed.

End DeployFootprint.

(** X18.  A direct push touches the page of its slug on the target branch
    and nothing else: every call it sends reads, updates or creates the
    file [output_dir + slug + ".html"] on [target_branch]; it creates or
    deletes no branch and opens no pull request. *)
Theorem direct_push_touches_only_its_page :
  forall (R : Remote.TargetRepo) (self : Deployer.t) (slug content : string),
    Spec.emits (Spec2.direct_push_event self slug)
      (Deployer._direct_push self slug content).
Proof. intros R self slug content. apply direct_push_footprint. Qed.

(** X19.  Creating a pull request writes to the branch of the pull
    request only: the branch it creates or deletes is
    [siteops/update-<slug>-<date>], the page it reads, updates or creates
    is the page of the slug on that branch, and the pull request goes
    from that branch to the target branch. *)
Theorem pull_request_touches_only_its_branch :
  forall (R : Remote.TargetRepo) (Hst : Host) (self : Deployer.t)
         (slug content : string) (verdict : Verdict.t),
    Spec.emits (Spec2.pull_request_event self slug utcnow_date)
      (Deployer._create_pull_request self slug content verdict).
Proof. intros R Hst self slug content verdict. apply create_pull_request_footprint. Qed.

Section LabelFacts.

Import Remote Deployer Spec2.

Lemma bind_ext {A B} (m1 m2 : M A) (k1 k2 : A -> M B) tr :
  m1 tr = m2 tr -> (forall a tr', k1 a tr' = k2 a tr') ->
  (m1 ≫= k1) tr = (m2 ≫= k2) tr.
Proof.
  intros Hm Hk. unfold mbind, M_bind, bind. rewrite Hm.
  destruct (m2 tr) as [[e|a] tr1]; [reflexivity|apply Hk].
Qed.

Lemma catch_ext {A} (m1 m2 : M A) (h1 h2 : exn -> M A) tr :
  m1 tr = m2 tr -> (forall e tr', h1 e tr' = h2 e tr') ->
  catch m1 h1 tr = catch m2 h2 tr.
Proof.
  intros Hm Hh. unfold catch. rewrite Hm.
  destruct (m2 tr) as [[e|a] tr1]; [apply Hh|reflexivity].
Qed.

(** Labelling inside its [try] returns and leaves one call, whatever
    the repository answers. *)
Lemma labels_swallowed (R : TargetRepo) pr_url labels tr :
  catch (perform (Add_to_labels pr_url labels)) (fun _ => ret tt) tr
  = (inr tt, PyStr.append tr (Call (Add_to_labels pr_url labels))).
Proof.
  unfold catch, perform, ret.
  destruct (respond tr (Add_to_labels pr_url labels)) as [e|[]]; reflexivity.
Qed.

End LabelFacts.

(** X20.  A failure to put the labels on the pull request is swallowed:
    what [_create_pull_request] returns or raises, and the calls it
    sends, are the same whether labelling succeeds or fails with any
    error. *)
Theorem labelling_failure_is_swallowed :
  forall (R : Remote.TargetRepo) (Hst : Host) (self : Deployer.t)
         (slug content : string) (verdict : Verdict.t)
         (labels : exn + unit) (tr : list Remote.event),
    @Deployer._create_pull_request (Spec2.with_labels R labels) Hst
      self slug content verdict tr
    = @Deployer._create_pull_request (Spec2.with_labels R (inr tt)) Hst
        self slug content verdict tr.
Proof.
  intros R Hst self slug content verdict labels tr.
  unfold Deployer._create_pull_request.
  apply bind_ext; [reflexivity|intros _ tr0].
  destruct (Deployer.dry_run self); [reflexivity|]. cbv zeta.
  apply bind_ext; [reflexivity|intros base_sha tr1].
  apply bind_ext.
  { apply catch_ext; [reflexivity|intros e tr2].
    by_status e ltac:(reflexivity). }
  intros _ tr2. apply bind_ext.
  { apply catch_ext.
    - apply bind_ext; [reflexivity|intros existing tr3; reflexivity].
    - intros e tr3. by_status e ltac:(reflexivity). }
  intros _ tr3.
  apply bind_ext; [reflexivity|intros pr_body tr4].
  apply bind_ext; [reflexivity|intros pr_url tr5].
  apply bind_ext; [|intros _ tr6; reflexivity].
  rewrite !labels_swallowed. reflexivity.
Qed.

(** ** The decision between direct push and pull request *)

Section DecisionFacts.

Import Deployer Spec2.

Lemma gt_spec (a b : Q) : gt a b = true <-> (b < a)%Q.
Proof.
  unfold gt. rewrite negb_true_iff. split.
  - intros Hle. apply Qnot_le_lt. intros Hab.
    apply Qle_bool_iff in Hab. congruence.
  - intros Hlt. destruct (Qle_bool a b) eqn:E; [|reflexivity].
    apply Qle_bool_iff in E. exfalso. exact (Qlt_not_le _ _ Hlt E).
Qed.

(** When the risk is a number, or is not read, [_should_create_pr]
    returns, and it answers no exactly when the mode is not manual, the
    status is not [FLAGGED] and no high risk forces a pull request. *)
Lemma should_create_pr_false self status verdict :
  numeric_risk verdict \/ ~ risk_is_read self status ->
  exists should_pr,
    _should_create_pr self status verdict = inr should_pr
    /\ (should_pr = false
        <-> mode self <> "manual" /\ status <> "FLAGGED"
            /\ ~ (force_pr_on_high_risk self = true /\ high_risk self verdict)).
Proof.
  unfold _should_create_pr, above_threshold, high_risk, numeric_risk, risk_is_read, risk.
  intros Hread.
  destruct (String.eqb_spec (mode self) "manual") as [Hm|Hm].
  { exists true. split; [reflexivity|].
    split; [discriminate|intros (Hn & _); contradiction]. }
  destruct (String.eqb_spec status "FLAGGED") as [Hf|Hf].
  { exists true. split; [reflexivity|].
    split; [discriminate|intros (_ & Hn & _); contradiction]. }
  destruct (force_pr_on_high_risk self).
  - destruct (PyJson.number _) as [pct|] eqn:En.
    + cbn [ebind]. destruct (gt pct (high_risk_threshold self)) eqn:E.
      * exists true. split; [reflexivity|]. apply gt_spec in E.
        split; [discriminate|].
        intros (_ & _ & Hn). exfalso. apply Hn. split; [reflexivity|].
        exists pct. split; [reflexivity|exact E].
      * exists false. split; [reflexivity|]. split; [|reflexivity].
        intros _. split; [exact Hm|]. split; [exact Hf|].
        intros [_ (pct' & [= <-] & Hr)]. apply gt_spec in Hr. congruence.
    + exfalso. destruct Hread as [Hnum|Hnot]; [congruence|].
      apply Hnot. split; [exact Hm|]. split; [exact Hf|reflexivity].
  - exists false. split; [reflexivity|]. split; [|reflexivity].
    intros _. split; [exact Hm|]. split; [exact Hf|].
    intros [Hr _]. discriminate.
Qed.

(** When the comparison is reached with a risk that is no number,
    [_should_create_pr] raises. *)
Lemma should_create_pr_raises self status verdict :
  ~ numeric_risk verdict ->
  risk_is_read self status ->
  exists e, _should_create_pr self status verdict = inl e.
Proof.
  unfold _should_create_pr, above_threshold, numeric_risk, risk_is_read, risk.
  intros Hnum (Hm & Hf & Hforce).
  apply String.eqb_neq in Hm, Hf. rewrite Hm, Hf, Hforce.
  destruct (PyJson.number _) as [pct|]; [exfalso; apply Hnum; discriminate|].
  eexists. reflexivity.
Qed.

End DecisionFacts.

(** X21.  The whole decision table of the Gatekeeper for a draft that is
    there and was not rejected.  When the page is stale, or the value
    under [change_percentage] is a number (or the key is missing), or
    the risk is not read at all (manual mode, status [FLAGGED], or the
    high-risk policy switched off), the draft is deployed, and it is
    pushed directly exactly when the page is not stale, the mode is not
    [manual], the status is not [FLAGGED] and the change is not forced
    into a pull request by a risk above the threshold; any status other
    than [REJECT], [ERROR] and [FLAGGED] counts as approved.  When the
    page is not stale and the risk is read but is no number ([null], a
    string), the comparison raises and the Gatekeeper decides
    nothing. *)
Theorem direct_push_decision_table :
  forall (R : Remote.TargetRepo) (L : Remote.LocalFiles) (self : Deployer.t)
         (verdict : Verdict.t) (tr tr1 : list Remote.event)
         (draft_content : string) (freshness : Freshness.t),
    let slug := Verdict.slug verdict in
    let status := default "ERROR" (Review.status (Verdict.review verdict)) in
    let draft_path := "drafts/" ++ slug ++ ".html" in
    status <> "REJECT" ->
    status <> "ERROR" ->
    Remote.draft_file draft_path = Some draft_content ->
    Deployer._check_freshness self slug verdict
      (tr ++ [Remote.ReadFile draft_path])%list = (inr freshness, tr1) ->
    (Freshness.stale freshness = true \/ Spec2.numeric_risk verdict
     \/ ~ Spec2.risk_is_read self status ->
     exists should_pr verdict',
       fst (Deployer.gatekeeper self verdict tr)
       = inr (Deployer.Deploy should_pr draft_content verdict')
       /\ (should_pr = false
           <-> Freshness.stale freshness = false
               /\ Deployer.mode self <> "manual"
               /\ status <> "FLAGGED"
               /\ ~ (Deployer.force_pr_on_high_risk self = true
                     /\ Spec2.high_risk self verdict)))
    /\ (Freshness.stale freshness = false ->
        ~ Spec2.numeric_risk verdict ->
        Spec2.risk_is_read self status ->
        exists e, fst (Deployer.gatekeeper self verdict tr) = inl e).
Proof.
  intros R L self verdict tr tr1 draft_content freshness slug status draft_path
    Hrej Herr Hdraft Hfresh.
  unfold Deployer.gatekeeper. fold slug status draft_path.
  apply String.eqb_neq in Hrej, Herr. rewrite Hrej, Herr. cbn [orb].
  unfold mbind, Remote.M_bind, Remote.bind, Remote.log, Remote.lift. cbv beta iota.
  rewrite Hdraft. unfold PyStr.append. rewrite Hfresh.
  split.
  - intros Hcase. destruct (Freshness.stale freshness) eqn:Es.
    + eexists. eexists. split; [reflexivity|].
      split; [discriminate|intros [Hs _]; discriminate].
    + assert (Hread : Spec2.numeric_risk verdict \/ ~ Spec2.risk_is_read self status).
      { destruct Hcase as [Hs|Hcase]; [discriminate|exact Hcase]. }
      destruct (should_create_pr_false self status verdict Hread)
        as (should_pr & -> & Hiff).
      eexists. eexists. split; [reflexivity|]. rewrite Hiff. tauto.
  - intros Hs Hnum Hread. rewrite Hs.
    destruct (should_create_pr_raises self status verdict Hnum Hread) as [e ->].
    exists e. reflexivity.
Qed.

Lemma direct_push_decision_table_witness :
  let R := Sample.repo_with Sample.page_unchanged in
  let L := Sample.files_with (Some Sample.beta_page) [Sample2.verdict_lgtm] in
  exists should_pr verdict',
    fst (@Deployer.gatekeeper R L Sample.deployer0 Sample2.verdict_lgtm [])
    = inr (Deployer.Deploy should_pr Sample.draft0 verdict')
    /\ (should_pr = false
        <-> false = false
            /\ Deployer.mode Sample.deployer0 <> "manual"
            /\ "LGTM" <> "FLAGGED"
            /\ ~ (Deployer.force_pr_on_high_risk Sample.deployer0 = true
                  /\ Spec2.high_risk Sample.deployer0 Sample2.verdict_lgtm)).
Proof.
  cbv zeta.
  apply (proj1
           (direct_push_decision_table
              (Sample.repo_with Sample.page_unchanged)
              (Sample.files_with (Some Sample.beta_page) [Sample2.verdict_lgtm])
              Sample.deployer0 Sample2.verdict_lgtm []
              [Remote.ReadFile "drafts/beta.html"; Remote.Enter "_check_freshness";
               Remote.ReadFile "_data/context.json";
               Remote.Call (Remote.Get_contents "projects/beta.html" "main")]
              Sample.draft0
              {| Freshness.stale := false;
                 Freshness.expected_sha := Some (SHA1.hexdigest Sample.beta_page);
                 Freshness.current_sha := Some "b1" |}
              ltac:(discriminate) ltac:(discriminate) eq_refl
              ltac:(vm_compute; reflexivity))).
  right. left. discriminate.
Defined.



(** ** The Editor over all drafts *)

Section EditorCheckFacts.

Import PyStr EditorAgent Spec2.

Lemma filter_nil_Forall {A} (f : A -> bool) (l : list A) :
  List.filter f l = [] <-> Forall (fun x => f x = false) l.
Proof.
  induction l as [|x l IH]; cbn [List.filter].
  - split; [constructor|reflexivity].
  - destruct (f x) eqn:E.
    + split; [discriminate|]. intros Hall. inversion Hall; congruence.
    + rewrite IH. split; [intros Hl; constructor; assumption|].
      intros Hall. inversion Hall; assumption.
Qed.

(** What the checks leave of a verdict when they return: the slug and
    the path as they were; the status [REJECT] for a draft that fails
    the HTML check, else the status it came with, [APPROVE] turned into
    [FLAGGED] when a forbidden word was found. *)
Lemma checks_outcome self verdict draft verdict' :
  _add_deterministic_checks self (Dict verdict) draft = inr verdict' ->
  Review.slug verdict' = Review.slug verdict
  /\ Review.path verdict' = Review.path verdict
  /\ Review.status verdict'
     = if _is_valid_html draft then
         match Spec.found_forbidden self draft with
         | [] => Review.status verdict
         | _ :: _ =>
             match Review.status verdict with
             | Some s => Some (if String.eqb s "APPROVE" then "FLAGGED" else s)
             | None => None
             end
         end
       else Some "REJECT".
Proof.
  unfold _add_deterministic_checks, check_forbidden_words, check_html,
    Spec.found_forbidden.
  cbv zeta.
  destruct (List.filter _ _) as [|w ws];
    destruct (default (JList []) (Review.issues verdict));
    destruct (Review.status verdict) as [st|] eqn:Est;
    try destruct (String.eqb st "APPROVE");
    destruct (_is_valid_html draft);
    cbn [negb ebind PyJson.append raise]; try discriminate;
    match goal with
    | |- context [check_sections ?d ?l ?i] => destruct (check_sections d l i)
    end;
    cbn [ebind]; try discriminate;
    intros [= <-];
    cbn [Review.status Review.slug Review.path Review.set_issues Review.set_status];
    rewrite ?Est; (split; [reflexivity|]; split; reflexivity).
Qed.

(** The deterministic checks leave [APPROVE] only when the status came
    in as [APPROVE] and the draft passes both checks. *)
Lemma checks_approve self verdict draft verdict' :
  _add_deterministic_checks self (Dict verdict) draft = inr verdict' ->
  Review.status verdict' = Some "APPROVE" ->
  Review.status verdict = Some "APPROVE" /\ passes_checks self draft.
Proof.
  intros Hchecks Hs.
  destruct (checks_outcome self verdict draft verdict' Hchecks) as (_ & _ & Hst).
  rewrite Hs in Hst. unfold passes_checks.
  destruct (_is_valid_html draft); [|discriminate].
  destruct (Spec.found_forbidden self draft) as [|w ws] eqn:Ef.
  - split; [congruence|]. split; [reflexivity|].
    apply filter_nil_Forall. exact Ef.
  - destruct (Review.status verdict) as [s|]; [|discriminate].
    destruct (String.eqb_spec s "APPROVE"); [discriminate|congruence].
Qed.

(** With a value under [issues] that is no list, the first section that
    is missing makes the check raise. *)
Lemma check_sections_raises draft (sections : list string) (issues : Json) :
  (forall items, issues <> JList items) ->
  (exists section, In section sections /\ missing_section draft section = true) ->
  exists e, check_sections draft sections issues = inl e.
Proof.
  intros Hno. induction sections as [|s sections IH]; intros (section & Hin & Hmiss).
  - destruct Hin.
  - cbn [check_sections]. destruct (missing_section draft s) eqn:Es.
    + destruct issues; cbn [PyJson.append ebind raise];
        try (eexists; reflexivity).
      exfalso. eapply Hno. reflexivity.
    + apply IH. destruct Hin as [<-|Hin]; [congruence|].
      exists section. split; assumption.
Qed.

End EditorCheckFacts.

(** X23.  A required section that is missing never changes the status:
    for a draft that passes the HTML check and holds no forbidden word,
    and a verdict whose [issues] are a list (or missing), the checks
    return, keep the status and the reason of the reviewer, [APPROVE]
    included, keep every issue of the reviewer and add one issue for
    each missing section.  When the value under [issues] is no list
    ([null], a string) and a required section is missing, appending the
    issue raises instead. *)
Theorem missing_sections_only_add_issues :
  forall (self : EditorAgent.t) (verdict : Review.t) (draft : string),
    Spec2.passes_checks self draft ->
    (forall items,
        Spec2.listed_issues verdict = Some items ->
        exists verdict' items',
          EditorAgent._add_deterministic_checks self (Dict verdict) draft = inr verdict'
          /\ Review.status verdict' = Review.status verdict
          /\ Review.reason verdict' = Review.reason verdict
          /\ Review.issues verdict' = Some (JList items')
          /\ (forall issue, In issue items -> In issue items')
          /\ (forall section,
                In section
                  (default [] (required_sections (policy (EditorAgent.config self)))) ->
                EditorAgent.missing_section draft section = true ->
                In ("Missing required section: " ++ section) items'))
    /\ (Spec2.listed_issues verdict = None ->
        (exists section,
            In section (default [] (required_sections (policy (EditorAgent.config self))))
            /\ EditorAgent.missing_section draft section = true) ->
        exists e, EditorAgent._add_deterministic_checks self (Dict verdict) draft = inl e).
Proof.
  intros self verdict draft [Hvalid Hwords].
  apply filter_nil_Forall in Hwords.
  unfold EditorAgent._add_deterministic_checks, EditorAgent.check_forbidden_words,
    EditorAgent.check_html, Spec2.listed_issues, Spec2.issues_of.
  cbv zeta. rewrite Hwords, Hvalid. cbn [negb ebind].
  split.
  - intros items Hitems.
    destruct (default (JList []) (Review.issues verdict)) as [| | | | |items0|];
      try discriminate.
    injection Hitems as ->.
    destruct (check_sections_list draft
                (default [] (required_sections (policy (EditorAgent.config self))))
                items) as (items' & -> & Hkeep & Hadd).
    exists (Review.set_issues (JList items') verdict), items'.
    split; [reflexivity|]. split; [reflexivity|]. split; [reflexivity|].
    split; [reflexivity|]. split; [exact Hkeep|exact Hadd].
  - intros Hnone Hmissing.
    destruct (check_sections_raises draft
                (default [] (required_sections (policy (EditorAgent.config self))))
                (default (JList []) (Review.issues verdict))) as [e ->].
    + intros items Hl. rewrite Hl in Hnone. discriminate.
    + exact Hmissing.
    + exists e. reflexivity.
Qed.

Lemma missing_sections_only_add_issues_witness :
  exists verdict' items',
    EditorAgent._add_deterministic_checks Sample.editor0
      (Dict (Sample.review_of "APPROVE" (5 # 1))) Sample2.draft_without_summary
    = inr verdict'
    /\ Review.status verdict' = Some "APPROVE"
    /\ Review.reason verdict' = Some "reviewed"
    /\ Review.issues verdict' = Some (JList items')
    /\ (forall issue, In issue [] -> In issue items')
    /\ (forall section,
          In section ["summary"] ->
          EditorAgent.missing_section Sample2.draft_without_summary section = true ->
          In ("Missing required section: " ++ section) items').
Proof.
  refine (proj1
            (missing_sections_only_add_issues Sample.editor0
               (Sample.review_of "APPROVE" (5 # 1)) Sample2.draft_without_summary _)
            [] eq_refl).
  split; [vm_compute; reflexivity|repeat constructor].
Defined.

Section EditorRunFacts.

Import PyStr EditorAgent EditorRun Spec2.
Context `{Reviewer} `{EditorFiles}.

Lemma fold_left_invariant {A B} (Inv : A -> Prop) (f : A -> B -> A) (l : list B) :
  (forall a b, In b l -> Inv a -> Inv (f a b)) ->
  forall a, Inv a -> Inv (fold_left f l a).
Proof.
  induction l as [|b l IH]; intros Hstep a Ha; cbn [fold_left]; [exact Ha|].
  apply IH.
  - intros a' b' Hb'. apply Hstep. right. exact Hb'.
  - apply Hstep; [left; reflexivity|exact Ha].
Qed.

Lemma in_add_verdict v w results :
  In v (EditorResults.verdicts (EditorResults.add_verdict w results))
  <-> In v (EditorResults.verdicts results) \/ v = w.
Proof.
  cbn [EditorResults.verdicts EditorResults.add_verdict]. unfold append.
  rewrite in_app_iff. cbn [In]. split; intros [Hv|Hv]; auto.
  - destruct Hv as [Hv|[]]; auto.
Qed.

Lemma verdicts_count status results :
  EditorResults.verdicts (EditorResults.count status results)
  = EditorResults.verdicts results.
Proof.
  unfold EditorResults.count.
  destruct (String.eqb status "APPROVE"); [reflexivity|].
  destruct (String.eqb status "FLAGGED"); reflexivity.
Qed.

(** What the review of one draft adds to the list: entries of the slug
    that are [ERROR] entries, or the verdict of the review. *)
Lemma review_entries self results slug draft_content project_context v :
  In v (EditorResults.verdicts
          (review self results slug draft_content project_context)) ->
  In v (EditorResults.verdicts results)
  \/ (exists e, v = error_entry slug e)
  \/ (exists verdict,
        v = reviewed_entry slug verdict
        /\ ebind
             (_review_draft self draft_content
                (default "" (Project.more project_context ≫= Project.current_html))
                project_context)
             (fun verdict => _add_deterministic_checks self verdict draft_content)
           = inr verdict).
Proof.
  unfold review.
  destruct (ebind _ _) as [e|verdict].
  - rewrite in_add_verdict. intros [Hv|Hv]; [left; exact Hv|].
    right. left. exists e. exact Hv.
  - destruct (Review.status verdict) as [status|].
    + assert (Hmain :
        In v (EditorResults.verdicts
                (EditorResults.count status
                   (EditorResults.add_verdict (reviewed_entry slug verdict) results))) ->
        In v (EditorResults.verdicts results)
        \/ (exists e, v = error_entry slug e)
        \/ (exists verdict0,
              v = reviewed_entry slug verdict0
              /\ @inr exn Review.t verdict = inr verdict0)).
      { rewrite verdicts_count, in_add_verdict. intros [Hv|Hv]; [left; exact Hv|].
        right. right. exists verdict. split; [exact Hv|reflexivity]. }
      cbv zeta. destruct (Review.reason verdict); [exact Hmain|].
      rewrite in_add_verdict. intros [Hv|Hv]; [exact (Hmain Hv)|].
      right. left. eexists. exact Hv.
    + cbv zeta. rewrite !in_add_verdict. intros [[Hv|Hv]|Hv].
      * left. exact Hv.
      * right. right. exists verdict. split; [exact Hv|reflexivity].
      * right. left. eexists. exact Hv.
Qed.

Lemma count_where_append f l v :
  count_where f (append l v) = count_where f l + (if f v then 1 else 0).
Proof.
  unfold count_where, append. rewrite List.filter_app, length_app.
  cbn [List.filter]. destruct (f v); cbn [length]; lia.
Qed.

Lemma counted_error_entry slug e results :
  counted results -> counted (EditorResults.add_verdict (error_entry slug e) results).
Proof.
  unfold counted. cbn [EditorResults.approved EditorResults.flagged
    EditorResults.rejected EditorResults.verdicts EditorResults.add_verdict].
  rewrite !count_where_append. cbn. intros (-> & -> & ->).
  split; [lia|]. split; lia.
Qed.

Lemma has_status_reviewed st slug verdict :
  has_status st (reviewed_entry slug verdict)
  = match Review.status verdict with
    | Some s => String.eqb s st
    | None => false
    end.
Proof. reflexivity. Qed.

Lemma reviewed_otherwise_reviewed slug verdict :
  reviewed_otherwise (reviewed_entry slug verdict)
  = match Review.status verdict with
    | Some s => negb (String.eqb s "APPROVE") && negb (String.eqb s "FLAGGED")
    | None => false
    end.
Proof. reflexivity. Qed.

Lemma counted_review self results slug draft_content project_context :
  counted results ->
  counted (review self results slug draft_content project_context).
Proof.
  intros Hc. unfold review.
  destruct (ebind _ _) as [e|verdict]; [apply counted_error_entry; exact Hc|].
  cbv zeta. destruct (Review.status verdict) as [status|] eqn:Es.
  - assert (Hmain : counted (EditorResults.count status
               (EditorResults.add_verdict (reviewed_entry slug verdict) results))).
    { destruct Hc as (Ha & Hf & Hr). unfold counted, EditorResults.count.
      destruct (String.eqb_spec status "APPROVE") as [->|Hna];
        [|destruct (String.eqb_spec status "FLAGGED") as [->|Hnf]];
        cbn [EditorResults.approved EditorResults.flagged EditorResults.rejected
             EditorResults.verdicts EditorResults.add_verdict];
        rewrite !count_where_append, !has_status_reviewed,
          reviewed_otherwise_reviewed, Es.
      - cbn. split; [lia|]. split; lia.
      - cbn. split; [lia|]. split; lia.
      - apply String.eqb_neq in Hna, Hnf. rewrite Hna, Hnf. cbn [negb andb].
        split; [lia|]. split; lia. }
    destruct (Review.reason verdict); [exact Hmain|].
    apply counted_error_entry. exact Hmain.
  - apply counted_error_entry.
    destruct Hc as (Ha & Hf & Hr). unfold counted.
    cbn [EditorResults.approved EditorResults.flagged EditorResults.rejected
         EditorResults.verdicts EditorResults.add_verdict].
    rewrite !count_where_append, !has_status_reviewed,
      reviewed_otherwise_reviewed, Es.
    split; [lia|]. split; lia.
Qed.

Lemma run_invariant (Inv : EditorResults.t -> Prop) self :
  Inv EditorResults.empty ->
  (forall results draft_info draft_content project_context,
      In draft_info (default [] writer_results_json) ->
      editor_draft_file (draft_path draft_info) = Some draft_content ->
      _find_project_context editor_context_json (draft_slug draft_info)
      = Some project_context ->
      Inv results ->
      Inv (review self results (draft_slug draft_info) draft_content project_context)) ->
  Inv (run self).
Proof.
  intros Hempty Hstep. unfold run.
  destruct writer_results_json as [[|d drafts]|]; try exact Hempty.
  apply fold_left_invariant; [|exact Hempty].
  intros results draft_info Hin Hinv. unfold review_draft_info. cbv zeta.
  destruct (editor_draft_file (draft_path draft_info)) as [draft_content|] eqn:Ed;
    cbn [BioSiteClient.truthy]; [|exact Hinv].
  destruct draft_content as [|c draft_content]; [exact Hinv|].
  destruct (_find_project_context _ _) as [project_context|] eqn:Ec; [|exact Hinv].
  apply Hstep; assumption.
Qed.

End EditorRunFacts.

(** X24.  The Editor never approves a draft on its own: an entry of the
    results with status [APPROVE] belongs to a draft of the Writer whose
    file was read, for which the reviewer answered with an object of
    status [APPROVE], and which passes the HTML check and holds no
    forbidden word.  The entry carries the slug of that draft, unless
    the answer of the reviewer holds a slug of its own, which then takes
    its place. *)
Theorem approved_entry_passed_every_check :
  forall (Rv : Reviewer) (F : EditorFiles) (self : EditorAgent.t) (v : Verdict.t),
    In v (EditorResults.verdicts (EditorRun.run self)) ->
    Review.status (Verdict.review v) = Some "APPROVE" ->
    exists draft_info draft_content project_context answer,
      In draft_info (default [] writer_results_json)
      /\ Verdict.slug v = default (draft_slug draft_info) (Review.slug answer)
      /\ editor_draft_file (draft_path draft_info) = Some draft_content
      /\ EditorRun._find_project_context editor_context_json (draft_slug draft_info)
         = Some project_context
      /\ ask_review draft_content
           (default "" (Project.more project_context ≫= Project.current_html))
           project_context = inr (Some (Dict answer))
      /\ Review.status answer = Some "APPROVE"
      /\ Spec2.passes_checks self draft_content.
Proof.
  intros Rv F self.
  apply (run_invariant
           (fun r => forall v,
                In v (EditorResults.verdicts r) ->
                Review.status (Verdict.review v) = Some "APPROVE" -> _) self).
  - intros v [].
  - intros results draft_info draft_content project_context Hin Hfile Hctx IH v Hv Hs.
    apply review_entries in Hv as [Hv|[[e ->]|(verdict & -> & Hrev)]].
    + apply IH; assumption.
    + discriminate.
    + cbn [EditorRun.reviewed_entry Verdict.review Verdict.slug] in *.
      unfold EditorAgent._review_draft, ebind in Hrev.
      destruct (ask_review _ _ _) as [e|answer] eqn:Eask; [discriminate|].
      destruct answer as [[answer|other]|]; rewrite ?default_Some in Hrev.
      * destruct (checks_approve self _ draft_content verdict Hrev Hs) as [Hans Hpass].
        destruct (checks_outcome self _ draft_content verdict Hrev) as (Hslug & _).
        exists draft_info, draft_content, project_context, answer.
        rewrite Hslug.
        repeat (split; [first [assumption|reflexivity]|]). exact Hpass.
      * discriminate.
      * destruct (checks_approve self _ draft_content verdict Hrev Hs) as [Hans _].
        discriminate.
Qed.

Lemma approved_entry_passed_every_check_witness :
  let v := EditorRun.reviewed_entry "beta" (Sample.review_of "APPROVE" (5 # 1)) in
  exists draft_info draft_content project_context answer,
    In draft_info (default [] (@writer_results_json Sample2.editor_files0))
    /\ Verdict.slug v = default (draft_slug draft_info) (Review.slug answer)
    /\ @editor_draft_file Sample2.editor_files0 (draft_path draft_info)
       = Some draft_content
    /\ @EditorRun._find_project_context
         (@editor_context_json Sample2.editor_files0) (draft_slug draft_info)
       = Some project_context
    /\ @ask_review Sample.reviewer_approving draft_content
         (default "" (Project.more project_context ≫= Project.current_html))
         project_context = inr (Some (Dict answer))
    /\ Review.status answer = Some "APPROVE"
    /\ Spec2.passes_checks Sample.editor0 draft_content.
Proof.
  cbv zeta.
  apply (approved_entry_passed_every_check Sample.reviewer_approving
           Sample2.editor_files0 Sample.editor0).
  - vm_compute. left. reflexivity.
  - reflexivity.
Defined.

(** X25.  The counters of the Editor count entries of its list: approved
    and flagged are the numbers of entries with these statuses, and
    rejected is the number of reviewed entries with any other status.
    The [ERROR] entries of reviews that failed are in the list and in no
    counter. *)
Theorem editor_counters_count_entries :
  forall (Rv : Reviewer) (F : EditorFiles) (self : EditorAgent.t),
    let results := EditorRun.run self in
    EditorResults.approved results
    = Spec2.count_where (Spec2.has_status "APPROVE") (EditorResults.verdicts results)
    /\ EditorResults.flagged results
       = Spec2.count_where (Spec2.has_status "FLAGGED") (EditorResults.verdicts results)
    /\ EditorResults.rejected results
       = Spec2.count_where Spec2.reviewed_otherwise (EditorResults.verdicts results).
Proof.
  intros Rv F self. cbv zeta.
  apply (run_invariant Spec2.counted self).
  - split; [reflexivity|]. split; reflexivity.
  - intros results draft_info draft_content project_context _ _ _ Hc.
    apply counted_review. exact Hc.
Qed.

(** ** The Observer *)

Section DashboardFacts.

Import Observer Spec2.
Context `{Money}.

Lemma firstn_app_firstn {A} (n : nat) (l1 l2 : list A) :
  firstn n (l1 ++ firstn n l2)%list = firstn n (l1 ++ l2)%list.
Proof.
  rewrite !firstn_app, firstn_firstn.
  replace (Nat.min (n - length l1) n) with (n - length l1)%nat by lia.
  reflexivity.
Qed.

Lemma update_dashboard_consistent on_disk run_log :
  dashboard_consistent (default new_dashboard on_disk) ->
  dashboard_consistent (_update_dashboard on_disk run_log).
Proof.
  unfold dashboard_consistent, _update_dashboard. cbv zeta.
  cbn [total_runs successful_runs failed_runs total_projects_updated
       total_prs_created total_direct_pushes runs].
  intros (Hruns & Hupd & Hlen).
  split; [destruct (success run_log); lia|]. split; [lia|].
  rewrite length_firstn. lia.
Qed.

Lemma dashboard_after_cons on_disk run_log logs :
  dashboard_after on_disk (run_log :: logs)
  = dashboard_after (Some (_update_dashboard on_disk run_log)) logs.
Proof. reflexivity. Qed.

Lemma dashboard_after_consistent logs : forall on_disk,
  dashboard_consistent (default new_dashboard on_disk) ->
  dashboard_consistent (default new_dashboard (dashboard_after on_disk logs)).
Proof.
  induction logs as [|run_log logs IH]; intros on_disk Hc; [exact Hc|].
  rewrite dashboard_after_cons. apply IH. rewrite default_Some.
  apply update_dashboard_consistent. exact Hc.
Qed.

Lemma dashboard_after_history logs : forall on_disk,
  let before := default new_dashboard on_disk in
  let after := default new_dashboard (dashboard_after on_disk logs) in
  total_runs after = total_runs before + len logs
  /\ runs after = firstn 20 (rev (map entry_of logs) ++ runs before)%list
     \/ (logs = [] /\ after = before).
Proof.
  induction logs as [|run_log logs IH]; intros on_disk; cbv zeta.
  - right. split; reflexivity.
  - left. rewrite dashboard_after_cons.
    destruct (IH (Some (_update_dashboard on_disk run_log))) as [[Ht Hr]|[-> Heq]];
      cbv zeta in *.
    + rewrite Ht, Hr, !default_Some. cbn [_update_dashboard total_runs runs].
      fold (entry_of run_log). split.
      * unfold len. cbn [length]. lia.
      * rewrite firstn_app_firstn. cbn [map rev].
        rewrite <- app_assoc. reflexivity.
    + cbn [dashboard_after fold_left]. rewrite default_Some.
      cbn [_update_dashboard total_runs runs]. fold (entry_of run_log).
      split; [unfold len; cbn [length]; lia|reflexivity].
Qed.

End DashboardFacts.

(** X26.  The counters of the dashboard stay consistent over any number
    of runs: starting from no dashboard file, or from one whose counters
    agree, after every run the total number of runs is the number of
    successful plus failed runs, the projects updated are the pull
    requests plus the direct pushes, and at most 20 runs are listed. *)
Theorem dashboard_counters_stay_consistent :
  forall (M : Money) (on_disk : option Observer.Dashboard)
         (logs : list Observer.RunLog),
    Spec2.dashboard_consistent (default Observer.new_dashboard on_disk) ->
    Spec2.dashboard_consistent
      (default Observer.new_dashboard (Observer.dashboard_after on_disk logs)).
Proof. intros M on_disk logs. apply dashboard_after_consistent. Qed.

Lemma dashboard_counters_stay_consistent_witness :
  Spec2.dashboard_consistent
    (default (@Observer.new_dashboard Sample2.cents)
       (Observer.dashboard_after None
          [Sample2.run_log_of "r1" true 1 2; Sample2.run_log_of "r2" false 0 0])).
Proof.
  apply (dashboard_counters_stay_consistent Sample2.cents None
           [Sample2.run_log_of "r1" true 1 2; Sample2.run_log_of "r2" false 0 0]).
  split; [reflexivity|]. split; [reflexivity|]. cbn. lia.
Defined.

(** X27.  The dashboard lists the most recent runs, newest first, and
    never more than 20 of them: after a sequence of runs its list is the
    first 20 lines of the new runs in reverse order followed by the lines
    it held before, and its number of runs grew by the number of new
    runs. *)
Theorem dashboard_keeps_last_twenty_runs :
  forall (M : Money) (on_disk : option Observer.Dashboard)
         (run_log : Observer.RunLog) (logs : list Observer.RunLog),
    let before := default Observer.new_dashboard on_disk in
    let after :=
      default Observer.new_dashboard
        (Observer.dashboard_after on_disk (run_log :: logs)) in
    Observer.total_runs after
    = Observer.total_runs before + Observer.len (run_log :: logs)
    /\ Observer.runs after
       = firstn 20
           (rev (map Spec2.entry_of (run_log :: logs)) ++ Observer.runs before)%list.
Proof.
  intros M on_disk run_log logs. cbv zeta.
  destruct (dashboard_after_history (run_log :: logs) on_disk) as [Hh|[Hnil _]];
    [exact Hh|discriminate].
Qed.

Section HeldBackFacts.

Import Remote Deployer Spec2.
Context `{TargetRepo} `{LocalFiles} `{Host}.

(** Drafts the Editor held back are skipped one by one; nothing else in
    the results moves and the trace stays as it is. *)
Lemma process_all_held_back self verdicts : forall results tr,
  Forall held_back verdicts ->
  exists results',
    process_all self results verdicts tr = (inr results', tr)
    /\ Results.pushed results' = Results.pushed results
    /\ Results.prs results' = Results.prs results
    /\ Results.errors results' = Results.errors results
    /\ length (Results.skipped results')
       = (length (Results.skipped results) + length verdicts)%nat.
Proof.
  induction verdicts as [|verdict verdicts IH]; intros results tr Hall.
  - exists results. cbn [length]. repeat split; try reflexivity. lia.
  - inversion Hall as [|v vs Hv Hvs]; subst.
    cbn [process_all]. unfold process_verdict, mbind, M_bind, bind.
    rewrite (gatekeeper_rejected self verdict tr Hv). cbn [deploy]. unfold ret.
    destruct (IH (Results.add_skipped (Verdict.slug verdict)
                    (default "Rejected by Editor"
                       (Review.reason (Verdict.review verdict))) results) tr Hvs)
      as (results' & -> & Hp & Hprs & He & Hs).
    exists results'. split; [reflexivity|].
    cbn [Results.pushed Results.prs Results.errors Results.skipped
         Results.add_skipped] in *.
    rewrite length_append in Hs. cbn [length].
    repeat split; try assumption. lia.
Qed.

End HeldBackFacts.

(** X28.  A run in which the Editor held back every draft is logged as
    failed although nothing went wrong: the Deployer skips every draft
    and records no error, the Observer reports the Deployer phase as
    [success] with as many skipped drafts as verdicts, and the run as a
    whole as not successful, because nothing was deployed. *)
Theorem run_without_deployment_is_logged_as_failed :
  forall (R : Remote.TargetRepo) (L : Remote.LocalFiles) (Hst : Host)
         (self : Deployer.t) (tr : list Remote.event) (verdicts : list Verdict.t),
    Remote.editor_results_json = Some verdicts ->
    Forall Spec2.held_back verdicts ->
    exists results,
      fst (Deployer.run self tr) = inr results
      /\ Observer._determine_success (Some results) = false
      /\ Observer.ds_status (Observer._summarize_deployer (Some results)) = "success"
      /\ Observer.ds_skipped (Observer._summarize_deployer (Some results))
         = Observer.len verdicts
      /\ Observer.ds_errors (Observer._summarize_deployer (Some results)) = 0.
Proof.
  intros R L Hst self tr verdicts Hfile Hall.
  unfold Deployer.run, mbind, Remote.M_bind, Remote.bind, Remote.log.
  cbv beta iota. rewrite Hfile.
  destruct (process_all_held_back self verdicts Results.empty
              (PyStr.append tr (Remote.ReadFile "_data/editor_results.json")) Hall)
    as (results & -> & Hp & Hprs & He & Hs).
  exists results. split; [reflexivity|].
  cbn [Results.pushed Results.prs Results.errors Results.skipped Results.empty] in *.
  unfold Observer._determine_success, Observer._summarize_deployer, Observer.len.
  cbn [Observer.ds_status Observer.ds_skipped Observer.ds_errors].
  rewrite Hp, Hprs, He, Hs. cbn [length]. repeat split; reflexivity.
Qed.

Lemma run_without_deployment_is_logged_as_failed_witness :
  let R := Sample.repo_with Sample.page_unchanged in
  let L := Sample.files_with (Some Sample.beta_page)
             [Sample.verdict_of "REJECT" (10 # 1)] in
  exists results,
    fst (@Deployer.run R L Sample.host0 Sample.deployer0 []) = inr results
    /\ Observer._determine_success (Some results) = false
    /\ Observer.ds_status (Observer._summarize_deployer (Some results)) = "success"
    /\ Observer.ds_skipped (Observer._summarize_deployer (Some results)) = 1
    /\ Observer.ds_errors (Observer._summarize_deployer (Some results)) = 0.
Proof.
  cbv zeta.
  apply (run_without_deployment_is_logged_as_failed
           (Sample.repo_with Sample.page_unchanged)
           (Sample.files_with (Some Sample.beta_page)
              [Sample.verdict_of "REJECT" (10 # 1)])
           Sample.host0 Sample.deployer0 []
           [Sample.verdict_of "REJECT" (10 # 1)]).
  - reflexivity.
  - constructor; [left; reflexivity|constructor].
Defined.

(** ** A project whose data cannot be fetched *)


